(** * Arcade-Archiver: a shallow embedding of [grab_archive.py]

    The program scans an HTML index page for [.zip] links, downloads every
    archive with resume and retry, and unpacks each one into its own folder
    after checking the stored entry names for path traversal.

    Modelling conventions.
    - A Python [str] is a [string]: the sequence of the bytes of its UTF-8
      encoding.  Every character the program inspects ([/], [.], [%], the
      characters of [".zip"], the characters it deletes from file names) is
      ASCII, and no byte of a multi-byte UTF-8 sequence is ASCII.  White
      space is all of [str.isspace]: the characters outside ASCII are
      recognised by their encodings.  [str.lower] maps the ASCII letters
      only: the program compares lowered text with ["a"] and [".zip"], and
      no character outside ASCII has a lower case that makes such a
      comparison succeed.
    - Paths are POSIX paths ([pathlib.PosixPath]); [".."] in a path is
      resolved on its components when the path is used.
    - The file system is a finite map from absolute paths to nodes, a
      regular file with its bytes or a directory.  Operations fail the way
      the system calls do when a file stands where a directory is needed
      or the other way round; permissions, full disks and links are not
      modelled.  The limits on the length of a name and of a path are
      modelled where the program asks whether a path exists: in the loop
      of [main] these tests stand outside every [try].
    - An exception is a value of [exn]; a call that may raise returns a
      [result].
    - The network and the libraries the program calls ([html.parser],
      [urllib.parse], [zipfile]) are parameters: the record [env] holds
      what the servers answer, the class [Library] what the library
      functions compute.  [html.parser] may raise on the page it is fed.
    - The lines printed, the requests sent and the pauses are collected in
      a log of events, oldest first.  The progress line of a transfer,
      which depends on the clock, is left out, and so is the socket
      timeout. *)

From Stdlib Require Import ZArith Lia Ascii String.
From Equations Require Import Equations.
From stdpp Require Import base gmap strings list fin_maps.

(** ** Strings *)

Module Str.

Definition lower_ascii (c : ascii) : ascii :=
  let n := nat_of_ascii c in
  if (65 <=? n) && (n <=? 90) then ascii_of_nat (n + 32) else c.

(** [str.lower()] *)
Fixpoint lower (s : string) : string :=
  match s with
  | EmptyString => EmptyString
  | String c r => String (lower_ascii c) (lower r)
  end.

Definition to_list (s : string) : list ascii := list_ascii_of_string s.
Definition of_list (l : list ascii) : string := string_of_list_ascii l.

(** [s.endswith(suf)] *)
Definition endswith (s suf : string) : bool :=
  let n := String.length s in
  let k := String.length suf in
  (k <=? n) && bool_decide (String.substring (n - k) k s = suf).

(** [s.startswith(pre)] *)
Definition startswith (s pre : string) : bool :=
  bool_decide (String.substring 0 (String.length pre) s = pre)
  && (String.length pre <=? String.length s).

(** The characters [str.strip()] removes are those [str.isspace()]
    accepts: U+0009 to U+000D, U+001C to U+0020, U+0085, U+00A0, U+1680,
    U+2000 to U+200A, U+2028, U+2029, U+202F, U+205F and U+3000.  The first
    ten are one byte in UTF-8; U+0085 and U+00A0 are [C2 85] and [C2 A0];
    the others take three bytes: [E1 9A 80], [E2 80 80] to [E2 80 8A],
    [E2 80 A8], [E2 80 A9], [E2 80 AF], [E2 81 9F] and [E3 80 80]. *)
Definition is_space (c : ascii) : bool :=
  let n := nat_of_ascii c in
  ((9 <=? n) && (n <=? 13)) || ((28 <=? n) && (n <=? 32)).

Definition is_space2 (a b : ascii) : bool :=
  let x := nat_of_ascii a in
  let y := nat_of_ascii b in
  (x =? 194) && ((y =? 133) || (y =? 160)).

Definition is_space3 (a b c : ascii) : bool :=
  let x := nat_of_ascii a in
  let y := nat_of_ascii b in
  let z := nat_of_ascii c in
  ((x =? 225) && (y =? 154) && (z =? 128))
  || ((x =? 226) && (y =? 128)
      && (((128 <=? z) && (z <=? 138))
          || (z =? 168) || (z =? 169) || (z =? 175)))
  || ((x =? 226) && (y =? 129) && (z =? 159))
  || ((x =? 227) && (y =? 128) && (z =? 128)).

Section StripFront.

(** The tests for a white-space character of one, two and three bytes at
    the front of a list. *)
Variable s1 : ascii -> bool.
Variable s2 : ascii -> ascii -> bool.
Variable s3 : ascii -> ascii -> ascii -> bool.

(** Whether the list begins with a white-space character. *)
Definition space_front (l : list ascii) : bool :=
  match l with
  | a :: r1 =>
      s1 a
      || match r1 with
         | b :: r2 =>
             s2 a b
             || match r2 with
                | c :: _ => s3 a b c
                | [] => false
                end
         | [] => false
         end
  | [] => false
  end.

(** Dropping the white-space characters at the front. *)
Fixpoint strip_front (l : list ascii) : list ascii :=
  match l with
  | a :: r1 =>
      if s1 a then strip_front r1
      else
        match r1 with
        | b :: r2 =>
            if s2 a b then strip_front r2
            else
              match r2 with
              | c :: r3 => if s3 a b c then strip_front r3 else l
              | [] => l
              end
        | [] => l
        end
  | [] => []
  end.

End StripFront.

(** [str.lstrip()] on the bytes, and [str.rstrip()] on the bytes in
    reverse order, where the bytes of a character come last first. *)
Definition lstrip_list : list ascii -> list ascii :=
  strip_front is_space is_space2 is_space3.
Definition rstrip_rev_list : list ascii -> list ascii :=
  strip_front is_space (fun b a => is_space2 a b)
    (fun c b a => is_space3 a b c).

(** [str.strip()] *)
Definition strip (s : string) : string :=
  of_list (rev (rstrip_rev_list (rev (lstrip_list (to_list s))))).

(** [s.split(sep)] for a one-character separator: never empty. *)
Fixpoint split_go (sep : ascii) (cur : list ascii) (l : list ascii)
  : list string :=
  match l with
  | [] => [of_list (rev cur)]
  | c :: r =>
      if decide (c = sep) then of_list (rev cur) :: split_go sep [] r
      else split_go sep (c :: cur) r
  end.
Definition split (sep : ascii) (s : string) : list string :=
  split_go sep [] (to_list s).

(** ["".join(ch for ch in s if keep ch)] *)
Definition filter_chars (keep : ascii -> bool) (s : string) : string :=
  of_list (List.filter keep (to_list s)).

(** [c in s] for a character. *)
Definition contains_char (c : ascii) (s : string) : bool :=
  bool_decide (c ∈ to_list s).

(** [s.rfind(c)] for a character: the index of its last occurrence. *)
Fixpoint rfind_go (c : ascii) (l : list ascii) (i : nat) (acc : option nat)
  : option nat :=
  match l with
  | [] => acc
  | x :: r => rfind_go c r (S i) (if decide (x = c) then Some i else acc)
  end.
Definition rfind (c : ascii) (s : string) : option nat :=
  rfind_go c (to_list s) 0 None.

(** [s[i:]] and [s[:i]] *)
Definition slice_from (i : nat) (s : string) : string :=
  of_list (drop i (to_list s)).
Definition slice_to (i : nat) (s : string) : string :=
  of_list (take i (to_list s)).

Definition hex_val (c : ascii) : option nat :=
  let n := nat_of_ascii c in
  if (48 <=? n) && (n <=? 57) then Some (n - 48)
  else if (65 <=? n) && (n <=? 70) then Some (n - 55)
  else if (97 <=? n) && (n <=? 102) then Some (n - 87)
  else None.

(** [urllib.parse.unquote]: every [%XX] with two hexadecimal digits becomes
    the byte [XX]; a [%] not followed by two such digits is kept.  (Python
    then decodes the bytes as UTF-8 and puts U+FFFD in place of a sequence
    that is not UTF-8; here the bytes stay as they are.) *)
Fixpoint unquote_list (l : list ascii) : list ascii :=
  match l with
  | [] => []
  | c :: tl =>
      if decide (c = "%"%char) then
        match tl with
        | a :: b :: r =>
            match hex_val a, hex_val b with
            | Some x, Some y => ascii_of_nat (16 * x + y) :: unquote_list r
            | _, _ => c :: unquote_list tl
            end
        | _ => c :: unquote_list tl
        end
      else c :: unquote_list tl
  end.
Definition unquote (s : string) : string := of_list (unquote_list (to_list s)).

End Str.

(** ** POSIX paths as strings: [os.path] and [pathlib.PurePosixPath] *)

Module Posix.

(** [os.path.basename]: what follows the last slash. *)
Definition basename (p : string) : string :=
  match Str.rfind "/" p with
  | Some i => Str.slice_from (S i) p
  | None => p
  end.

(** [PurePosixPath(s).is_absolute()] *)
Definition is_absolute (s : string) : bool := Str.startswith s "/".

(** The components of [PurePosixPath(s)] below its root: empty components
    and ["."] are dropped, [".."] is kept. *)
Definition components (s : string) : list string :=
  filter (fun c => c ≠ "" /\ c ≠ ".") (Str.split "/" s).

(** The root of [PurePosixPath(s)]: exactly two leading slashes are kept. *)
Definition root (s : string) : list string :=
  if Str.startswith s "//" && negb (Str.startswith s "///") then ["//"]
  else if Str.startswith s "/" then ["/"]
  else [].

(** [PurePosixPath(s).parts] *)
Definition parts (s : string) : list string := root s ++ components s.

(** [PurePath.suffix] and [PurePath.stem], from the last component [name]:
    the last dot counts when it is neither the first nor the last
    character. *)
Definition splits_at (name : string) : option nat :=
  match Str.rfind "." name with
  | Some i => if (0 <? i) && (i <? String.length name - 1) then Some i else None
  | None => None
  end.
Definition suffix_of (name : string) : string :=
  match splits_at name with
  | Some i => Str.slice_from i name
  | None => ""
  end.
Definition stem_of (name : string) : string :=
  match splits_at name with
  | Some i => Str.slice_to i name
  | None => name
  end.

End Posix.

(** ** Exceptions, paths and the file system *)

Inductive exn :=
| URLError              (* urllib.error.URLError, HTTPError, socket timeout *)
| ValueError
| SizeMismatch          (* IOError("Download incomplete (size mismatch)") *)
| SuspiciousPath (member : string)   (* RuntimeError("Suspicious path in ZIP") *)
| BadZipFile
| FileNotFoundError
| FileExistsError
| NotADirectoryError
| IsADirectoryError
| DirectoryNotEmpty
| AssertionError         (* html.parser, on a marked section it does not know *)
| OSError.               (* OSError(ENAMETOOLONG): "File name too long" *)

Global Instance exn_eq_dec : EqDecision exn.
Proof. solve_decision. Defined.

(** The result of a call that may raise. *)
Inductive result (A : Type) :=
| Ok (a : A)
| Raise (e : exn).
Global Arguments Ok {A} a.
Global Arguments Raise {A} e.

Definition is_ok {A} (r : result A) : bool :=
  match r with Ok _ => true | Raise _ => false end.

(** An absolute path ([pathlib.Path]), as the list of its components below
    the root; a component may be [".."]. *)
Definition path := list string.

Inductive node :=
| File (data : list Byte.byte)
| Dir.

Global Instance byte_eq_dec : EqDecision Byte.byte := Byte.byte_eq_dec.

Global Instance node_eq_dec : EqDecision node.
Proof. solve_decision. Defined.

Abbreviation fs := (gmap (list string) node).

(** ** Path objects and the file system *)

Module Fsys.

(** [p.name]: the last component, empty for the root. *)
Definition name (p : path) : string := default "" (last p).

(** [p.parent]: the root is its own parent. *)
Definition parent (p : path) : path := take (length p - 1) p.

Definition suffix (p : path) : string := Posix.suffix_of (name p).
Definition stem (p : path) : string := Posix.stem_of (name p).

(** [p / s]: an absolute [s] replaces [p]. *)
Definition joinpath (p : path) (s : string) : path :=
  if Posix.is_absolute s then Posix.components s
  else p ++ Posix.components s.

(** [p.with_suffix(suf)] for a valid [suf]: [ValueError] when [p] has an
    empty name. *)
Definition with_suffix (p : path) (suf : string) : result path :=
  let nm := name p in
  if bool_decide (nm = "") then Raise ValueError
  else
    let old := suffix p in
    let base :=
      if bool_decide (old = "") then nm
      else Str.slice_to (String.length nm - String.length old) nm in
    Ok (parent p ++ [base +:+ suf]).

(** The operating system resolves [".."] when a path is used; here it is
    resolved on the components. *)
Definition normpath (p : path) : path :=
  foldl (fun acc c =>
           if bool_decide (c = "..") then take (length acc - 1) acc
           else if bool_decide (c = "" \/ c = ".") then acc
           else acc ++ [c]) [] p.

(** The node a path names; the root is a directory. *)
Definition node_at (f : fs) (p : path) : option node :=
  match normpath p with
  | [] => Some Dir
  | q => f !! q
  end.

(** The limits of the system on names: a component of at most [name_max]
    bytes, a path of fewer than [path_max] bytes. *)
Definition name_max : nat := 255.
Definition path_max : nat := 4096.

(** The length of [str(p)] in bytes: a slash before every component. *)
Definition path_length (p : path) : nat :=
  match p with
  | [] => 1
  | _ => foldr (fun c n => S (String.length c) + n) 0 p
  end.

(** Whether a component holds the byte 0. *)
Definition has_nul (p : path) : bool :=
  existsb (Str.contains_char "000") p.

(** The walk of [stat] along the components [rest] from the directory
    [cur]: whether it looks up, in a directory, a name longer than
    [name_max].  The walk ends before that when a component is missing or
    is no directory. *)
Fixpoint meets_long_name (f : fs) (cur : path) (rest : list string) : bool :=
  match rest with
  | [] => false
  | c :: rest' =>
      if bool_decide (c = "..") then
        meets_long_name f (take (length cur - 1) cur) rest'
      else if bool_decide (c = "" \/ c = ".") then meets_long_name f cur rest'
      else if name_max <? String.length c then true
      else
        match f !! (cur ++ [c]) with
        | Some Dir => meets_long_name f (cur ++ [c]) rest'
        | _ => false
        end
  end.

(** [p.exists()]: [True] when [stat] finds a node; [False] when the path
    holds a byte 0 ([ValueError], which [exists] swallows) and when [stat]
    fails because a component is missing or is no directory; any other
    failure of [stat] is an [OSError] that [exists] lets through, here
    ENAMETOOLONG, for a path of [path_max] bytes or more and for a name
    longer than [name_max] looked up in a directory.  The disk holds no
    node that [stat] cannot reach: a node that is there is found. *)
Definition exists_ (f : fs) (p : path) : result bool :=
  match node_at f p with
  | Some _ => Ok true
  | None =>
      if has_nul p then Ok false
      else if (path_max <=? path_length p) || meets_long_name f [] p
      then Raise OSError
      else Ok false
  end.

(** [os.stat(p).st_size] of a node; a directory has the size the file
    system reports for it. *)
Definition st_size (dsize : Z) (n : node) : Z :=
  match n with
  | File data => Z.of_nat (length data)
  | Dir => dsize
  end.

(** Creating the directories along [rest] below [pre]. *)
Fixpoint mkdir_from (pre : path) (rest : list string) (f : fs) : result fs :=
  match rest with
  | [] => Ok f
  | c :: rest' =>
      let p := pre ++ [c] in
      match f !! p with
      | Some Dir => mkdir_from p rest' f
      | Some (File _) =>
          Raise (match rest' with
                 | [] => FileExistsError
                 | _ => NotADirectoryError
                 end)
      | None => mkdir_from p rest' (<[p := Dir]> f)
      end
  end.

(** [p.mkdir(parents=True, exist_ok=True)] *)
Definition mkdir_p (p : path) (f : fs) : result fs :=
  mkdir_from [] (normpath p) f.

(** [shutil.rmtree(p, ignore_errors=True)]: a directory goes with all
    below it; anything else stays. *)
Definition rmtree (p : path) (f : fs) : fs :=
  match node_at f p with
  | Some Dir => filter (fun kv => ¬ (normpath p `prefix_of` kv.1)) f
  | _ => f
  end.

(** [open(p, "ab")] and [open(p, "wb")]: the file after opening, with its
    content. *)
Definition open_write (p : path) (append : bool) (f : fs)
  : result (fs * list Byte.byte) :=
  match node_at f p with
  | Some Dir => Raise IsADirectoryError
  | Some (File data) =>
      let d := if append then data else [] in
      Ok (<[normpath p := File d]> f, d)
  | None =>
      match node_at f (parent (normpath p)) with
      | Some Dir => Ok (<[normpath p := File []]> f, [])
      | Some (File _) => Raise NotADirectoryError
      | None => Raise FileNotFoundError
      end
  end.

(** The content of an open file after a write. *)
Definition write_file (p : path) (data : list Byte.byte) (f : fs) : fs :=
  <[normpath p := File data]> f.

(** Moving the tree at [src] to [dst]. *)
Definition move_tree (src dst : path) (f : fs) : fs :=
  list_to_map
    ((fun kv : path * node =>
        if bool_decide (src `prefix_of` kv.1)
        then (dst ++ drop (length src) kv.1, kv.2) else kv)
       <$> map_to_list f).

(** [src.replace(dst)], that is [rename(2)]. *)
Definition replace (src dst : path) (f : fs) : result fs :=
  let s := normpath src in
  let d := normpath dst in
  match node_at f src with
  | None => Raise FileNotFoundError
  | Some (File data) =>
      match node_at f dst with
      | Some Dir => Raise IsADirectoryError
      | _ => Ok (<[d := File data]> (delete s f))
      end
  | Some Dir =>
      match node_at f dst with
      | Some (File _) => Raise NotADirectoryError
      | Some Dir =>
          if bool_decide (s = d) then Ok f
          else if bool_decide
                    (map_Forall (fun k _ => k = d \/ ¬ (d `prefix_of` k)) f)
          then Ok (move_tree s d f)
          else Raise DirectoryNotEmpty
      | None => Ok (move_tree s d f)
      end
  end.

End Fsys.

(** ** Events: requests sent, pauses and lines printed *)

Inductive message :=
| MsgScanning (base_url : string)
| MsgDirectoryFailed (e : exn)
| MsgNoZipFiles
| MsgFound (n : nat)
| MsgInvalidFilename (fname : string)
| MsgSkipped (safe_fname : string)
| MsgDownloadFailed (safe_fname : string) (e : exn)
| MsgAlreadyExtracted (dir_name : string)
| MsgCleaning (extract_dir : path)
| MsgExtracting (safe_fname dir_name : string)
| MsgExtracted (extract_dir : path)
| MsgExtractionFailed (safe_fname : string) (e : exn)
| MsgDownloaded (name : string)
| MsgRetrying (name : string) (e : exn) (wait : Z).

Inductive event :=
| EvFetch (url : string)                       (* GET of the index page *)
| EvHead (url : string)                        (* HEAD request *)
| EvGet (url : string) (range : option Z)      (* GET, with [Range: bytes=n-] *)
| EvSleep (seconds : Z)                        (* time.sleep *)
| EvPrint (m : message).

Global Instance message_eq_dec : EqDecision message.
Proof. solve_decision. Defined.
Global Instance event_eq_dec : EqDecision event.
Proof. solve_decision. Defined.

(** The state the program acts on. *)
Record world := World {
  w_fs : fs;
  w_log : list event
}.

Definition emit (e : event) (w : world) : world :=
  World (w_fs w) (w_log w ++ [e]).
Definition print (m : message) (w : world) : world := emit (EvPrint m) w.
Definition set_fs (f : fs) (w : world) : world := World f (w_log w).

(** ** The libraries *)

(** A start tag as [HTMLParser] hands it to [handle_starttag]: the tag name
    and the attributes in document order, a missing value being [None]. *)
Definition attrs := list (string * option string).
Definition starttag := (string * attrs)%type.

Class Library := {
  (** the start tags [HTMLParser.feed] reports for a document, in order,
      or the exception it raises: [html.parser] accepts malformed tags, but
      it raises [AssertionError] on a marked section it does not know, such
      as [<![x y]>] *)
  html_starttags : string -> result (list starttag);
  (** [urllib.parse.urljoin]; it raises [ValueError] on a reference it
      cannot parse *)
  urljoin : string -> string -> result string;
  (** [urllib.parse.urlparse(url).path] *)
  urlparse_path : string -> string;
  (** [ZipFile(...).infolist()], as the stored names; [None] when the file
      is not a ZIP archive *)
  infolist : list Byte.byte -> option (list string);
  (** [ZipFile.extractall(path=...)]: may fail after writing some entries *)
  extractall : list Byte.byte -> path -> fs -> result unit * fs
}.

(** ** The environment: what the servers answer *)

(** A [Content-Length] header: absent (or empty), present but not an
    integer, or an integer. *)
Inductive content_length :=
| CLAbsent
| CLInvalid
| CLInt (n : Z).

Inductive head_reply :=
| HeadFail                              (* [http_head] raised *)
| HeadOk (cl : content_length).

(** What one [resp.read(262144)] returns. *)
Inductive read_result :=
| Data (chunk : list Byte.byte)
| Fault (e : exn).

Inductive get_reply :=
| GetFail (e : exn)                                    (* [urlopen] raised *)
| GetOk (cl : content_length) (reads : list read_result).

Record env := Env {
  (** [fetch_html]: the decoded page, or the exception raised *)
  fetch_html : string -> result string;
  (** [http_head(url)] at the given attempt: the header found under the key
      [Content-Length] of the dictionary returned, or the failure *)
  http_head : string -> Z -> head_reply;
  (** the answer to the GET request of the given attempt and range *)
  serve_get : string -> Z -> option Z -> get_reply;
  (** [st_size] of a directory *)
  dir_size : Z
}.

(** ** Link discovery *)

Module Links.
Section Links.
Context `{Library}.

(** [dict(attrs)]: a later pair overrides an earlier one. *)
Definition dict (l : attrs) : gmap string (option string) :=
  foldl (fun m kv => <[kv.1 := kv.2]> m) ∅ l.

(** [dict(attrs).get("href")] *)
Definition get_href (l : attrs) : option string :=
  match dict l !! "href" with
  | Some (Some v) => Some v
  | _ => None
  end.

(** The state of a [ZipLinkParser] is its list [links]. *)
Definition handle_starttag (links : list string) (t : starttag)
  : list string :=
  let '(tag, a) := t in
  if negb (bool_decide (Str.lower tag = "a")) then links
  else
    match get_href a with
    | Some href =>
        if negb (bool_decide (href = "")) &&
           Str.endswith (Str.lower href) ".zip"
        then links ++ [Str.strip href]
        else links
    | None => links
    end.

(** [parser = ZipLinkParser(); parser.feed(html); parser.links]: an
    exception of the parser ends [feed], and the links collected so far
    are not used. *)
Definition feed (html : string) : result (list string) :=
  match html_starttags html with
  | Raise e => Raise e
  | Ok tags => Ok (foldl handle_starttag [] tags)
  end.

(** The loop of [list_zip_urls] over [parser.links], with its two
    variables [urls] and [seen]; an exception of [urljoin] ends it. *)
Fixpoint collect (base_url : string) (links : list string)
    (urls : list string) (seen : gset string) : result (list string) :=
  match links with
  | [] => Ok urls
  | href :: rest =>
      match urljoin base_url href with
      | Raise e => Raise e
      | Ok full =>
          if decide (full ∈ seen) then collect base_url rest urls seen
          else collect base_url rest (urls ++ [full]) ({[full]} ∪ seen)
      end
  end.

Definition urls_of_html (base_url html : string) : result (list string) :=
  match feed html with
  | Raise e => Raise e
  | Ok links => collect base_url links [] ∅
  end.

Definition list_zip_urls (E : env) (base_url : string)
  : result (list string) :=
  match fetch_html E base_url with
  | Raise e => Raise e
  | Ok html => urls_of_html base_url html
  end.

(** *** The specification's description of the result *)

(** The value of the [href] of an [<a>] tag when it ends in [.zip],
    whatever the case, white space around it trimmed. *)
Definition zip_href (t : starttag) : option string :=
  if bool_decide (Str.lower t.1 = "a") then
    match get_href t.2 with
    | Some href =>
        if Str.endswith (Str.lower href) ".zip" then Some (Str.strip href)
        else None
    | None => None
    end
  else None.

(** Resolving every reference against the base URL, in order. *)
Fixpoint resolve_all (base_url : string) (hrefs : list string)
  : result (list string) :=
  match hrefs with
  | [] => Ok []
  | href :: rest =>
      match urljoin base_url href with
      | Raise e => Raise e
      | Ok full =>
          match resolve_all base_url rest with
          | Raise e => Raise e
          | Ok fulls => Ok (full :: fulls)
          end
      end
  end.

(** Keep the first occurrence of every element. *)
Fixpoint first_occurrences (l : list string) : list string :=
  match l with
  | [] => []
  | x :: r => x :: filter (fun y => y ≠ x) (first_occurrences r)
  end.

Definition spec_zip_urls (base_url html : string) : result (list string) :=
  match html_starttags html with
  | Raise e => Raise e
  | Ok tags =>
      match resolve_all base_url (omap zip_href tags) with
      | Raise e => Raise e
      | Ok fulls => Ok (first_occurrences fulls)
      end
  end.

End Links.
End Links.

(** ** The resumable downloader *)

Module Download.

Local Open Scope Z_scope.

(** Truth of an [Optional[int]]: neither [None] nor [0]. *)
Definition truthy (t : option Z) : bool :=
  match t with
  | Some z => negb (z =? 0)
  | None => false
  end.

(** Lines 81 to 87: the total size is known when [http_head] succeeds and
    the value under [Content-Length] is an integer. *)
Definition head_total (r : head_reply) : option Z :=
  match r with
  | HeadOk (CLInt z) => Some z
  | _ => None
  end.

(** The loop over [resp.read(262144)]: chunks are appended until an empty
    one; a read that raises ends the loop with what was written so far. *)
Fixpoint read_chunks (reads : list read_result) (data : list Byte.byte)
  : option exn * list Byte.byte :=
  match reads with
  | [] => (None, data)
  | Data [] :: _ => (None, data)
  | Data chunk :: rest => read_chunks rest (data ++ chunk)
  | Fault e :: _ => (Some e, data)
  end.

(** The total size once the response is open: a total known from the HEAD
    request stays; otherwise the response's [Content-Length] is added to
    what is there already, and one that is no integer raises. *)
Definition response_total (total : option Z) (existing : Z)
    (cl : content_length) : result (option Z) :=
  match total with
  | Some t => Ok (Some t)
  | None =>
      match cl with
      | CLAbsent => Ok None
      | CLInvalid => Raise ValueError
      | CLInt n => Ok (Some (existing + n))
      end
  end.

(** [tmp.stat().st_size if tmp.exists() else 0] *)
Definition existing_size (E : env) (f : fs) (tmp : path) : Z :=
  match Fsys.node_at f tmp with
  | Some n => Fsys.st_size (dir_size E) n
  | None => 0
  end.

(** [existing and total_size and existing >= total_size] *)
Definition already_complete (existing : Z) (total_size : option Z) : bool :=
  negb (existing =? 0) && truthy total_size
  && (default 0 total_size <=? existing).

(** [total_size and size != total_size] *)
Definition size_mismatch (total_size : option Z) (size : Z) : bool :=
  truthy total_size && negb (size =? default 0 total_size).

(** The body of the [try] of one attempt, lines 80 to 127. *)
Definition attempt_once (E : env) (url : string) (tmp dest : path)
    (attempt : Z) (w : world) : result unit * world :=
  let existing := existing_size E (w_fs w) tmp in
  let w1 := emit (EvHead url) w in
  let total_size := head_total (http_head E url attempt) in
  if already_complete existing total_size then
    match Fsys.replace tmp dest (w_fs w1) with
    | Raise e => (Raise e, w1)
    | Ok f => (Ok tt, set_fs f w1)
    end
  else
    let range := if existing =? 0 then None else Some existing in
    let w2 := emit (EvGet url range) w1 in
    match serve_get E url attempt range with
    | GetFail e => (Raise e, w2)
    | GetOk cl reads =>
        match Fsys.open_write tmp (negb (existing =? 0)) (w_fs w2) with
        | Raise e => (Raise e, w2)
        | Ok (f, data0) =>
            let w3 := set_fs f w2 in
            match response_total total_size existing cl with
            | Raise e => (Raise e, w3)
            | Ok total_size =>
                let '(fault, data) := read_chunks reads data0 in
                let w4 := set_fs (Fsys.write_file tmp data f) w3 in
                match fault with
                | Some e => (Raise e, w4)
                | None =>
                    if size_mismatch total_size (Z.of_nat (length data))
                    then (Raise SizeMismatch, w4)
                    else
                      match Fsys.replace tmp dest (w_fs w4) with
                      | Raise e => (Raise e, w4)
                      | Ok f' =>
                          (Ok tt,
                           print (MsgDownloaded (Fsys.name dest))
                             (set_fs f' w4))
                      end
                end
            end
        end
    end.

(** The [while True] loop: [attempt] counts the attempts made so far. *)
Equations? retry_loop (E : env) (url : string) (tmp dest : path)
    (retries attempt : Z) (w : world)
  : result unit * world by wf (Z.to_nat (retries - attempt)) lt :=
  retry_loop E url tmp dest retries attempt w :=
    let a := attempt + 1 in
    match attempt_once E url tmp dest a w with
    | (Ok _, w') => (Ok tt, w')
    | (Raise e, w') =>
        match decide (retries <= a) with
        | left _ => (Raise e, w')
        | right _ =>
            let wait := 2 ^ a in
            retry_loop E url tmp dest retries a
              (emit (EvSleep wait)
                 (print (MsgRetrying (Fsys.name dest) e wait) w'))
        end
    end.
Proof. lia. Qed.

(** [download_with_resume(url, dest, retries)] *)
Definition download_with_resume (E : env) (url : string) (dest : path)
    (retries : Z) (w : world) : result unit * world :=
  match Fsys.mkdir_p (Fsys.parent dest) (w_fs w) with
  | Raise e => (Raise e, w)
  | Ok f =>
      let w1 := set_fs f w in
      match Fsys.with_suffix dest (Fsys.suffix dest +:+ ".part") with
      | Raise e => (Raise e, w1)
      | Ok tmp => retry_loop E url tmp dest retries 0 w1
      end
  end.

(** The number of attempts a log records: each begins with a HEAD request. *)
Definition is_head (e : event) : bool :=
  match e with EvHead _ => true | _ => false end.
Definition attempts_made (log : list event) : nat :=
  length (List.filter is_head log).


(** The requests a log records, in order. *)
Definition is_request (e : event) : bool :=
  match e with EvHead _ | EvGet _ _ | EvFetch _ => true | _ => false end.
Definition requests (log : list event) : list event :=
  List.filter is_request log.

(** The bytes a response delivers before it ends or fails. *)
Definition received (reads : list read_result) : list Byte.byte :=
  (read_chunks reads []).2.

(** The pauses before the [k]-th attempt when counting starts after
    [attempt]: [2 ^ (attempt + 1)], [2 ^ (attempt + 2)], ... *)
Definition backoff (attempt : Z) (k : nat) : list Z :=
  (fun i => 2 ^ (attempt + Z.of_nat i)) <$> seq 1 (k - 1).

(** The pauses a log records, in order. *)
Definition sleeps (log : list event) : list Z :=
  omap (fun e => match e with EvSleep s => Some s | _ => None end) log.

(** What a run of the retry loop does, started when [a] attempts have been
    made: the attempts and pauses it adds to the log, the error it raises,
    and what becomes of the staging file. *)
Definition loop_post (E : env) (url : string) (tmp dest : path)
    (retries a : Z) (w : world) (out : result unit * world) : Prop :=
  exists d, w_log out.2 = w_log w ++ d
    /\ (1 <= attempts_made d
         <= Z.to_nat (Z.max 1 (retries - a)))%nat
    /\ sleeps d = backoff a (attempts_made d)
    /\ (forall e, out.1 = Raise e ->
          attempts_made d = Z.to_nat (Z.max 1 (retries - a))
          /\ exists w_last,
               attempt_once E url tmp dest
                 (a + Z.of_nat (attempts_made d)) w_last
               = (Raise e, out.2))
    /\ (forall e old, out.1 = Raise e ->
          Fsys.node_at (w_fs w) tmp = Some (File old) ->
          exists more,
            Fsys.node_at (w_fs out.2) tmp = Some (File (old ++ more)))
    /\ (forall old, out.1 = Ok tt ->
          Fsys.node_at (w_fs w) tmp = Some (File old) ->
          exists more,
            Fsys.node_at (w_fs out.2) dest = Some (File (old ++ more))).

End Download.

(** ** The safe extractor *)

Module Extract.
Section Extract.
Context `{Library}.

(** The test of the loop over [zf.infolist()]:
    [p.is_absolute() or ".." in p.parts] for [p = Path(member.filename)]. *)
Definition suspicious (filename : string) : bool :=
  Posix.is_absolute filename || bool_decide (".." ∈ Posix.parts filename).

(** [safe_extract_zip(zip_path, extract_dir)] *)
Definition safe_extract_zip (zip_path extract_dir : path) (w : world)
  : result unit * world :=
  match Fsys.mkdir_p extract_dir (w_fs w) with
  | Raise e => (Raise e, w)
  | Ok f =>
      let w1 := set_fs f w in
      match Fsys.node_at f zip_path with
      | None => (Raise FileNotFoundError, w1)
      | Some Dir => (Raise IsADirectoryError, w1)
      | Some (File data) =>
          match infolist data with
          | None => (Raise BadZipFile, w1)
          | Some members =>
              match List.find suspicious members with
              | Some member => (Raise (SuspiciousPath member), w1)
              | None =>
                  let '(r, f') := extractall data extract_dir f in
                  (r, set_fs f' w1)
              end
          end
      end
  end.

End Extract.
End Extract.

(** ** The orchestrator *)

Module Main.
Section Main.
Context `{Library}.

(** The parsed command line; [dest_root] is [Path(args.dest).resolve()]. *)
Record args := Args {
  base_url : string;
  dest_root : path;
  skip_existing : bool;
  force_reextract : bool
}.

(** How the process ends: [sys.exit(code)], the end of [main], or an
    exception nobody catches. *)
Inductive outcome :=
| SysExit (code : Z)
| Returned
| Uncaught (e : exn).

(** The exit status of the process: the interpreter exits with 1 after
    printing the traceback of an uncaught exception. *)
Definition exit_status (o : outcome) : Z :=
  match o with
  | SysExit code => code
  | Returned => 0
  | Uncaught _ => 1
  end.

(** [ch not in invalid], for the eight characters of [invalid]: the angle
    brackets, the colon, the double quote (code 34), the backslash, the
    bar, the question mark and the asterisk. *)
Definition valid_char (ch : ascii) : bool :=
  negb (bool_decide (ch ∈ Str.to_list "<>:\|?*"))
  && negb (bool_decide (nat_of_ascii ch = 34%nat)).

(** Lines 176 to 181: the file name for a URL, before and after cleaning. *)
Definition fname_of_path (url_path : string) : string :=
  Str.unquote (Posix.basename url_path).
Definition fname_of (url : string) : string :=
  fname_of_path (urlparse_path url).
Definition sanitize (fname : string) : string :=
  Str.strip (Str.filter_chars valid_char fname).
(** Line 186: where the archive of a URL goes. *)
Definition zip_path_of (dest_root : path) (fname : string) : path :=
  Fsys.joinpath dest_root (sanitize fname).

(** The rest of the loop body once the archive is in place, lines 197 to
    211.  The two calls of [extract_dir.exists()] stand outside every
    [try]: what they raise leaves the loop. *)
Definition extract_step (a : args) (safe_fname : string) (zip_path : path)
    (w : world) : result unit * world :=
  let extract_dir := Fsys.joinpath (dest_root a) (Fsys.stem zip_path) in
  match Fsys.exists_ (w_fs w) extract_dir with
  | Raise e => (Raise e, w)
  | Ok present =>
      if present && negb (force_reextract a)
      then (Ok tt, print (MsgAlreadyExtracted (Fsys.name extract_dir)) w)
      else
        match Fsys.exists_ (w_fs w) extract_dir with
        | Raise e => (Raise e, w)
        | Ok present' =>
            let w1 :=
              if present' && force_reextract a
              then
                let w' := print (MsgCleaning extract_dir) w in
                set_fs (Fsys.rmtree extract_dir (w_fs w')) w'
              else w in
            let w2 :=
              print (MsgExtracting safe_fname (Fsys.name extract_dir)) w1 in
            match Extract.safe_extract_zip zip_path extract_dir w2 with
            | (Ok _, w3) => (Ok tt, print (MsgExtracted extract_dir) w3)
            | (Raise e, w3) =>
                (Ok tt, print (MsgExtractionFailed safe_fname e) w3)
            end
        end
  end.

(** One round of the loop over [zip_urls], lines 176 to 211: it ends
    normally, or with the exception of an [exists()] that nobody catches.
    [zip_path.exists()] is called before [args.skip_existing] is looked
    at. *)
Definition process_url (E : env) (a : args) (w : world) (url : string)
  : result unit * world :=
  let fname := fname_of url in
  let safe_fname := sanitize fname in
  if bool_decide (safe_fname = "")
  then (Ok tt, print (MsgInvalidFilename fname) w)
  else
    let zip_path := zip_path_of (dest_root a) fname in
    match Fsys.exists_ (w_fs w) zip_path with
    | Raise e => (Raise e, w)
    | Ok present =>
        if present && skip_existing a
        then
          extract_step a safe_fname zip_path (print (MsgSkipped safe_fname) w)
        else
          match Download.download_with_resume E url zip_path 3 w with
          | (Raise e, w1) =>
              (Ok tt, print (MsgDownloadFailed safe_fname e) w1)
          | (Ok _, w1) => extract_step a safe_fname zip_path w1
          end
    end.

(** The loop over [zip_urls]: an exception that leaves a round ends it. *)
Fixpoint process_all (E : env) (a : args) (urls : list string) (w : world)
  : result unit * world :=
  match urls with
  | [] => (Ok tt, w)
  | url :: rest =>
      match process_url E a w url with
      | (Ok _, w1) => process_all E a rest w1
      | (Raise e, w1) => (Raise e, w1)
      end
  end.

(** [main()], after the command line is parsed. *)
Definition main (E : env) (a : args) (w : world) : outcome * world :=
  match Fsys.mkdir_p (dest_root a) (w_fs w) with
  | Raise e => (Uncaught e, w)
  | Ok f =>
      let w1 :=
        emit (EvFetch (base_url a))
          (print (MsgScanning (base_url a)) (set_fs f w)) in
      match Links.list_zip_urls E (base_url a) with
      | Raise e => (SysExit 1, print (MsgDirectoryFailed e) w1)
      | Ok zip_urls =>
          match zip_urls with
          | [] => (SysExit 0, print MsgNoZipFiles w1)
          | _ =>
              match process_all E a zip_urls
                      (print (MsgFound (length zip_urls)) w1) with
              | (Ok _, w2) => (Returned, w2)
              | (Raise e, w2) => (Uncaught e, w2)
              end
          end
      end
  end.



End Main.
End Main.

(** ** A small library and servers to run the program on *)

Module Demo.

Fixpoint join (sep : string) (l : list string) : string :=
  match l with
  | [] => ""
  | [x] => x
  | x :: r => x +:+ sep +:+ join sep r
  end.

(** The path of a URL of the form [scheme://host/path]. *)
Definition url_path (url : string) : string :=
  "/" +:+ join "/" (drop 3 (Str.split "/" url)).

(** An archive is the two bytes [PK] and the stored names, one per line. *)
Definition names (data : list Byte.byte) : option (list string) :=
  match data with
  | Byte.x50 :: Byte.x4b :: rest =>
      Some (filter (fun n => n ≠ "")
              (Str.split "010" (String.string_of_list_byte rest)))
  | _ => None
  end.

(** Every entry becomes an empty file below the target; [".."] is dropped
    from its name, as [zipfile] does. *)
Definition unpack (data : list Byte.byte) (dir : path) (f : fs)
  : result unit * fs :=
  (Ok tt,
   foldl (fun g m =>
            <[Fsys.normpath
                (dir ++ filter (fun c => c ≠ "..") (Posix.components m))
              := File []]> g)
     f (default [] (names data))).

(** The network location of a reference that starts with two slashes:
    what stands before the next slash, question mark or hash. *)
Fixpoint netloc_chars (l : list ascii) : list ascii :=
  match l with
  | [] => []
  | c :: r =>
      if bool_decide (c ∈ Str.to_list "/?#") then [] else c :: netloc_chars r
  end.
Definition netloc_of (href : string) : string :=
  Str.of_list (netloc_chars (drop 2 (Str.to_list href))).

(** [urljoin] for a base URL that ends in a slash and a reference that is
    a file name or starts with two slashes.  As [urllib] does, it raises
    [ValueError] ("Invalid IPv6 URL") when the network location of the
    reference has one of the two square brackets without the other. *)
Definition join_url (base href : string) : result string :=
  if Str.startswith href "//" then
    let netloc := netloc_of href in
    if xorb (Str.contains_char "[" netloc) (Str.contains_char "]" netloc)
    then Raise ValueError
    else Ok (default "" (head (Str.split ":" base)) +:+ ":" +:+ href)
  else Ok (base +:+ href).

(** A library whose HTML parser reports the given start tags. *)
Definition library (tags : list starttag) : Library := {|
  html_starttags := fun _ => Ok tags;
  urljoin := join_url;
  urlparse_path := url_path;
  infolist := names;
  extractall := unpack
|}.

(** A library whose HTML parser gives up on the page. *)
Definition broken_parser : Library := {|
  html_starttags := fun _ => Raise AssertionError;
  urljoin := join_url;
  urlparse_path := url_path;
  infolist := names;
  extractall := unpack
|}.

(** The start tag of an anchor with the given [href]. *)
Definition anchor (h : string) : starttag := ("a", [("href", Some h)]).

Definition bytes (s : string) : list Byte.byte := String.list_byte_of_string s.

(** Servers: one page for the index, and answers by attempt. *)
Definition server (page : result string) (heads : Z -> head_reply)
    (gets : Z -> option Z -> get_reply) : env := {|
  fetch_html := fun _ => page;
  http_head := fun _ a => heads a;
  serve_get := fun _ a r => gets a r;
  dir_size := 4096
|}.

(** A disk with the destination root [/srv/dest] and nothing in it. *)
Definition disk0 : fs :=
  <[["srv"; "dest"] := Dir]> (<[["srv"] := Dir]> ∅).

Definition dest0 : path := ["srv"; "dest"].
Definition url_a : string := "http://host/dir/a.zip".
Definition zip_a : path := ["srv"; "dest"; "a.zip"].
Definition part_a : path := ["srv"; "dest"; "a.zip.part"].

(** An archive with a harmless entry and one that climbs out. *)
Definition bad_archive : list Byte.byte :=
  bytes "PK" ++ bytes "ok.txt" ++ [Byte.x0a] ++ bytes "../../etc/passwd".
Definition bad_world : world :=
  World (<[["srv"; "dest"; "bad.zip"] := File bad_archive]> disk0) [].

(** A server that declares five bytes and delivers them in two chunks,
    from the offset asked for. *)
Definition five : list Byte.byte := bytes "abcde".
Definition good_server : env :=
  server (Ok "") (fun _ => HeadOk (CLInt 5))
    (fun _ r => GetOk (CLInt (5 - default 0 r)%Z)
                  [Data (take 2 (drop (Z.to_nat (default 0%Z r)) five));
                   Data (drop 2 (drop (Z.to_nat (default 0%Z r)) five))]).


(** A server whose GET requests all fail; the HEAD request gives the
    declared size. *)
Definition failing_server (declared : Z) : env :=
  server (Ok "") (fun _ => HeadOk (CLInt declared))
    (fun _ _ => GetFail URLError).

(** A disk where the staging file of [a.zip] holds the given bytes. *)
Definition staged (data : list Byte.byte) : world :=
  World (<[part_a := File data]> disk0) [].

Definition bad_zip : path := ["srv"; "dest"; "bad.zip"].
Definition bad_dir : path := ["srv"; "dest"; "bad"].

(** The command line [--base-url http://host/dir/ --dest /srv/dest]. *)
Definition args0 : Main.args := Main.Args "http://host/dir/" dest0 false false.


(** The no-break space U+00A0, which [&nbsp;] stands for in a page. *)
Definition nbsp : string := String "194" (String "160" "").


End Demo.

(** ** Conditions and measures of a run *)

Module Run.
Section Run.
Context `{Library}.

(** The seconds a log records as slept, in all. *)
Definition total_wait (log : list event) : Z :=
  foldr Z.add 0%Z (Download.sleeps log).

(** What stops an extraction before [extractall]: no file at the path of
    the archive, a file that is no archive, or an entry that is rejected. *)
Definition fails_validation (f : fs) (zip_path : path) : Prop :=
  match Fsys.node_at f zip_path with
  | Some (File data) =>
      match infolist data with
      | Some members => List.find Extract.suspicious members ≠ None
      | None => True
      end
  | _ => True
  end.

(** A URL is settled on a disk when its cleaned name is empty, or its
    archive and its folder are both there. *)
Definition settled (a : Main.args) (f : fs) (url : string) : Prop :=
  let fname := Main.fname_of url in
  let zip_path := Main.zip_path_of (Main.dest_root a) fname in
  Main.sanitize fname = ""
  \/ (Fsys.exists_ f zip_path = Ok true
      /\ Fsys.exists_ f (Fsys.joinpath (Main.dest_root a) (Fsys.stem zip_path))
         = Ok true).

End Run.
End Run.

(** * Properties *)

(** ** Link discovery *)

Section LinksFacts.
Context `{Library}.

Lemma handle_starttag_zip_href links t :
  Links.handle_starttag links t = links ++ option_list (Links.zip_href t).
Proof.
  destruct t as [tag a]. unfold Links.handle_starttag, Links.zip_href. simpl.
  destruct (bool_decide (Str.lower tag = "a")); simpl;
    [|by rewrite app_nil_r].
  destruct (Links.get_href a) as [href|]; simpl; [|by rewrite app_nil_r].
  destruct (Str.endswith (Str.lower href) ".zip") eqn:Hz.
  - destruct (bool_decide (href = "")) eqn:He; simpl; [|done].
    apply bool_decide_eq_true in He. subst href. discriminate Hz.
  - rewrite andb_false_r. by rewrite app_nil_r.
Qed.

Lemma foldl_handle_starttag tags links :
  foldl Links.handle_starttag links tags = links ++ omap Links.zip_href tags.
Proof.
  revert links. induction tags as [|t tags IH]; intros links; simpl.
  - by rewrite app_nil_r.
  - rewrite IH, handle_starttag_zip_href, <- app_assoc. f_equal.
    by destruct (Links.zip_href t).
Qed.

Lemma feed_zip_hrefs html :
  Links.feed html
  = match html_starttags html with
    | Raise e => Raise e
    | Ok tags => Ok (omap Links.zip_href tags)
    end.
Proof.
  unfold Links.feed. destruct (html_starttags html); [|done].
  by rewrite foldl_handle_starttag.
Qed.

(** The loop of [list_zip_urls], started with [seen] holding exactly the
    elements of [urls], appends the first occurrences that are new; it
    raises when a reference does not resolve. *)
Lemma collect_spec base_url links : forall urls (seen : gset string),
  (forall x, x ∈ seen <-> x ∈ urls) ->
  Links.collect base_url links urls seen =
  match Links.resolve_all base_url links with
  | Raise e => Raise e
  | Ok fulls =>
      Ok (urls ++ filter (fun y => y ∉ urls) (Links.first_occurrences fulls))
  end.
Proof.
  induction links as [|h links IH]; intros urls seen Hseen; simpl.
  - by rewrite app_nil_r.
  - destruct (urljoin base_url h) as [full|e]; [|done].
    destruct (decide (full ∈ seen)) as [Hin|Hnin].
    + rewrite (IH _ _ Hseen).
      destruct (Links.resolve_all base_url links) as [fulls|e]; [|done].
      simpl. do 2 f_equal.
      rewrite filter_cons_False by (intros Hn; apply Hn, Hseen, Hin).
      rewrite list_filter_filter. apply list_filter_iff.
      intros y. simpl. split; [|intros [? _]; done].
      intros Hy. split; [done|].
      intros ->. apply Hy, Hseen, Hin.
    + rewrite (IH (urls ++ [full]) ({[full]} ∪ seen)).
      2:{ intros x. rewrite elem_of_union, elem_of_singleton, elem_of_app,
            list_elem_of_singleton, Hseen. tauto. }
      destruct (Links.resolve_all base_url links) as [fulls|e]; [|done].
      simpl. rewrite <- app_assoc. do 2 f_equal.
      rewrite filter_cons_True by (intros Hn; apply Hnin, Hseen, Hn).
      simpl. f_equal.
      rewrite list_filter_filter. apply list_filter_iff.
      intros y. simpl. rewrite elem_of_app, list_elem_of_singleton. tauto.
Qed.

Lemma filter_not_in_nil (l : list string) :
  filter (fun y => y ∉ ([] : list string)) l = l.
Proof.
  induction l as [|x l IH]; [done|].
  rewrite filter_cons_True by apply not_elem_of_nil. by rewrite IH.
Qed.

Lemma urls_of_html_spec base_url html :
  Links.urls_of_html base_url html = Links.spec_zip_urls base_url html.
Proof.
  unfold Links.urls_of_html, Links.spec_zip_urls.
  rewrite feed_zip_hrefs. destruct (html_starttags html) as [tags|e]; [|done].
  rewrite (collect_spec base_url _ [] ∅) by set_solver.
  destruct (Links.resolve_all _ _); [|done].
  simpl. by rewrite filter_not_in_nil.
Qed.

Lemma first_occurrences_elem (l : list string) x :
  x ∈ Links.first_occurrences l <-> x ∈ l.
Proof.
  induction l as [|y l IH]; simpl; [done|].
  rewrite !elem_of_cons, list_elem_of_filter, IH.
  destruct (decide (x = y)); tauto.
Qed.

Lemma first_occurrences_NoDup (l : list string) :
  NoDup (Links.first_occurrences l).
Proof.
  induction l as [|y l IH]; simpl; constructor.
  - rewrite list_elem_of_filter. tauto.
  - by apply NoDup_filter.
Qed.

Lemma first_occurrences_sublist (l : list string) :
  sublist (Links.first_occurrences l) l.
Proof.
  induction l as [|y l IH]; simpl; [done|].
  apply sublist_skip. etrans; [apply sublist_filter|done].
Qed.

(** When all references resolve, the results are the resolved references,
    one for one. *)
Lemma resolve_all_ok base_url hrefs fulls :
  Links.resolve_all base_url hrefs = Ok fulls ->
  Forall2 (fun href full => urljoin base_url href = Ok full) hrefs fulls.
Proof.
  revert fulls. induction hrefs as [|h hrefs IH]; intros fulls; simpl.
  - intros [= <-]. constructor.
  - destruct (urljoin base_url h) as [full|e] eqn:Hj; [|done].
    destruct (Links.resolve_all base_url hrefs) as [fs'|e]; [|done].
    intros [= <-]. constructor; [done|by apply IH].
Qed.

(** When the resolution raises, it raises what [urljoin] raised on the
    first reference it did not resolve. *)
Lemma resolve_all_raise base_url hrefs : forall e,
  Links.resolve_all base_url hrefs = Raise e ->
  exists before h after,
    hrefs = before ++ h :: after
    /\ Forall (fun href => exists full, urljoin base_url href = Ok full) before
    /\ urljoin base_url h = Raise e.
Proof.
  induction hrefs as [|h hrefs IH]; intros e; simpl; [done|].
  destruct (urljoin base_url h) as [full|e1] eqn:Hj.
  - destruct (Links.resolve_all base_url hrefs) as [|e2]; [done|].
    intros [= <-]. destruct (IH e2 eq_refl) as (b & h' & a & -> & Hb & Hr).
    exists (h :: b), h', a. split; [done|].
    split; [constructor; [by exists full|done]|done].
  - intros [= <-]. exists [], h, hrefs. by repeat split.
Qed.

(** C3 (amended): link discovery passes on a failed fetch and an
    exception of the HTML parser; otherwise it resolves, against the base
    URL and in the order of the page, the [href] of every [<a>] start tag
    whose value ends in [.zip] in any letter case (the value trimmed of
    white space, the last one when the tag repeats the attribute), and
    returns the resolved URLs, each once at the place of its first
    occurrence; when [urljoin] rejects one of them it raises what
    [urljoin] raised on the first such reference.  The list
    has no duplicates, keeps the order of the page, and holds a URL exactly
    when such a link resolves to it: other tags and other links add
    nothing. *)
Theorem list_zip_urls_first_occurrences (E : env) (base_url : string) :
  Links.list_zip_urls E base_url =
    match fetch_html E base_url with
    | Raise e => Raise e
    | Ok html => Links.spec_zip_urls base_url html
    end
  /\ forall html,
       match html_starttags html with
       | Raise e => Links.spec_zip_urls base_url html = Raise e
       | Ok tags =>
           let hrefs := omap Links.zip_href tags in
           match Links.spec_zip_urls base_url html with
           | Raise e =>
               exists before h after,
                 hrefs = before ++ h :: after
                 /\ Forall (fun href =>
                              exists full, urljoin base_url href = Ok full)
                      before
                 /\ urljoin base_url h = Raise e
           | Ok urls =>
               exists fulls,
                 Forall2 (fun href full => urljoin base_url href = Ok full)
                   hrefs fulls
                 /\ urls = Links.first_occurrences fulls
                 /\ NoDup urls
                 /\ sublist urls fulls
                 /\ (forall u, u ∈ urls <->
                       exists t href, t ∈ tags
                         /\ Str.lower t.1 = "a"
                         /\ Links.get_href t.2 = Some href
                         /\ Str.endswith (Str.lower href) ".zip" = true
                         /\ urljoin base_url (Str.strip href) = Ok u)
           end
       end.
Proof.
  split.
  { unfold Links.list_zip_urls.
    destruct (fetch_html E base_url) as [html|e]; [|done].
    apply urls_of_html_spec. }
  intros html. unfold Links.spec_zip_urls.
  destruct (html_starttags html) as [tags|e0]; [|done]. cbv zeta.
  destruct (Links.resolve_all base_url _) as [fulls|e] eqn:Hres.
  - pose proof (resolve_all_ok _ _ _ Hres) as Hall.
    exists fulls. split; [done|]. split; [done|].
    split; [apply first_occurrences_NoDup|].
    split; [apply first_occurrences_sublist|].
    intros u. rewrite first_occurrences_elem. split.
    + intros Hu. apply list_elem_of_lookup in Hu as [i Hi].
      destruct (Forall2_lookup_r _ _ _ _ _ Hall Hi) as (h & Hh & Hj).
      apply list_elem_of_lookup_2, list_elem_of_omap in Hh as (t & Ht & Hz).
      unfold Links.zip_href in Hz.
      destruct (bool_decide (Str.lower t.1 = "a")) eqn:Ha; [|done].
      apply bool_decide_eq_true in Ha.
      destruct (Links.get_href t.2) as [href|] eqn:Hg; [|done].
      destruct (Str.endswith (Str.lower href) ".zip") eqn:Hz'; [|done].
      injection Hz as <-. by exists t, href.
    + intros (t & href & Ht & Ha & Hg & Hz & Hj).
      assert (Hin : Str.strip href ∈ omap Links.zip_href tags).
      { apply list_elem_of_omap. exists t. split; [done|].
        unfold Links.zip_href. rewrite bool_decide_eq_true_2 by done.
        by rewrite Hg, Hz. }
      apply list_elem_of_lookup in Hin as [i Hi].
      destruct (Forall2_lookup_l _ _ _ _ _ Hall Hi) as (u' & Hu' & Hj').
      rewrite Hj in Hj'. injection Hj' as <-.
      by apply list_elem_of_lookup_2 in Hu'.
  - by apply (resolve_all_raise _ _ e).
Qed.

End LinksFacts.

(** ** The file system *)

Lemma node_at_lookup (f : fs) p n :
  Fsys.node_at f p = Some (File n) ->
  Fsys.normpath p ≠ [] /\ f !! Fsys.normpath p = Some (File n).
Proof.
  unfold Fsys.node_at. destruct (Fsys.normpath p) eqn:Hp; [done|].
  intros Hf. by split.
Qed.

Lemma node_at_nonroot (f : fs) p :
  Fsys.normpath p ≠ [] -> Fsys.node_at f p = f !! Fsys.normpath p.
Proof. unfold Fsys.node_at. by destruct (Fsys.normpath p). Qed.

Lemma node_at_not_dir (f : fs) p :
  Fsys.node_at f p ≠ Some Dir -> Fsys.normpath p ≠ [].
Proof. unfold Fsys.node_at. by destruct (Fsys.normpath p). Qed.

Lemma node_at_insert (f : fs) p n :
  Fsys.normpath p ≠ [] ->
  Fsys.node_at (<[Fsys.normpath p := n]> f) p = Some n.
Proof. intros Hp. rewrite node_at_nonroot by done. apply lookup_insert_eq. Qed.

Lemma node_at_insert_ne (f : fs) p q n :
  Fsys.normpath p ≠ Fsys.normpath q ->
  Fsys.node_at (<[Fsys.normpath p := n]> f) q = Fsys.node_at f q.
Proof.
  intros Hne. unfold Fsys.node_at.
  destruct (Fsys.normpath q) eqn:Hq; [done|]. by rewrite lookup_insert_ne.
Qed.

Lemma node_at_delete (f : fs) p :
  Fsys.normpath p ≠ [] -> Fsys.node_at (delete (Fsys.normpath p) f) p = None.
Proof. intros Hp. rewrite node_at_nonroot by done. apply lookup_delete_eq. Qed.

Lemma node_at_delete_ne (f : fs) p q :
  Fsys.normpath p ≠ Fsys.normpath q ->
  Fsys.node_at (delete (Fsys.normpath p) f) q = Fsys.node_at f q.
Proof.
  intros Hne. unfold Fsys.node_at.
  destruct (Fsys.normpath q) eqn:Hq; [done|]. by rewrite lookup_delete_ne.
Qed.

(** Renaming a regular file onto a path that holds no directory. *)
Lemma replace_file (f : fs) src dst data :
  Fsys.node_at f src = Some (File data) ->
  Fsys.node_at f dst ≠ Some Dir ->
  Fsys.replace src dst f =
  Ok (<[Fsys.normpath dst := File data]> (delete (Fsys.normpath src) f)).
Proof.
  intros Hs Hd. unfold Fsys.replace. rewrite Hs.
  destruct (Fsys.node_at f dst) as [[|]|]; done.
Qed.

Lemma replace_file_onto_dir (f : fs) src dst data :
  Fsys.node_at f src = Some (File data) ->
  Fsys.node_at f dst = Some Dir ->
  Fsys.replace src dst f = Raise IsADirectoryError.
Proof. intros Hs Hd. unfold Fsys.replace. by rewrite Hs, Hd. Qed.

(** Opening an existing regular file for writing. *)
Lemma open_write_file (f : fs) p data append :
  Fsys.node_at f p = Some (File data) ->
  Fsys.open_write p append f =
  Ok (<[Fsys.normpath p := File (if append then data else [])]> f,
      if append then data else []).
Proof. intros Hp. unfold Fsys.open_write. by rewrite Hp. Qed.

(** What [mkdir_from] leaves: nothing that was there changes, every
    directory along the way is there, and whatever is new is one of them. *)
Lemma mkdir_from_spec rest : forall pre (f f' : fs),
  Fsys.mkdir_from pre rest f = Ok f' ->
  (forall q n, f !! q = Some n -> f' !! q = Some n)
  /\ (forall k, (0 < k <= length rest)%nat ->
        f' !! (pre ++ take k rest) = Some Dir)
  /\ (forall q, f !! q = None -> f' !! q ≠ None ->
        f' !! q = Some Dir /\ q `prefix_of` (pre ++ rest) /\ q ≠ pre
        /\ pre `prefix_of` q).
Proof.
  induction rest as [|c rest IH]; intros pre f f' Hm; simpl in Hm.
  - injection Hm as <-. split; [done|]. split; [simpl; lia|]. by intros q ->.
  - assert (Hstep : forall g, Fsys.mkdir_from (pre ++ [c]) rest g = Ok f' ->
        (forall q n, f !! q = Some n -> g !! q = Some n) ->
        g !! (pre ++ [c]) = Some Dir ->
        (forall q, f !! q = None -> g !! q ≠ None -> q = pre ++ [c]) ->
        (forall q n, f !! q = Some n -> f' !! q = Some n)
        /\ (forall k, (0 < k <= length (c :: rest))%nat ->
              f' !! (pre ++ take k (c :: rest)) = Some Dir)
        /\ (forall q, f !! q = None -> f' !! q ≠ None ->
              f' !! q = Some Dir /\ q `prefix_of` (pre ++ c :: rest)
              /\ q ≠ pre /\ pre `prefix_of` q)).
    { intros g Hg Hkeep Hc Hnew.
      destruct (IH _ _ _ Hg) as (K1 & K2 & K3).
      assert (Hpc : pre ++ c :: rest = (pre ++ [c]) ++ rest)
        by (by rewrite <- app_assoc).
      split; [intros q n Hq; by apply K1, Hkeep|].
      split.
      - intros [|k] [Hk1 Hk2]; [lia|]. simpl in *.
        destruct k as [|k].
        + rewrite take_0. by apply K1.
        + replace (pre ++ c :: take (S k) rest)
            with ((pre ++ [c]) ++ take (S k) rest)
            by (by rewrite <- app_assoc).
          apply K2. lia.
      - intros q Hq Hq'.
        assert (Hpre : pre ++ [c] ≠ pre).
        { intros Heq. apply (f_equal length) in Heq.
          rewrite length_app in Heq. simpl in Heq. lia. }
        destruct (g !! q) as [n|] eqn:Hgq.
        + assert (q = pre ++ [c]) as -> by (apply Hnew; [done|by rewrite Hgq]).
          split; [by apply K1|].
          split; [rewrite Hpc; by apply prefix_app_r|].
          split; [done|]. by apply prefix_app_r.
        + destruct (K3 q Hgq Hq') as (L1 & L2 & L3 & L4).
          split; [done|]. split; [by rewrite Hpc|].
          split.
          * intros ->. destruct L4 as [x Hx].
            apply (f_equal length) in Hx. rewrite !length_app in Hx.
            simpl in Hx. lia.
          * etrans; [|exact L4]. by apply prefix_app_r. }
    destruct (f !! (pre ++ [c])) as [[data|]|] eqn:Hc; [done| |].
    + apply (Hstep f Hm); [done|done|]. intros q Hq Hq'. by rewrite Hq in Hq'.
    + apply (Hstep _ Hm).
      * intros q n Hq. rewrite lookup_insert_ne; [done|]. intros <-.
        by rewrite Hc in Hq.
      * apply lookup_insert_eq.
      * intros q Hq Hq'. destruct (decide (pre ++ [c] = q)) as [<-|Hne]; [done|].
        rewrite lookup_insert_ne in Hq' by done. by rewrite Hq in Hq'.
Qed.

(** [mkdir(parents=True, exist_ok=True)], when it returns: the directory is
    there, what was there before is unchanged, and what is new are
    directories on the way to it. *)
Lemma mkdir_p_spec (f f' : fs) p :
  Fsys.mkdir_p p f = Ok f' ->
  Fsys.node_at f' p = Some Dir
  /\ (forall q n, f !! q = Some n -> f' !! q = Some n)
  /\ (forall q, f !! q = None -> f' !! q ≠ None ->
        f' !! q = Some Dir /\ q `prefix_of` Fsys.normpath p).
Proof.
  unfold Fsys.mkdir_p. intros Hm.
  destruct (mkdir_from_spec _ _ _ _ Hm) as (K1 & K2 & K3).
  split; [|split; [done|]].
  - unfold Fsys.node_at. destruct (Fsys.normpath p) as [|c r] eqn:Hp; [done|].
    specialize (K2 (length (c :: r))). rewrite firstn_all in K2.
    apply K2. simpl. lia.
  - intros q Hq Hq'. destruct (K3 q Hq Hq') as (L1 & L2 & _). done.
Qed.

(** *** Strings and path names *)

Lemma string_app_cons c (s1 s2 : string) :
  String c s1 +:+ s2 = String c (s1 +:+ s2).
Proof. done. Qed.

Lemma of_list_app l1 l2 :
  Str.of_list (l1 ++ l2) = Str.of_list l1 +:+ Str.of_list l2.
Proof.
  unfold Str.of_list. induction l1 as [|c l1 IH]; [done|].
  simpl. by rewrite IH, string_app_cons.
Qed.

Lemma length_of_list l : String.length (Str.of_list l) = length l.
Proof.
  unfold Str.of_list. induction l as [|c l IH]; [done|]. simpl. by rewrite IH.
Qed.

Lemma length_to_list s : length (Str.to_list s) = String.length s.
Proof.
  unfold Str.to_list. induction s as [|c s IH]; [done|]. simpl. by rewrite IH.
Qed.

Lemma string_length_app (s1 s2 : string) :
  String.length (s1 +:+ s2) = String.length s1 + String.length s2.
Proof.
  induction s1 as [|c s1 IH]; [done|].
  rewrite string_app_cons. simpl. by rewrite IH.
Qed.

Lemma string_app_assoc (s1 s2 s3 : string) :
  s1 +:+ (s2 +:+ s3) = (s1 +:+ s2) +:+ s3.
Proof.
  induction s1 as [|c s1 IH]; [done|].
  by rewrite !string_app_cons, IH.
Qed.

Lemma slice_to_from i s : Str.slice_to i s +:+ Str.slice_from i s = s.
Proof.
  unfold Str.slice_to, Str.slice_from.
  rewrite <- of_list_app, take_drop. apply string_of_list_ascii_of_string.
Qed.

Lemma length_slice_from i s :
  String.length (Str.slice_from i s) = String.length s - i.
Proof.
  unfold Str.slice_from. by rewrite length_of_list, length_drop, length_to_list.
Qed.

(** The name of the staging file is the name of the destination with
    [.part] added. *)
Lemma with_suffix_part dest tmp :
  Fsys.with_suffix dest (Fsys.suffix dest +:+ ".part") = Ok tmp ->
  Fsys.name dest ≠ ""
  /\ tmp = Fsys.parent dest ++ [Fsys.name dest +:+ ".part"].
Proof.
  unfold Fsys.with_suffix, Fsys.suffix.
  destruct (bool_decide (Fsys.name dest = "")) eqn:Hn; [done|].
  apply bool_decide_eq_false in Hn. intros [= <-]. split; [done|].
  do 2 f_equal.
  destruct (bool_decide (Posix.suffix_of (Fsys.name dest) = "")) eqn:Hs.
  { apply bool_decide_eq_true in Hs. by rewrite Hs. }
  rewrite string_app_assoc. f_equal.
  unfold Posix.suffix_of in *.
  destruct (Posix.splits_at (Fsys.name dest)) as [i|] eqn:Hi;
    [|by apply bool_decide_eq_false in Hs].
  rewrite length_slice_from.
  assert (i < String.length (Fsys.name dest)) as Hlt.
  { unfold Posix.splits_at in Hi.
    destruct (Str.rfind "." (Fsys.name dest)); [|done].
    destruct ((0 <? n) && (n <? _)) eqn:Hb; [|done].
    injection Hi as <-. apply andb_true_iff in Hb as [_ Hb].
    apply Nat.ltb_lt in Hb. lia. }
  replace (String.length (Fsys.name dest) -
           (String.length (Fsys.name dest) - i)) with i by lia.
  apply slice_to_from.
Qed.

Lemma normpath_snoc p c :
  Fsys.normpath (p ++ [c]) =
  if bool_decide (c = "..") then
    take (length (Fsys.normpath p) - 1) (Fsys.normpath p)
  else if bool_decide (c = "" \/ c = ".") then Fsys.normpath p
  else Fsys.normpath p ++ [c].
Proof. unfold Fsys.normpath. by rewrite foldl_app. Qed.

Lemma path_parent_name (p : path) :
  Fsys.name p ≠ "" -> p = Fsys.parent p ++ [Fsys.name p].
Proof.
  unfold Fsys.name, Fsys.parent. intros Hn.
  destruct (last p) as [c|] eqn:Hl; [|done]. simpl.
  apply last_Some in Hl as [q ->].
  rewrite length_app. simpl.
  replace (length q + 1 - 1) with (length q) by lia.
  by rewrite take_app_length.
Qed.

(** The staging path and the destination never name the same file. *)
Lemma staging_path_differs dest tmp :
  Fsys.with_suffix dest (Fsys.suffix dest +:+ ".part") = Ok tmp ->
  Fsys.normpath tmp ≠ Fsys.normpath dest.
Proof.
  intros Hw. apply with_suffix_part in Hw as [Hn ->].
  set (np := Fsys.normpath (Fsys.parent dest)).
  set (nm := Fsys.name dest) in *.
  assert (Hdn : Fsys.normpath dest =
                if bool_decide (nm = "..") then take (length np - 1) np
                else if bool_decide (nm = "" \/ nm = ".") then np
                else np ++ [nm]).
  { rewrite (path_parent_name dest Hn) at 1. apply normpath_snoc. }
  rewrite Hdn, normpath_snoc. fold np.
  assert (Hlen : String.length (nm +:+ ".part") = String.length nm + 5)
    by apply string_length_app.
  rewrite (bool_decide_eq_false_2 (nm +:+ ".part" = ".."))
    by (intros Heq; rewrite Heq in Hlen; simpl in Hlen; lia).
  rewrite (bool_decide_eq_false_2 (nm +:+ ".part" = "" \/ _))
    by (intros [Heq|Heq]; rewrite Heq in Hlen; simpl in Hlen; lia).
  intros Heq. apply (f_equal length) in Heq as Hl.
  rewrite length_app in Hl. simpl in Hl.
  repeat case_bool_decide.
  - rewrite length_take in Hl. lia.
  - lia.
  - apply app_inj_tail in Heq as [_ Heq]. rewrite Heq in Hlen. lia.
Qed.

(** ** The safe extractor *)

(** A component [".."] of the path object is a segment [".."] of the stored
    name: the root is never [".."], and only empty segments and ["."] are
    dropped. *)
Lemma dotdot_in_parts (s : string) :
  ".." ∈ Posix.parts s <-> ".." ∈ Str.split "/" s.
Proof.
  unfold Posix.parts, Posix.components. rewrite elem_of_app, list_elem_of_filter.
  split.
  - intros [Hr|[_ Hs]]; [|done]. unfold Posix.root in Hr.
    destruct (_ && _); [by apply list_elem_of_singleton in Hr|].
    destruct (Str.startswith s "/"); [by apply list_elem_of_singleton in Hr|].
    by apply elem_of_nil in Hr.
  - intros Hs. right. by split.
Qed.

Lemma suspicious_spec (m : string) :
  Extract.suspicious m = true <->
  Posix.is_absolute m = true \/ ".." ∈ Str.split "/" m.
Proof.
  unfold Extract.suspicious.
  rewrite orb_true_iff, bool_decide_eq_true, dotdot_in_parts. done.
Qed.

Section ExtractFacts.
Context `{Library}.

(** A regular file is still there after [mkdir]. *)
Lemma mkdir_p_keeps_file (f f' : fs) p q data :
  Fsys.mkdir_p p f = Ok f' ->
  Fsys.node_at f q = Some (File data) ->
  Fsys.node_at f' q = Some (File data).
Proof.
  intros Hmk Hq. apply node_at_lookup in Hq as [Hne Hq].
  rewrite node_at_nonroot by done.
  by apply (mkdir_p_spec _ _ _ Hmk).
Qed.

(** Once the directory is made and the archive read, the outcome is
    decided by the first suspicious entry. *)
Lemma safe_extract_zip_readable
    (zip_path extract_dir : path) (w : world) (f : fs)
    (data : list Byte.byte) (members : list string) :
  Fsys.mkdir_p extract_dir (w_fs w) = Ok f ->
  Fsys.node_at (w_fs w) zip_path = Some (File data) ->
  infolist data = Some members ->
  Extract.safe_extract_zip zip_path extract_dir w =
  match List.find Extract.suspicious members with
  | Some m => (Raise (SuspiciousPath m), set_fs f w)
  | None => let '(r, f') := extractall data extract_dir f in (r, set_fs f' w)
  end.
Proof.
  intros Hmk Hzip Hinfo. unfold Extract.safe_extract_zip.
  by rewrite Hmk, (mkdir_p_keeps_file _ _ _ _ _ Hmk Hzip), Hinfo.
Qed.

Lemma find_suspicious_some (members : list string) :
  (exists m, m ∈ members /\
     (Posix.is_absolute m = true \/ ".." ∈ Str.split "/" m)) ->
  exists m, List.find Extract.suspicious members = Some m
    /\ m ∈ members
    /\ (Posix.is_absolute m = true \/ ".." ∈ Str.split "/" m).
Proof.
  intros (m & Hm & Hbad).
  destruct (List.find Extract.suspicious members) as [m'|] eqn:Hfind.
  - apply find_some in Hfind as [Hin Hs].
    exists m'. split; [done|]. split; [by apply list_elem_of_In|].
    by apply suspicious_spec.
  - exfalso. apply list_elem_of_In in Hm.
    pose proof (find_none _ _ Hfind _ Hm) as Hn.
    apply suspicious_spec in Hbad. congruence.
Qed.

Lemma find_suspicious_none (members : list string) :
  (forall m, m ∈ members ->
     Posix.is_absolute m = false /\ ".." ∉ Str.split "/" m) ->
  List.find Extract.suspicious members = None.
Proof.
  intros Hsafe.
  destruct (List.find Extract.suspicious members) as [m'|] eqn:Hfind; [|done].
  exfalso. apply find_some in Hfind as [Hin Hs].
  apply list_elem_of_In in Hin. destruct (Hsafe _ Hin) as [Ha Hd].
  apply suspicious_spec in Hs as [Hs|Hs]; [congruence|done].
Qed.

(** C1: with the archive in place and readable, safe extraction first
    makes the target directory and then looks at every stored path.  An
    entry whose path is absolute or has a [".."] segment makes it raise
    with the file system as [mkdir] left it: [extractall] is not run and no
    entry is written.  Only when every entry passes is [extractall] run,
    and its result is the result.  When the directory cannot be made,
    that error is raised and nothing is written either. *)
Theorem safe_extract_zip_validates_first
    (zip_path extract_dir : path) (w : world)
    (data : list Byte.byte) (members : list string) :
  Fsys.node_at (w_fs w) zip_path = Some (File data) ->
  infolist data = Some members ->
  match Fsys.mkdir_p extract_dir (w_fs w) with
  | Raise e => Extract.safe_extract_zip zip_path extract_dir w = (Raise e, w)
  | Ok f =>
      ((exists m, m ∈ members /\
          (Posix.is_absolute m = true \/ ".." ∈ Str.split "/" m)) ->
       exists m, m ∈ members
         /\ (Posix.is_absolute m = true \/ ".." ∈ Str.split "/" m)
         /\ Extract.safe_extract_zip zip_path extract_dir w =
            (Raise (SuspiciousPath m), set_fs f w))
      /\ ((forall m, m ∈ members ->
             Posix.is_absolute m = false /\ ".." ∉ Str.split "/" m) ->
          Extract.safe_extract_zip zip_path extract_dir w =
          (let '(r, f') := extractall data extract_dir f in
           (r, set_fs f' w)))
  end.
Proof.
  intros Hzip Hinfo.
  destruct (Fsys.mkdir_p extract_dir (w_fs w)) as [f|e] eqn:Hmk.
  - rewrite (safe_extract_zip_readable _ _ _ _ _ _ Hmk Hzip Hinfo). split.
    + intros Hbad. apply find_suspicious_some in Hbad as (m & -> & Hm & Hb).
      by exists m.
    + intros Hsafe. by rewrite find_suspicious_none.
  - unfold Extract.safe_extract_zip. by rewrite Hmk.
Qed.

(** C10: the target directory is created, parents included, before the
    entries are looked at.  So an archive that is rejected for an absolute
    or [".."] path leaves the directory behind: the file system is exactly
    what [mkdir] produced, everything that was on disk is unchanged,
    whatever is new is a directory on the way to the target, and a target
    with nothing at or below it before is empty.  When the directory
    cannot be made, that error is raised and nothing changes. *)
Theorem rejected_extraction_leaves_directory
    (zip_path extract_dir : path) (w : world)
    (data : list Byte.byte) (members : list string) :
  Fsys.node_at (w_fs w) zip_path = Some (File data) ->
  infolist data = Some members ->
  (exists m, m ∈ members /\
     (Posix.is_absolute m = true \/ ".." ∈ Str.split "/" m)) ->
  match Fsys.mkdir_p extract_dir (w_fs w) with
  | Raise e => Extract.safe_extract_zip zip_path extract_dir w = (Raise e, w)
  | Ok f =>
      (exists m, Extract.safe_extract_zip zip_path extract_dir w =
                 (Raise (SuspiciousPath m), set_fs f w))
      /\ Fsys.node_at f extract_dir = Some Dir
      /\ (forall q n, w_fs w !! q = Some n -> f !! q = Some n)
      /\ (forall q, w_fs w !! q = None -> f !! q ≠ None ->
            f !! q = Some Dir /\ q `prefix_of` Fsys.normpath extract_dir)
      /\ ((forall q, Fsys.normpath extract_dir `prefix_of` q ->
             w_fs w !! q = None) ->
          forall q, Fsys.normpath extract_dir `prefix_of` q ->
            q ≠ Fsys.normpath extract_dir -> f !! q = None)
  end.
Proof.
  intros Hzip Hinfo Hbad.
  destruct (Fsys.mkdir_p extract_dir (w_fs w)) as [f|e] eqn:Hmk.
  - rewrite (safe_extract_zip_readable _ _ _ _ _ _ Hmk Hzip Hinfo).
    apply find_suspicious_some in Hbad as (m & -> & _).
    destruct (mkdir_p_spec _ _ _ Hmk) as (K1 & K2 & K3).
    split; [by exists m|]. split; [done|]. split; [done|]. split; [done|].
    intros Hnone q Hq Hne.
    destruct (f !! q) eqn:Hfq; [|done]. exfalso.
    destruct (K3 q (Hnone q Hq)) as [_ Hpre]; [by rewrite Hfq|].
    apply Hne. by apply (anti_symm prefix).
  - unfold Extract.safe_extract_zip. by rewrite Hmk.
Qed.

End ExtractFacts.

(** ** The resumable downloader *)

Section DownloadFacts.
Local Open Scope Z_scope.

Lemma read_chunks_app reads : forall data,
  Download.read_chunks reads data =
  ((Download.read_chunks reads []).1, data ++ Download.received reads).
Proof.
  unfold Download.received.
  induction reads as [|[chunk|e] reads IH]; intros data; simpl.
  - by rewrite app_nil_r.
  - destruct chunk as [|b chunk]; [by rewrite app_nil_r|].
    rewrite IH, (IH (b :: chunk)). simpl. by rewrite <- app_assoc.
  - by rewrite app_nil_r.
Qed.

(** One attempt sends one HEAD request and never sleeps. *)
Lemma attempt_once_log E url tmp dest a w :
  exists d, w_log (Download.attempt_once E url tmp dest a w).2 = w_log w ++ d
    /\ Download.attempts_made d = 1%nat /\ Download.sleeps d = [].
Proof.
  unfold Download.attempt_once.
  repeat case_match; simpl; eexists;
    (split; [rewrite <- ?app_assoc; reflexivity|]); done.
Qed.

(** A failed attempt keeps what the staging file held and adds to it. *)
Lemma attempt_once_keeps_staging E url tmp dest a w e w' old :
  Download.attempt_once E url tmp dest a w = (Raise e, w') ->
  Fsys.node_at (w_fs w) tmp = Some (File old) ->
  exists more, Fsys.node_at (w_fs w') tmp = Some (File (old ++ more)).
Proof.
  intros Ha Hold. pose proof (node_at_lookup _ _ _ Hold) as [Hne _].
  unfold Download.attempt_once, Download.existing_size in Ha.
  rewrite Hold in Ha. simpl in Ha.
  assert (Hsame : Fsys.node_at (w_fs w) tmp = Some (File (old ++ [])))
    by (by rewrite app_nil_r).
  destruct (Download.already_complete _ _).
  { destruct (Fsys.replace _ _ _); [done|].
    injection Ha as _ <-. by exists []. }
  destruct (serve_get _ _ _ _) as [e'|cl reads].
  { injection Ha as _ <-. by exists []. }
  rewrite (open_write_file _ _ _ _ Hold) in Ha.
  destruct (Download.response_total _ _ _).
  2:{ injection Ha as _ <-. simpl.
      assert (Hold' : (if negb (Z.of_nat (length old) =? 0) then old else [])
                      = old).
      { destruct old; [done|]. done. }
      rewrite Hold'. exists []. rewrite app_nil_r. by apply node_at_insert. }
  rewrite read_chunks_app in Ha.
  assert (Hold' : (if negb (Z.of_nat (length old) =? 0) then old else [])
                  = old) by (by destruct old).
  rewrite Hold' in Ha. unfold Fsys.write_file in Ha.
  assert (Hfin : forall lg, Fsys.node_at
     (w_fs (World (<[Fsys.normpath tmp := File (old ++ Download.received reads)]>
              (<[Fsys.normpath tmp := File old]> (w_fs w))) lg)) tmp
     = Some (File (old ++ Download.received reads)))
    by (intros lg; by apply node_at_insert).
  destruct ((Download.read_chunks reads []).1).
  { injection Ha as _ <-. eexists. apply Hfin. }
  destruct (Download.size_mismatch _ _).
  { injection Ha as _ <-. eexists. apply Hfin. }
  destruct (Fsys.replace _ _ _); [done|].
  injection Ha as _ <-. eexists. apply Hfin.
Qed.

(** A successful attempt puts at the destination what the staging file
    held, with what it received after it. *)
Lemma attempt_once_promotes_staging E url tmp dest a w w' old :
  Download.attempt_once E url tmp dest a w = (Ok tt, w') ->
  Fsys.node_at (w_fs w) tmp = Some (File old) ->
  exists more, Fsys.node_at (w_fs w') dest = Some (File (old ++ more)).
Proof.
  intros Ha Hold.
  assert (Hrep : forall (f f' : fs) data,
            Fsys.node_at f tmp = Some (File data) ->
            Fsys.replace tmp dest f = Ok f' ->
            Fsys.node_at f' dest = Some (File data)).
  { intros f f' data Hf Hr. unfold Fsys.replace in Hr. rewrite Hf in Hr.
    destruct (Fsys.node_at f dest) as [[dd|]|] eqn:Hd; [|done|];
      injection Hr as <-; apply node_at_insert;
      apply (node_at_not_dir f); by rewrite Hd. }
  pose proof (node_at_lookup _ _ _ Hold) as [Hne _].
  unfold Download.attempt_once, Download.existing_size in Ha.
  rewrite Hold in Ha. cbn [Fsys.st_size] in Ha.
  destruct (Download.already_complete _ _).
  { destruct (Fsys.replace _ _ _) as [f'|] eqn:Hr; [|done].
    injection Ha as <-. exists []. rewrite app_nil_r.
    by apply (Hrep _ _ _ Hold Hr). }
  destruct (serve_get _ _ _ _) as [e'|cl reads]; [done|].
  cbn [w_fs emit] in Ha. rewrite (open_write_file _ _ _ _ Hold) in Ha.
  destruct (Download.response_total _ _ _); [|done].
  rewrite read_chunks_app in Ha.
  assert (Hold' : (if negb (Z.of_nat (length old) =? 0) then old else [])
                  = old) by (by destruct old).
  rewrite Hold' in Ha. unfold Fsys.write_file in Ha.
  destruct ((Download.read_chunks reads []).1); [done|].
  destruct (Download.size_mismatch _ _); [done|].
  destruct (Fsys.replace _ _ _) as [f'|] eqn:Hr; [|done].
  injection Ha as <-. exists (Download.received reads).
  cbn [w_fs print emit set_fs].
  apply (Hrep _ _ _ (node_at_insert _ _ _ Hne) Hr).
Qed.

Lemma attempts_made_app d1 d2 :
  Download.attempts_made (d1 ++ d2) =
  (Download.attempts_made d1 + Download.attempts_made d2)%nat.
Proof.
  unfold Download.attempts_made. by rewrite List.filter_app, length_app.
Qed.

Lemma sleeps_app d1 d2 :
  Download.sleeps (d1 ++ d2) = Download.sleeps d1 ++ Download.sleeps d2.
Proof. unfold Download.sleeps. apply omap_app. Qed.

Lemma backoff_one a : Download.backoff a 1 = [].
Proof. done. Qed.

Lemma backoff_succ a k :
  (1 <= k)%nat ->
  Download.backoff a (S k) = 2 ^ (a + 1) :: Download.backoff (a + 1) k.
Proof.
  intros Hk. unfold Download.backoff.
  replace (S k - 1)%nat with (S (k - 1)) by lia. simpl. f_equal.
  rewrite <- seq_shift, <- list_fmap_compose.
  apply list_fmap_ext. intros j i _. simpl. f_equal. lia.
Qed.

Lemma retry_loop_post E url tmp dest retries : forall n a w,
  Z.to_nat (retries - a) = n ->
  Download.loop_post E url tmp dest retries a w
    (Download.retry_loop E url tmp dest retries a w).
Proof.
  induction n as [n IH] using lt_wf_ind. intros a w Hn.
  unfold Download.loop_post.
  rewrite Download.retry_loop_equation_1. cbv zeta.
  destruct (attempt_once_log E url tmp dest (a + 1) w) as (d1 & Hd1 & Hk1 & Hs1).
  destruct (Download.attempt_once E url tmp dest (a + 1) w) as [[[]|e] w1]
    eqn:Hatt; cbn [snd] in Hd1.
  - exists d1. cbn [fst snd]. rewrite Hk1, Hs1.
    split; [done|]. split; [lia|]. split; [done|]. split; [done|].
    split; [done|]. intros old _ Hold.
    by apply (attempt_once_promotes_staging _ _ _ _ _ _ _ _ Hatt).
  - destruct (decide (retries <= a + 1)) as [Hle|Hgt].
    + exists d1. cbn [fst snd]. rewrite Hk1, Hs1.
      split; [done|]. split; [lia|]. split; [done|]. split; [|split; [|done]].
      * intros e' [= <-]. split; [lia|]. exists w.
        by replace (a + Z.of_nat 1) with (a + 1) by lia.
      * intros e' old [= <-] Hold.
        by apply (attempt_once_keeps_staging _ _ _ _ _ _ _ _ _ Hatt).
    + set (w2 := emit _ _).
      destruct (IH (Z.to_nat (retries - (a + 1))) ltac:(lia) (a + 1) w2 eq_refl)
        as (d2 & Hd2 & Hk2 & Hs2 & Hr2 & Hp2 & Hq2).
      exists (d1 ++ [EvPrint (MsgRetrying (Fsys.name dest) e (2 ^ (a + 1)));
                     EvSleep (2 ^ (a + 1))] ++ d2).
      rewrite !attempts_made_app, !sleeps_app, Hk1, Hs1.
      change (Download.attempts_made
                [EvPrint (MsgRetrying (Fsys.name dest) e (2 ^ (a + 1)));
                 EvSleep (2 ^ (a + 1))]) with 0%nat.
      change (Download.sleeps
                [EvPrint (MsgRetrying (Fsys.name dest) e (2 ^ (a + 1)));
                 EvSleep (2 ^ (a + 1))]) with [2 ^ (a + 1)].
      cbn [app Nat.add]. split.
      { rewrite Hd2. subst w2. cbn [w_log print emit].
        rewrite Hd1, <- !app_assoc. done. }
      split; [lia|]. split.
      { rewrite backoff_succ by lia. by rewrite Hs2. }
      split; [|split].
      * intros e' He'. destruct (Hr2 e' He') as [Hk (w_last & Hlast)].
        split; [lia|]. exists w_last. rewrite <- Hlast. f_equal. lia.
      * intros e' old He' Hold.
        destruct (attempt_once_keeps_staging _ _ _ _ _ _ _ _ _ Hatt Hold)
          as [m1 Hm1].
        destruct (Hp2 e' (old ++ m1) He') as [m2 Hm2]; [done|].
        exists (m1 ++ m2). by rewrite app_assoc.
      * intros old Hok Hold.
        destruct (attempt_once_keeps_staging _ _ _ _ _ _ _ _ _ Hatt Hold)
          as [m1 Hm1].
        destruct (Hq2 (old ++ m1) Hok) as [m2 Hm2]; [done|].
        exists (m1 ++ m2). by rewrite app_assoc.
Qed.

(** C6 (amended): the retry loop ends after at least one and at most
    [max 1 retries] attempts; before every attempt but the first it sleeps
    [2 ^ attempt] seconds, [attempt] being the number of the attempt that
    just failed; when it raises, every attempt has been used and the error
    is the one the last attempt raised.  What the staging file held at the
    start is kept: it begins the staging file when the loop raises, and
    the destination file when the loop returns. *)
Theorem retry_loop_bounded_backoff
    (E : env) (url : string) (tmp dest : path) (retries : Z) (w : world) :
  let out := Download.retry_loop E url tmp dest retries 0 w in
  exists d, w_log out.2 = w_log w ++ d
    /\ (1 <= Download.attempts_made d <= Z.to_nat (Z.max 1 retries))%nat
    /\ Download.sleeps d =
       (fun i => 2 ^ Z.of_nat i) <$> seq 1 (Download.attempts_made d - 1)
    /\ (forall e, out.1 = Raise e ->
          Download.attempts_made d = Z.to_nat (Z.max 1 retries)
          /\ exists w_last,
               Download.attempt_once E url tmp dest
                 (Z.of_nat (Download.attempts_made d)) w_last
               = (Raise e, out.2))
    /\ (forall e old, out.1 = Raise e ->
          Fsys.node_at (w_fs w) tmp = Some (File old) ->
          exists more,
            Fsys.node_at (w_fs out.2) tmp = Some (File (old ++ more)))
    /\ (forall old, out.1 = Ok tt ->
          Fsys.node_at (w_fs w) tmp = Some (File old) ->
          exists more,
            Fsys.node_at (w_fs out.2) dest = Some (File (old ++ more))).
Proof.
  cbv zeta.
  destruct (retry_loop_post E url tmp dest retries _ 0 w eq_refl)
    as (d & Hd & Hk & Hs & Hr & Hp & Hq).
  exists d. rewrite Z.sub_0_r in Hk, Hr.
  split; [done|]. split; [done|]. split; [exact Hs|]. split; [exact Hr|].
  split; [exact Hp|exact Hq].
Qed.

(** The first attempt of a download promotes a staging file that is not
    empty and holds at least a known, non-zero total. *)
Lemma attempt_once_already_complete E url tmp dest a w old T :
  Fsys.node_at (w_fs w) tmp = Some (File old) ->
  old ≠ [] ->
  http_head E url a = HeadOk (CLInt T) ->
  T ≠ 0 -> T <= Z.of_nat (length old) ->
  Fsys.node_at (w_fs w) dest ≠ Some Dir ->
  Download.attempt_once E url tmp dest a w =
  (Ok tt, World (<[Fsys.normpath dest := File old]>
                   (delete (Fsys.normpath tmp) (w_fs w)))
                (w_log w ++ [EvHead url])).
Proof.
  intros Hold Hne Hhead HT HTle Hdest.
  unfold Download.attempt_once, Download.existing_size,
    Download.already_complete.
  rewrite Hold, Hhead. simpl.
  assert (Z.of_nat (length old) ≠ 0) by (destruct old; [done|simpl; lia]).
  rewrite (proj2 (Z.eqb_neq _ _)), (proj2 (Z.eqb_neq _ _)) by done.
  rewrite (proj2 (Z.leb_le _ _)) by done. simpl.
  by rewrite (replace_file _ _ _ _ Hold Hdest).
Qed.



Lemma requests_app d1 d2 :
  Download.requests (d1 ++ d2) = Download.requests d1 ++ Download.requests d2.
Proof. unfold Download.requests. apply List.filter_app. Qed.

(** A failed attempt leaves the destination as it was. *)
Lemma attempt_once_failure_keeps_dest E url tmp dest a w e w' :
  Fsys.normpath tmp ≠ Fsys.normpath dest ->
  Download.attempt_once E url tmp dest a w = (Raise e, w') ->
  Fsys.node_at (w_fs w') dest = Fsys.node_at (w_fs w) dest.
Proof.
  intros Hne. unfold Download.attempt_once.
  destruct (Download.already_complete _ _).
  { destruct (Fsys.replace _ _ _); [done|]. by intros [= _ <-]. }
  destruct (serve_get _ _ _ _) as [e'|cl reads]; [by intros [= _ <-]|].
  destruct (Fsys.open_write _ _ _) as [[f data0]|e'] eqn:Hopen;
    [|by intros [= _ <-]].
  assert (Hf : Fsys.node_at f dest = Fsys.node_at (w_fs w) dest).
  { unfold Fsys.open_write in Hopen. cbn [w_fs emit] in Hopen.
    destruct (Fsys.node_at (w_fs w) tmp) as [[d|]|].
    - injection Hopen as <- _. by apply node_at_insert_ne.
    - done.
    - destruct (Fsys.node_at (w_fs w) (Fsys.parent (Fsys.normpath tmp)))
        as [[|]|]; try done.
      injection Hopen as <- _. by apply node_at_insert_ne. }
  destruct (Download.response_total _ _ _); [|by intros [= _ <-]].
  destruct (Download.read_chunks reads data0) as [fault data].
  assert (Hf4 : Fsys.node_at (Fsys.write_file tmp data f) dest
                = Fsys.node_at (w_fs w) dest).
  { unfold Fsys.write_file. by rewrite node_at_insert_ne. }
  destruct fault; [by intros [= _ <-]|].
  destruct (Download.size_mismatch _ _); [by intros [= _ <-]|].
  destruct (Fsys.replace _ _ _); [done|]. by intros [= _ <-].
Qed.





End DownloadFacts.

(** ** The orchestrator *)

Lemma split_go_no_sep sep l : forall cur,
  sep ∉ l -> Str.split_go sep cur l = [Str.of_list (rev cur ++ l)].
Proof.
  induction l as [|c l IH]; intros cur Hn; simpl.
  - by rewrite app_nil_r.
  - destruct (decide (c = sep)) as [->|Hc]; [set_solver|].
    rewrite IH by set_solver. simpl. by rewrite <- app_assoc.
Qed.

Lemma split_no_sep sep s :
  sep ∉ Str.to_list s -> Str.split sep s = [s].
Proof.
  intros Hn. unfold Str.split. rewrite split_go_no_sep by done.
  simpl. f_equal. apply string_of_list_ascii_of_string.
Qed.

Lemma is_absolute_has_slash s :
  Posix.is_absolute s = true -> "/"%char ∈ Str.to_list s.
Proof.
  unfold Posix.is_absolute, Str.startswith. intros Ha.
  apply andb_true_iff in Ha as [Ha _]. apply bool_decide_eq_true in Ha.
  destruct s as [|c s]; [done|]. simpl in Ha.
  destruct s; simpl in Ha; injection Ha as ->; apply elem_of_cons; by left.
Qed.

(** What the derivation of the path gets right: a cleaned name without a
    slash that is neither ["."] nor [".."] names a direct child of the
    destination root. *)
Lemma zip_path_direct_child (dest_root : path) (fname : string) :
  "/"%char ∉ Str.to_list (Main.sanitize fname) ->
  Main.sanitize fname ≠ "" -> Main.sanitize fname ≠ "." ->
  Main.sanitize fname ≠ ".." ->
  Main.zip_path_of dest_root fname = dest_root ++ [Main.sanitize fname]
  /\ Fsys.normpath (Main.zip_path_of dest_root fname)
     = Fsys.normpath dest_root ++ [Main.sanitize fname].
Proof.
  intros Hslash He Hd Hdd.
  assert (Hz : Main.zip_path_of dest_root fname
               = dest_root ++ [Main.sanitize fname]).
  { unfold Main.zip_path_of, Fsys.joinpath.
    destruct (Posix.is_absolute (Main.sanitize fname)) eqn:Ha.
    { by apply is_absolute_has_slash in Ha. }
    unfold Posix.components. rewrite split_no_sep by done.
    by rewrite filter_cons_True, filter_nil. }
  split; [done|]. rewrite Hz, normpath_snoc.
  rewrite bool_decide_eq_false_2 by done.
  by rewrite bool_decide_eq_false_2 by (by intros [?|?]).
Qed.

Section MainFacts.
Context `{Library}.



Lemma safe_extract_zip_log zip_path extract_dir w :
  w_log (Extract.safe_extract_zip zip_path extract_dir w).2 = w_log w.
Proof.
  unfold Extract.safe_extract_zip. repeat case_match; done.
Qed.







End MainFacts.

(** * Further properties *)

(** ** Link discovery: what the parser collects *)

Lemma to_list_of_list l : Str.to_list (Str.of_list l) = l.
Proof. apply list_ascii_of_string_of_list_ascii. Qed.

Lemma of_list_to_list s : Str.of_list (Str.to_list s) = s.
Proof. apply string_of_list_ascii_of_string. Qed.

Lemma to_list_app (s1 s2 : string) :
  Str.to_list (s1 +:+ s2) = Str.to_list s1 ++ Str.to_list s2.
Proof.
  induction s1 as [|c s1 IH]; [done|].
  rewrite string_app_cons. unfold Str.to_list in *. simpl. by rewrite IH.
Qed.

Lemma substring_to_list n k s :
  Str.to_list (String.substring n k s) = take k (drop n (Str.to_list s)).
Proof.
  unfold Str.to_list. revert n k. induction s as [|c s IH]; intros n k.
  - destruct n, k; done.
  - destruct n as [|n]; simpl.
    + destruct k as [|k]; [done|]. simpl. f_equal. apply (IH 0).
    + apply IH.
Qed.

Lemma endswith_spec (s suf : string) :
  Str.endswith s suf = true <->
  exists pre, Str.to_list s = pre ++ Str.to_list suf.
Proof.
  unfold Str.endswith. rewrite andb_true_iff, Nat.leb_le, bool_decide_eq_true.
  rewrite <- !length_to_list.
  set (l := Str.to_list s). set (k := length (Str.to_list suf)). split.
  - intros [Hle Hsub]. exists (take (length l - k) l).
    apply (f_equal Str.to_list) in Hsub. rewrite substring_to_list in Hsub.
    fold l in Hsub. rewrite <- Hsub.
    rewrite (take_ge (drop _ _)) by (rewrite length_drop; lia).
    by rewrite take_drop.
  - intros [pre Hpre]. rewrite Hpre, length_app. fold k. split; [lia|].
    rewrite <- (of_list_to_list (String.substring _ _ _)), substring_to_list.
    fold l. rewrite Hpre.
    replace (length pre + k - k) with (length pre) by lia.
    rewrite drop_app_length, take_ge by (unfold k; lia). apply of_list_to_list.
Qed.

Lemma lower_to_list s :
  Str.to_list (Str.lower s) = Str.lower_ascii <$> Str.to_list s.
Proof.
  unfold Str.to_list. induction s as [|c s IH]; [done|]. simpl. by rewrite IH.
Qed.

(** *** Stripping white space *)

Section StripFront.
Variable s1 : ascii -> bool.
Variable s2 : ascii -> ascii -> bool.
Variable s3 : ascii -> ascii -> ascii -> bool.

(** What is dropped is a prefix. *)
Lemma strip_front_suffix l : exists ws, l = ws ++ Str.strip_front s1 s2 s3 l.
Proof.
  remember (length l) as n eqn:Hn. revert l Hn.
  induction n as [n IH] using lt_wf_ind. intros l ->.
  destruct l as [|a r1]; [by exists []|]. cbn [Str.strip_front].
  destruct (s1 a).
  { destruct (IH (length r1) ltac:(simpl; lia) r1 eq_refl) as [ws Hws].
    exists (a :: ws). simpl. by f_equal. }
  destruct r1 as [|b r2]; [by exists []|].
  destruct (s2 a b).
  { destruct (IH (length r2) ltac:(simpl; lia) r2 eq_refl) as [ws Hws].
    exists (a :: b :: ws). simpl. by do 2 f_equal. }
  destruct r2 as [|c r3]; [by exists []|].
  destruct (s3 a b c); [|by exists []].
  destruct (IH (length r3) ltac:(simpl; lia) r3 eq_refl) as [ws Hws].
  exists (a :: b :: c :: ws). simpl. by do 3 f_equal.
Qed.

(** What is left does not begin with white space. *)
Lemma strip_front_stops l :
  Str.space_front s1 s2 s3 (Str.strip_front s1 s2 s3 l) = false.
Proof.
  remember (length l) as n eqn:Hn. revert l Hn.
  induction n as [n IH] using lt_wf_ind. intros l ->.
  destruct l as [|a r1]; [done|]. cbn [Str.strip_front].
  destruct (s1 a) eqn:H1; [apply (IH (length r1)); simpl; lia || done|].
  destruct r1 as [|b r2]; [cbn; by rewrite H1|].
  destruct (s2 a b) eqn:H2; [apply (IH (length r2)); simpl; lia || done|].
  destruct r2 as [|c r3]; [cbn; by rewrite H1, H2|].
  destruct (s3 a b c) eqn:H3; [apply (IH (length r3)); simpl; lia || done|].
  cbn. by rewrite H1, H2, H3.
Qed.

(** A list that does not begin with white space is left as it is. *)
Lemma strip_front_id l :
  Str.space_front s1 s2 s3 l = false -> Str.strip_front s1 s2 s3 l = l.
Proof.
  destruct l as [|a [|b [|c r3]]]; cbn; try done.
  - rewrite orb_false_r. by intros ->.
  - rewrite orb_false_r. intros [-> ->]%orb_false_iff. done.
  - intros [-> [-> ->]%orb_false_iff]%orb_false_iff. done.
Qed.

Lemma space_front_prefix x y :
  Str.space_front s1 s2 s3 (x ++ y) = false ->
  Str.space_front s1 s2 s3 x = false.
Proof.
  destruct x as [|a [|b [|c r3]]]; cbn; try done.
  - destruct y as [|b [|c y]]; cbn.
    + done.
    + rewrite !orb_false_r. by intros [-> _]%orb_false_iff.
    + rewrite !orb_false_r. by intros [-> _]%orb_false_iff.
  - destruct y as [|c y]; cbn; [done|].
    rewrite !orb_false_r.
    by intros [-> [-> _]%orb_false_iff]%orb_false_iff.
Qed.

End StripFront.

(** An ASCII character that is no white space is part of no white-space
    character of several bytes. *)
Lemma is_space2_ascii a b :
  nat_of_ascii a < 128 \/ nat_of_ascii b < 128 -> Str.is_space2 a b = false.
Proof.
  unfold Str.is_space2. intros Hab.
  destruct (Nat.eqb_spec (nat_of_ascii a) 194);
    destruct (Nat.eqb_spec (nat_of_ascii b) 133);
    destruct (Nat.eqb_spec (nat_of_ascii b) 160); simpl; try done; lia.
Qed.

Lemma is_space3_ascii a b c :
  nat_of_ascii a < 128 \/ nat_of_ascii b < 128 \/ nat_of_ascii c < 128 ->
  Str.is_space3 a b c = false.
Proof.
  unfold Str.is_space3. cbv zeta. intros [H|[H|H]].
  - rewrite (proj2 (Nat.eqb_neq (nat_of_ascii a) 225)),
      (proj2 (Nat.eqb_neq (nat_of_ascii a) 226)),
      (proj2 (Nat.eqb_neq (nat_of_ascii a) 227)) by lia.
    reflexivity.
  - rewrite (proj2 (Nat.eqb_neq (nat_of_ascii b) 154)),
      (proj2 (Nat.eqb_neq (nat_of_ascii b) 128)),
      (proj2 (Nat.eqb_neq (nat_of_ascii b) 129)) by lia.
    by rewrite !andb_false_r.
  - rewrite (proj2 (Nat.eqb_neq (nat_of_ascii c) 128)),
      (proj2 (Nat.eqb_neq (nat_of_ascii c) 168)),
      (proj2 (Nat.eqb_neq (nat_of_ascii c) 169)),
      (proj2 (Nat.eqb_neq (nat_of_ascii c) 175)),
      (proj2 (Nat.eqb_neq (nat_of_ascii c) 159)),
      (proj2 (Nat.leb_gt 128 (nat_of_ascii c))) by lia.
    by rewrite !andb_false_r.
Qed.

Lemma lstrip_space_front_ascii a z :
  nat_of_ascii a < 128 -> Str.is_space a = false ->
  Str.space_front Str.is_space Str.is_space2 Str.is_space3 (a :: z) = false.
Proof.
  intros Ha Hs. cbn. rewrite Hs.
  destruct z as [|b [|c z]]; cbn; [done| |].
  - by rewrite is_space2_ascii by auto.
  - by rewrite is_space2_ascii, is_space3_ascii by auto.
Qed.

Lemma rstrip_space_front_ascii b z :
  nat_of_ascii b < 128 -> Str.is_space b = false ->
  Str.space_front Str.is_space (fun b a => Str.is_space2 a b)
    (fun c b a => Str.is_space3 a b c) (b :: z) = false.
Proof.
  intros Hb Hs. cbn. rewrite Hs.
  destruct z as [|a [|c z]]; cbn; [done| |].
  - by rewrite is_space2_ascii by auto.
  - by rewrite is_space2_ascii, is_space3_ascii by auto.
Qed.

Lemma lstrip_list_suffix l : exists ws, l = ws ++ Str.lstrip_list l.
Proof. apply strip_front_suffix. Qed.

(** Left-stripping cannot eat into a block that begins with an ASCII
    character that is no white space. *)
Lemma lstrip_list_keeps pre a z :
  nat_of_ascii a < 128 -> Str.is_space a = false ->
  exists pre', Str.lstrip_list (pre ++ a :: z) = pre' ++ a :: z.
Proof.
  intros Ha Hs. unfold Str.lstrip_list.
  remember (length pre) as n eqn:Hn. revert pre Hn.
  induction n as [n IH] using lt_wf_ind. intros pre ->.
  destruct pre as [|x r1].
  { exists []. apply strip_front_id. by apply lstrip_space_front_ascii. }
  cbn [app Str.strip_front].
  destruct (Str.is_space x).
  { apply (IH (length r1)); simpl; lia || done. }
  destruct r1 as [|y r2]; cbn [app].
  { exists [x]. rewrite is_space2_ascii by auto.
    destruct z as [|c z]; [done|]. by rewrite is_space3_ascii by auto. }
  destruct (Str.is_space2 x y).
  { apply (IH (length r2)); simpl; lia || done. }
  destruct r2 as [|w r3]; cbn [app].
  { exists [x; y]. by rewrite is_space3_ascii by auto. }
  destruct (Str.is_space3 x y w).
  { apply (IH (length r3)); simpl; lia || done. }
  by exists (x :: y :: w :: r3).
Qed.

(** A string that does not begin with white space and ends in an ASCII
    character that is no white space is its own [strip]. *)
Lemma strip_fixed (l : list ascii) b :
  Str.space_front Str.is_space Str.is_space2 Str.is_space3 (l ++ [b]) = false ->
  nat_of_ascii b < 128 -> Str.is_space b = false ->
  Str.strip (Str.of_list (l ++ [b])) = Str.of_list (l ++ [b]).
Proof.
  intros Hhd Hb Hs. unfold Str.strip, Str.lstrip_list, Str.rstrip_rev_list.
  rewrite to_list_of_list, (strip_front_id _ _ _ _ Hhd), rev_unit.
  rewrite strip_front_id by (by apply rstrip_space_front_ascii).
  by rewrite <- rev_unit, rev_involutive.
Qed.

(** Stripping a string that ends in a block whose first and last
    characters are ASCII and no white space keeps the block at the end,
    and the result is its own [strip]. *)
Lemma strip_keeps_suffix (pre mid : list ascii) a b :
  nat_of_ascii a < 128 -> Str.is_space a = false ->
  nat_of_ascii b < 128 -> Str.is_space b = false ->
  exists pre',
    Str.strip (Str.of_list (pre ++ a :: mid ++ [b]))
    = Str.of_list (pre' ++ a :: mid ++ [b])
    /\ Str.strip (Str.of_list (pre' ++ a :: mid ++ [b]))
       = Str.of_list (pre' ++ a :: mid ++ [b]).
Proof.
  intros Ha Hsa Hb Hsb.
  destruct (lstrip_list_keeps pre a (mid ++ [b]) Ha Hsa) as [pre' Hpre'].
  pose proof (strip_front_stops Str.is_space Str.is_space2 Str.is_space3
                (pre ++ a :: mid ++ [b])) as Hhd.
  fold Str.lstrip_list in Hhd. rewrite Hpre' in Hhd.
  assert (Hsnoc : forall p, p ++ a :: mid ++ [b] = (p ++ a :: mid) ++ [b])
    by (intros p; by rewrite <- app_assoc).
  exists pre'. split.
  - unfold Str.strip, Str.rstrip_rev_list.
    rewrite to_list_of_list, Hpre', Hsnoc, rev_unit.
    rewrite strip_front_id by (by apply rstrip_space_front_ascii).
    by rewrite <- rev_unit, rev_involutive.
  - rewrite Hsnoc. apply strip_fixed; [by rewrite <- Hsnoc|done..].
Qed.

(** The characters of a block that reads [.zip] when put in lower case:
    the first and the last one are ASCII and no white space. *)
Lemma lower_dot_or_p c :
  Str.lower_ascii c = "."%char \/ Str.lower_ascii c = "p"%char ->
  nat_of_ascii c < 128 /\ Str.is_space c = false.
Proof.
  destruct c as [[] [] [] [] [] [] [] []]; vm_compute;
    intros [?|?]; first [congruence | split; [lia|reflexivity]].
Qed.

Lemma lower_zip_block (z : list ascii) :
  Str.lower_ascii <$> z = Str.to_list ".zip" ->
  exists a mid b, z = a :: mid ++ [b]
    /\ (nat_of_ascii a < 128 /\ Str.is_space a = false)
    /\ (nat_of_ascii b < 128 /\ Str.is_space b = false).
Proof.
  destruct z as [|a [|c1 [|c2 [|b [|]]]]]; try done.
  intros [= Ha _ _ Hb]. exists a, [c1; c2], b. split; [done|].
  split; apply lower_dot_or_p; auto.
Qed.

Lemma fmap_app_inv_r {A B} (f : A -> B) (l : list A) (k1 k2 : list B) :
  f <$> l = k1 ++ k2 ->
  exists l1 l2, l = l1 ++ l2 /\ f <$> l1 = k1 /\ f <$> l2 = k2.
Proof. intros Hl. apply fmap_app_inv in Hl as (l1 & l2 & ? & ? & ?). eauto. Qed.

Section LinksMore.
Context `{Library}.

(** What [handle_starttag] stores for a qualifying [href]. *)
Lemma zip_href_shape (t : starttag) (link : string) :
  Links.zip_href t = Some link ->
  Str.endswith (Str.lower link) ".zip" = true /\ Str.strip link = link.
Proof.
  unfold Links.zip_href.
  destruct (bool_decide _); [|done].
  destruct (Links.get_href t.2) as [href|]; [|done].
  destruct (Str.endswith (Str.lower href) ".zip") eqn:Hz; [|done].
  intros [= <-].
  apply endswith_spec in Hz as [lpre Hz]. rewrite lower_to_list in Hz.
  apply fmap_app_inv_r in Hz as (pre & z & Hhref & _ & Hzip).
  destruct (lower_zip_block z Hzip) as (a & mid & b & -> & [Ha Hsa] & [Hb Hsb]).
  destruct (strip_keeps_suffix pre mid a b Ha Hsa Hb Hsb)
    as (pre' & Hs1 & Hs2).
  rewrite <- (of_list_to_list href), Hhref, Hs1, Hs2. split; [|done].
  apply endswith_spec. rewrite lower_to_list, to_list_of_list, fmap_app.
  exists (Str.lower_ascii <$> pre'). by rewrite Hzip.
Qed.

(** X1: when the parser has read the page, every link [ZipLinkParser]
    collected ends in [.zip] in some letter case, is its own [strip] (no
    white space at either end), and is not empty: the test is made on the
    raw [href], whose last character is then the [p] of [.zip], so that
    [strip] can only remove leading white space. *)
Theorem collected_links_end_in_zip (html : string) (links : list string) :
  Links.feed html = Ok links ->
  Forall (fun link =>
            Str.endswith (Str.lower link) ".zip" = true
            /\ Str.strip link = link
            /\ link ≠ "")
    links.
Proof.
  rewrite feed_zip_hrefs.
  destruct (html_starttags html) as [tags|e]; [|done]. intros [= <-].
  apply Forall_forall. intros link Hin.
  apply list_elem_of_omap in Hin as (t & _ & Ht).
  destruct (zip_href_shape t link Ht) as [Hz Hs].
  split; [done|]. split; [done|]. by intros ->.
Qed.

End LinksMore.

(** [dict(attrs)] holds for a key the value of its last pair. *)
Lemma dict_last (l1 l2 : attrs) (k : string) (v : option string) :
  Forall (fun kv => kv.1 ≠ k) l2 ->
  Links.dict (l1 ++ (k, v) :: l2) !! k = Some v.
Proof.
  intros Hl2.
  assert (Hgen : forall (m : gmap string (option string)),
            m !! k = Some v ->
            foldl (fun m kv => <[kv.1 := kv.2]> m) m l2 !! k = Some v).
  { induction Hl2 as [|kv l2 Hkv _ IH]; intros m' Hm; simpl; [done|].
    apply IH. by rewrite lookup_insert_ne. }
  unfold Links.dict. rewrite foldl_app. simpl. apply Hgen, lookup_insert_eq.
Qed.

Lemma dict_absent (l : attrs) (k : string) :
  Forall (fun kv => kv.1 ≠ k) l -> Links.dict l !! k = None.
Proof.
  intros Hl. unfold Links.dict.
  assert (Hgen : forall (m : gmap string (option string)),
            m !! k = None ->
            foldl (fun m kv => <[kv.1 := kv.2]> m) m l !! k = None).
  { induction Hl as [|kv l Hkv _ IH]; intros m' Hm; simpl; [done|].
    apply IH. by rewrite lookup_insert_ne. }
  by apply Hgen.
Qed.

(** X2: of the [href] attributes of a start tag only the last one
    counts, because the attributes go through [dict]: the tag is handled
    as if that were its only attribute.  A tag whose last [href] has no
    value, and a tag without [href], add nothing. *)
Theorem handle_starttag_last_href
    (links : list string) (tag : string) (l1 l2 : attrs)
    (v : option string) :
  Forall (fun kv => kv.1 ≠ "href") l2 ->
  Links.handle_starttag links (tag, l1 ++ ("href", v) :: l2)
  = Links.handle_starttag links (tag, [("href", v)])
  /\ Links.handle_starttag links (tag, l1 ++ ("href", None) :: l2) = links
  /\ Links.handle_starttag links (tag, l2) = links.
Proof.
  intros Hl2. unfold Links.handle_starttag, Links.get_href.
  rewrite !dict_last by done.
  rewrite (dict_last [] [] "href" v (Forall_nil_2 _)
           : Links.dict [("href", v)] !! "href" = _).
  rewrite (dict_absent l2) by done.
  split; [done|]. split; by destruct (negb _).
Qed.

(** ** The downloader: disk, requests and pauses *)

Section DownloadMoreFacts.
Local Open Scope Z_scope.

(** The invariant rule of the retry loop: what every attempt keeps, the
    loop keeps. *)
Lemma retry_loop_inv (E : env) (url : string) (tmp dest : path) (retries : Z)
    (I : world -> Prop) (Q : result unit * world -> Prop) :
  (forall a w, I w ->
     match Download.attempt_once E url tmp dest a w with
     | (Ok _, w') => Q (Ok tt, w')
     | (Raise e, w') =>
         Q (Raise e, w')
         /\ I (emit (EvSleep (2 ^ a))
                 (print (MsgRetrying (Fsys.name dest) e (2 ^ a)) w'))
     end) ->
  forall a w, I w -> Q (Download.retry_loop E url tmp dest retries a w).
Proof.
  intros Hstep a w. remember (Z.to_nat (retries - a)) as n eqn:Hn.
  revert a w Hn. induction n as [n IH] using lt_wf_ind. intros a w Hn HI.
  rewrite Download.retry_loop_equation_1. cbv zeta.
  specialize (Hstep (a + 1) w HI).
  destruct (Download.attempt_once E url tmp dest (a + 1) w) as [[[]|e] w1];
    [done|].
  destruct Hstep as [HQ HI'].
  destruct (decide (retries <= a + 1)) as [Hle|Hgt]; [done|].
  apply (IH (Z.to_nat (retries - (a + 1)))); [lia|done|done].
Qed.

(** The staging path in normal form: the file [name.part] in the parent of
    the destination. *)
Lemma normpath_staging dest tmp :
  Fsys.with_suffix dest (Fsys.suffix dest +:+ ".part") = Ok tmp ->
  Fsys.normpath tmp
  = Fsys.normpath (Fsys.parent dest) ++ [Fsys.name dest +:+ ".part"].
Proof.
  intros Hw. apply with_suffix_part in Hw as [Hn ->].
  rewrite normpath_snoc.
  assert (Hlen : String.length (Fsys.name dest +:+ ".part")
                 = (String.length (Fsys.name dest) + 5)%nat)
    by apply string_length_app.
  rewrite (bool_decide_eq_false_2 (_ = ".."))
    by (intros Heq; rewrite Heq in Hlen; simpl in Hlen; lia).
  by rewrite (bool_decide_eq_false_2 (_ \/ _))
    by (intros [Heq|Heq]; rewrite Heq in Hlen; simpl in Hlen; lia).
Qed.

(** What one attempt does to the disk when the staging path holds no
    directory: it touches the staging file and the destination, and
    nothing else; when it succeeds the destination is a regular file and
    the staging file is gone; when it fails the destination is as it was
    and the staging path still holds no directory. *)
Lemma attempt_once_fs E url tmp dest a w :
  Fsys.normpath tmp ≠ Fsys.normpath dest ->
  Fsys.node_at (w_fs w) tmp ≠ Some Dir ->
  let out := Download.attempt_once E url tmp dest a w in
  (forall q, q ≠ Fsys.normpath tmp -> q ≠ Fsys.normpath dest ->
     w_fs out.2 !! q = w_fs w !! q)
  /\ match out.1 with
     | Ok _ =>
         (exists data, Fsys.node_at (w_fs out.2) dest = Some (File data))
         /\ Fsys.node_at (w_fs out.2) tmp = None
     | Raise _ =>
         Fsys.node_at (w_fs out.2) tmp ≠ Some Dir
         /\ Fsys.node_at (w_fs out.2) dest = Fsys.node_at (w_fs w) dest
     end.
Proof.
  intros Hne Hnd. cbv zeta.
  pose proof (node_at_not_dir _ _ Hnd) as Htmp.
  assert (Hrep : forall (f : fs) data,
            Fsys.node_at f tmp = Some (File data) ->
            (forall q, q ≠ Fsys.normpath tmp -> q ≠ Fsys.normpath dest ->
               f !! q = w_fs w !! q) ->
            Fsys.node_at f dest = Fsys.node_at (w_fs w) dest ->
            match Fsys.replace tmp dest f with
            | Ok f' =>
                (forall q, q ≠ Fsys.normpath tmp -> q ≠ Fsys.normpath dest ->
                   f' !! q = w_fs w !! q)
                /\ Fsys.node_at f' dest = Some (File data)
                /\ Fsys.node_at f' tmp = None
            | Raise _ => True
            end).
  { intros f data Hf Hfr Hfd.
    destruct (Fsys.node_at f dest) as [[dd|]|] eqn:Hd.
    2:{ by rewrite (replace_file_onto_dir f tmp dest data). }
    all: rewrite (replace_file f tmp dest data) by (done || by rewrite Hd);
      assert (Fsys.normpath dest ≠ [])
        by (apply (node_at_not_dir f); by rewrite Hd);
      (split; [|split]);
      [ intros q Hq1 Hq2;
        rewrite lookup_insert_ne, lookup_delete_ne by done; by apply Hfr
      | by apply node_at_insert
      | rewrite node_at_insert_ne by done; by apply node_at_delete ]. }
  unfold Download.attempt_once.
  destruct (Download.already_complete _ _) eqn:Hc.
  { cbn [w_fs emit].
    destruct (Fsys.node_at (w_fs w) tmp) as [[data|]|] eqn:Hold; [|done|].
    2:{ unfold Download.existing_size in Hc. rewrite Hold in Hc.
        discriminate Hc. }
    specialize (Hrep (w_fs w) data Hold (fun _ _ _ => eq_refl) eq_refl).
    destruct (Fsys.replace tmp dest (w_fs w)) as [f'|e];
      cbn [fst snd w_fs set_fs emit].
    - destruct Hrep as (R1 & R2 & R3). split; [done|]. split; [by exists data|done].
    - split; [by intros|]. rewrite Hold. by split. }
  destruct (serve_get _ _ _ _) as [e'|cl reads]; [by cbn|].
  cbn [w_fs emit].
  destruct (Fsys.open_write tmp _ (w_fs w)) as [[f data0]|e'] eqn:Hopen;
    [|by cbn].
  assert (Hf : (forall q, q ≠ Fsys.normpath tmp -> f !! q = w_fs w !! q)
               /\ Fsys.node_at f tmp = Some (File data0)).
  { unfold Fsys.open_write in Hopen.
    destruct (Fsys.node_at (w_fs w) tmp) as [[d|]|].
    - injection Hopen as <- <-. split; [|by apply node_at_insert].
      intros q Hq. by rewrite lookup_insert_ne.
    - done.
    - destruct (Fsys.node_at (w_fs w) (Fsys.parent (Fsys.normpath tmp)))
        as [[|]|]; try done.
      injection Hopen as <- <-. split; [|by apply node_at_insert].
      intros q Hq. by rewrite lookup_insert_ne. }
  destruct Hf as [Hf1 Hf2].
  assert (Hfd : Fsys.node_at f dest = Fsys.node_at (w_fs w) dest).
  { unfold Fsys.node_at. destruct (Fsys.normpath dest) as [|c r] eqn:Hd; [done|].
    apply Hf1. rewrite <- Hd. congruence. }
  destruct (Download.response_total _ _ _) as [total'|e'].
  2:{ cbn [fst snd w_fs set_fs]. split; [intros q Hq _; by apply Hf1|].
      split; [by rewrite Hf2|done]. }
  destruct (Download.read_chunks reads data0) as [fault data].
  unfold Fsys.write_file. cbn [w_fs set_fs].
  set (f4 := <[Fsys.normpath tmp := File data]> f).
  assert (H41 : forall q, q ≠ Fsys.normpath tmp -> q ≠ Fsys.normpath dest ->
                  f4 !! q = w_fs w !! q).
  { intros q Hq _. unfold f4. rewrite lookup_insert_ne by done. by apply Hf1. }
  assert (H42 : Fsys.node_at f4 tmp = Some (File data))
    by (by apply node_at_insert).
  assert (H43 : Fsys.node_at f4 dest = Fsys.node_at (w_fs w) dest).
  { unfold f4. by rewrite node_at_insert_ne. }
  assert (Hfail : forall e lg,
            (forall q, q ≠ Fsys.normpath tmp -> q ≠ Fsys.normpath dest ->
               w_fs (Raise e : result unit, World f4 lg).2 !! q = w_fs w !! q)
            /\ match (Raise e : result unit, World f4 lg).1 with
               | Ok _ => True
               | Raise _ =>
                   Fsys.node_at (w_fs (Raise e : result unit, World f4 lg).2) tmp
                   ≠ Some Dir
                   /\ Fsys.node_at
                        (w_fs (Raise e : result unit, World f4 lg).2) dest
                      = Fsys.node_at (w_fs w) dest
               end).
  { intros e lg. cbn [fst snd w_fs]. split; [done|]. split; [by rewrite H42|done]. }
  destruct fault as [e'|]; [apply Hfail|].
  destruct (Download.size_mismatch _ _); [apply Hfail|].
  specialize (Hrep f4 data H42 H41 H43).
  destruct (Fsys.replace tmp dest f4) as [f'|e']; [|apply Hfail].
  destruct Hrep as (R1 & R2 & R3). cbn [fst snd w_fs print emit set_fs].
  split; [done|]. split; [by exists data|done].
Qed.

(** The same for the whole loop. *)
Lemma retry_loop_fs E url tmp dest retries a w :
  Fsys.normpath tmp ≠ Fsys.normpath dest ->
  Fsys.node_at (w_fs w) tmp ≠ Some Dir ->
  let out := Download.retry_loop E url tmp dest retries a w in
  (forall q, q ≠ Fsys.normpath tmp -> q ≠ Fsys.normpath dest ->
     w_fs out.2 !! q = w_fs w !! q)
  /\ match out.1 with
     | Ok _ =>
         (exists data, Fsys.node_at (w_fs out.2) dest = Some (File data))
         /\ Fsys.node_at (w_fs out.2) tmp = None
     | Raise _ =>
         Fsys.node_at (w_fs out.2) tmp ≠ Some Dir
         /\ Fsys.node_at (w_fs out.2) dest = Fsys.node_at (w_fs w) dest
     end.
Proof.
  intros Hne Hnd. cbv zeta.
  apply (retry_loop_inv E url tmp dest retries
    (fun w' =>
       (forall q, q ≠ Fsys.normpath tmp -> q ≠ Fsys.normpath dest ->
          w_fs w' !! q = w_fs w !! q)
       /\ Fsys.node_at (w_fs w') tmp ≠ Some Dir
       /\ Fsys.node_at (w_fs w') dest = Fsys.node_at (w_fs w) dest)
    (fun out =>
       (forall q, q ≠ Fsys.normpath tmp -> q ≠ Fsys.normpath dest ->
          w_fs out.2 !! q = w_fs w !! q)
       /\ match out.1 with
          | Ok _ =>
              (exists data, Fsys.node_at (w_fs out.2) dest = Some (File data))
              /\ Fsys.node_at (w_fs out.2) tmp = None
          | Raise _ =>
              Fsys.node_at (w_fs out.2) tmp ≠ Some Dir
              /\ Fsys.node_at (w_fs out.2) dest = Fsys.node_at (w_fs w) dest
          end)); [|done].
  intros a' w' (I1 & I2 & I3).
  pose proof (attempt_once_fs E url tmp dest a' w' Hne I2) as Hatt.
  cbv zeta in Hatt.
  destruct (Download.attempt_once E url tmp dest a' w') as [[[]|e] w1];
    cbn [fst snd] in *.
  - destruct Hatt as [A1 A2]. split; [|done].
    intros q Hq1 Hq2. rewrite A1 by done. by apply I1.
  - destruct Hatt as (A1 & A2 & A3).
    assert (forall q, q ≠ Fsys.normpath tmp -> q ≠ Fsys.normpath dest ->
              w_fs w1 !! q = w_fs w !! q) as A1'.
    { intros q Hq1 Hq2. rewrite A1 by done. by apply I1. }
    rewrite I3 in A3. done.
Qed.

(** Making the parent directory leaves the staging path without a
    directory when it had none. *)
Lemma mkdir_keeps_staging_free (f f' : fs) dest tmp :
  Fsys.with_suffix dest (Fsys.suffix dest +:+ ".part") = Ok tmp ->
  Fsys.mkdir_p (Fsys.parent dest) f = Ok f' ->
  Fsys.node_at f tmp ≠ Some Dir ->
  Fsys.node_at f' tmp ≠ Some Dir.
Proof.
  intros Hws Hmk Hnd. pose proof (node_at_not_dir _ _ Hnd) as Htmp.
  rewrite (node_at_nonroot f) in Hnd by done.
  rewrite (node_at_nonroot f') by done.
  destruct (mkdir_p_spec _ _ _ Hmk) as (_ & K2 & K3).
  destruct (f !! Fsys.normpath tmp) as [n|] eqn:Hf.
  - intros Hd. apply Hnd.
    exact (eq_trans (eq_sym (K2 _ _ Hf)) Hd).
  - intros Hd. destruct (K3 _ Hf) as [_ Hpre].
    { intros Hx. pose proof (eq_trans (eq_sym Hd) Hx). done. }
    rewrite (normpath_staging _ _ Hws) in Hpre.
    apply prefix_length in Hpre. rewrite length_app in Hpre. simpl in Hpre.
    lia.
Qed.

(** X6: for a destination without [..] among its components (where
    [Fsys.mkdir_p] makes the directories [Path.mkdir] makes), and when the
    staging path holds no directory, a download changes nothing on disk
    but its staging file and its destination: every other node stays, and
    whatever else is new is a directory on the way to the parent of the
    destination. *)
Theorem download_touches_only_its_files
    (E : env) (url : string) (dest tmp : path) (retries : Z) (w : world) :
  ".." ∉ dest ->
  Fsys.with_suffix dest (Fsys.suffix dest +:+ ".part") = Ok tmp ->
  Fsys.node_at (w_fs w) tmp ≠ Some Dir ->
  let out := Download.download_with_resume E url dest retries w in
  (forall q n, w_fs w !! q = Some n ->
     q ≠ Fsys.normpath tmp -> q ≠ Fsys.normpath dest ->
     w_fs out.2 !! q = Some n)
  /\ (forall q, w_fs w !! q = None -> w_fs out.2 !! q ≠ None ->
        q = Fsys.normpath tmp \/ q = Fsys.normpath dest
        \/ (w_fs out.2 !! q = Some Dir
            /\ q `prefix_of` Fsys.normpath (Fsys.parent dest))).
Proof.
  intros _ Hws Hnd. cbv zeta. unfold Download.download_with_resume.
  destruct (Fsys.mkdir_p _ _) as [f|e] eqn:Hmk; [|by split].
  rewrite Hws.
  pose proof (mkdir_keeps_staging_free _ _ _ _ Hws Hmk Hnd) as Hnd'.
  destruct (mkdir_p_spec _ _ _ Hmk) as (_ & K2 & K3).
  destruct (retry_loop_fs E url tmp dest retries 0 (set_fs f w)
              (staging_path_differs _ _ Hws) Hnd') as [F1 _].
  cbn [w_fs set_fs] in F1. split.
  - intros q n Hq Hq1 Hq2. rewrite F1 by done. by apply K2.
  - intros q Hq Hq'.
    destruct (decide (q = Fsys.normpath tmp)) as [|Hq1]; [by left|].
    destruct (decide (q = Fsys.normpath dest)) as [|Hq2]; [by right; left|].
    right; right. rewrite F1 in * by done. by apply K3.
Qed.

(** X7: for a destination without [..] among its components (where
    [Fsys.mkdir_p] makes the directories [Path.mkdir] makes), and when the
    staging path holds no directory, a download that returns has put a
    regular file at the destination and left no staging file behind. *)
Theorem successful_download_leaves_regular_file
    (E : env) (url : string) (dest tmp : path) (retries : Z) (w : world) :
  ".." ∉ dest ->
  Fsys.with_suffix dest (Fsys.suffix dest +:+ ".part") = Ok tmp ->
  Fsys.node_at (w_fs w) tmp ≠ Some Dir ->
  let out := Download.download_with_resume E url dest retries w in
  out.1 = Ok tt ->
  (exists data, Fsys.node_at (w_fs out.2) dest = Some (File data))
  /\ Fsys.node_at (w_fs out.2) tmp = None.
Proof.
  intros _ Hws Hnd. cbv zeta. unfold Download.download_with_resume.
  destruct (Fsys.mkdir_p _ _) as [f|e] eqn:Hmk; [|done].
  rewrite Hws.
  pose proof (mkdir_keeps_staging_free _ _ _ _ Hws Hmk Hnd) as Hnd'.
  destruct (retry_loop_fs E url tmp dest retries 0 (set_fs f w)
              (staging_path_differs _ _ Hws) Hnd') as [_ F2].
  destruct (Download.retry_loop _ _ _ _ _ _ _) as [[[]|e] w']; [|done].
  by intros _.
Qed.

(** X5: a download that raises leaves the destination as it was
    once the parent directory was made: an archive that was there before
    is still there with the same bytes.  Only the last step of an
    attempt, the rename, writes to the destination. *)
Theorem failed_download_keeps_destination
    (E : env) (url : string) (dest : path) (retries : Z) (w w' : world)
    (e : exn) :
  Download.download_with_resume E url dest retries w = (Raise e, w') ->
  (forall data, Fsys.node_at (w_fs w) dest = Some (File data) ->
     Fsys.node_at (w_fs w') dest = Some (File data))
  /\ (forall f, Fsys.mkdir_p (Fsys.parent dest) (w_fs w) = Ok f ->
        Fsys.node_at (w_fs w') dest = Fsys.node_at f dest).
Proof.
  unfold Download.download_with_resume.
  destruct (Fsys.mkdir_p _ _) as [f|e0] eqn:Hmk; [|by intros [= _ <-]].
  assert (Hgoal : Fsys.node_at (w_fs w') dest = Fsys.node_at f dest ->
    (forall data, Fsys.node_at (w_fs w) dest = Some (File data) ->
       Fsys.node_at (w_fs w') dest = Some (File data))
    /\ (forall f0, Ok f = Ok f0 ->
          Fsys.node_at (w_fs w') dest = Fsys.node_at f0 dest)).
  { intros Hsame. split; [|by intros ? [= <-]].
    intros data Hd. rewrite Hsame.
    by apply (mkdir_p_keeps_file _ _ _ _ _ Hmk). }
  destruct (Fsys.with_suffix _ _) as [tmp|e0] eqn:Hws;
    [|intros [= _ <-]; by apply Hgoal].
  intros Hloop. apply Hgoal.
  pose proof (retry_loop_inv E url tmp dest retries
    (fun w1 => Fsys.node_at (w_fs w1) dest = Fsys.node_at f dest)
    (fun out => forall e1, out.1 = Raise e1 ->
       Fsys.node_at (w_fs out.2) dest = Fsys.node_at f dest)) as Hinv.
  cbv beta in Hinv. specialize (Hinv) with (a := 0) (w := set_fs f w).
  rewrite Hloop in Hinv. apply (Hinv) with (e1 := e); [|done|done].
  intros a w1 HI.
  destruct (Download.attempt_once E url tmp dest a w1) as [[[]|e1] w2] eqn:Hatt;
    [done|].
  pose proof (attempt_once_failure_keeps_dest _ _ _ _ _ _ _ _
                (staging_path_differs _ _ Hws) Hatt) as Hk.
  split; [intros ? _|]; cbn [snd w_fs print emit]; by rewrite Hk.
Qed.

Lemma sum_powers (a : Z) (n s : nat) :
  0 <= a ->
  foldr Z.add 0 ((fun i => 2 ^ (a + Z.of_nat i)) <$> seq s n)
  = 2 ^ (a + Z.of_nat (s + n)) - 2 ^ (a + Z.of_nat s).
Proof.
  intros Ha. revert s. induction n as [|n IH]; intros s.
  - rewrite Nat.add_0_r. simpl. lia.
  - cbn [seq fmap list_fmap foldr]. rewrite IH.
    replace (a + Z.of_nat (S s + n)) with (a + Z.of_nat (s + S n)) by lia.
    replace (a + Z.of_nat (S s)) with (Z.succ (a + Z.of_nat s)) by lia.
    rewrite Z.pow_succ_r by lia. lia.
Qed.

(** X3: the pauses of a download add up to [2 ^ k - 2] seconds for
    [k] attempts (none when it fails before the first attempt), which is
    at most [2 ^ max 1 retries - 2]: six seconds for the three attempts
    that [main] allows. *)
Theorem download_backoff_total
    (E : env) (url : string) (dest : path) (retries : Z) (w : world) :
  let out := Download.download_with_resume E url dest retries w in
  exists d, w_log out.2 = w_log w ++ d
    /\ (Download.attempts_made d <= Z.to_nat (Z.max 1 retries))%nat
    /\ Run.total_wait d
       = 2 ^ Z.of_nat (Nat.max 1 (Download.attempts_made d)) - 2
    /\ Run.total_wait d <= 2 ^ Z.max 1 retries - 2.
Proof.
  cbv zeta. unfold Download.download_with_resume.
  assert (Hnone : forall w0 : world, exists d, w_log w0 = w_log w0 ++ d
    /\ (Download.attempts_made d <= Z.to_nat (Z.max 1 retries))%nat
    /\ Run.total_wait d
       = 2 ^ Z.of_nat (Nat.max 1 (Download.attempts_made d)) - 2
    /\ Run.total_wait d <= 2 ^ Z.max 1 retries - 2).
  { intros w0. exists []. rewrite app_nil_r. split; [done|].
    change (Download.attempts_made []) with 0%nat.
    change (Run.total_wait []) with 0.
    split; [lia|]. split; [done|].
    assert (2 ^ 1 <= 2 ^ Z.max 1 retries) by (apply Z.pow_le_mono_r; lia).
    lia. }
  destruct (Fsys.mkdir_p _ _) as [f|e]; [|apply Hnone].
  destruct (Fsys.with_suffix _ _) as [tmp|e]; [|apply (Hnone (set_fs f w))].
  destruct (retry_loop_post E url tmp dest retries _ 0 (set_fs f w) eq_refl)
    as (d & Hd & Hk & Hs & _).
  exists d. rewrite Z.sub_0_r in Hk. split; [done|]. split; [lia|].
  assert (Hsum : Run.total_wait d
                 = 2 ^ Z.of_nat (Nat.max 1 (Download.attempts_made d)) - 2).
  { unfold Run.total_wait. rewrite Hs. unfold Download.backoff.
    rewrite (sum_powers 0) by lia. rewrite !Z.add_0_l.
    replace (1 + (Download.attempts_made d - 1))%nat
      with (Nat.max 1 (Download.attempts_made d)) by lia.
    done. }
  split; [done|]. rewrite Hsum.
  assert (2 ^ Z.of_nat (Nat.max 1 (Download.attempts_made d))
          <= 2 ^ Z.max 1 retries) by (apply Z.pow_le_mono_r; lia).
  lia.
Qed.

(** One attempt sends its HEAD request and at most one GET, both for the
    URL of the download. *)
Lemma attempt_once_requests E url tmp dest a w :
  exists d, w_log (Download.attempt_once E url tmp dest a w).2 = w_log w ++ d
    /\ Download.attempts_made d = 1%nat
    /\ Forall (fun e => e = EvHead url \/ exists r, e = EvGet url r)
         (Download.requests d)
    /\ (length (Download.requests d) <= 2)%nat.
Proof.
  unfold Download.attempt_once.
  repeat case_match; simpl; eexists;
    (split; [rewrite <- ?app_assoc; reflexivity|]);
    (split; [done|]); (split; [|simpl; lia]); cbn;
    repeat (apply Forall_cons_2; [first [by left | right; by eexists]|]);
    apply Forall_nil_2.
Qed.

(** The requests of a download: all for its URL, at most two for each
    attempt, and no more attempts than [max 1 retries]. *)
Lemma download_requests
    (E : env) (url : string) (dest : path) (retries : Z) (w : world) :
  exists d,
    w_log (Download.download_with_resume E url dest retries w).2 = w_log w ++ d
    /\ Forall (fun e => e = EvHead url \/ exists r, e = EvGet url r)
         (Download.requests d)
    /\ (length (Download.requests d) <= 2 * Download.attempts_made d)%nat
    /\ (Download.attempts_made d <= Z.to_nat (Z.max 1 retries))%nat.
Proof.
  unfold Download.download_with_resume.
  assert (Hnone : forall w0 : world, exists d, w_log w0 = w_log w0 ++ d
    /\ Forall (fun e => e = EvHead url \/ exists r, e = EvGet url r)
         (Download.requests d)
    /\ (length (Download.requests d) <= 2 * Download.attempts_made d)%nat
    /\ (Download.attempts_made d <= Z.to_nat (Z.max 1 retries))%nat).
  { intros w0. exists []. rewrite app_nil_r. split; [done|].
    split; [apply Forall_nil_2|].
    change (Download.requests []) with (@nil event).
    change (Download.attempts_made []) with 0%nat. simpl. lia. }
  destruct (Fsys.mkdir_p _ _) as [f|e]; [|apply Hnone].
  destruct (Fsys.with_suffix _ _) as [tmp|e]; [|apply (Hnone (set_fs f w))].
  clear Hnone.
  destruct (retry_loop_post E url tmp dest retries _ 0 (set_fs f w) eq_refl)
    as (d & Hd & Hk & _). rewrite Z.sub_0_r in Hk.
  pose proof (retry_loop_inv E url tmp dest retries
    (fun w1 => exists d1, w_log w1 = w_log w ++ d1
       /\ Forall (fun e => e = EvHead url \/ exists r, e = EvGet url r)
            (Download.requests d1)
       /\ (length (Download.requests d1) <= 2 * Download.attempts_made d1)%nat)
    (fun out => exists d1, w_log out.2 = w_log w ++ d1
       /\ Forall (fun e => e = EvHead url \/ exists r, e = EvGet url r)
            (Download.requests d1)
       /\ (length (Download.requests d1) <= 2 * Download.attempts_made d1)%nat))
    as Hinv.
  destruct (Hinv) with (a := 0) (w := set_fs f w) as (d1 & Hd1 & Hall & Hlen).
  - intros a w1 (d0 & Hd0 & Hall0 & Hlen0).
    destruct (attempt_once_requests E url tmp dest a w1)
      as (d1 & Hd1 & Hk1 & Hall1 & Hlen1).
    assert (Hstep : exists d2,
              w_log (Download.attempt_once E url tmp dest a w1).2 = w_log w ++ d2
              /\ Forall (fun e => e = EvHead url \/ exists r, e = EvGet url r)
                   (Download.requests d2)
              /\ (length (Download.requests d2)
                  <= 2 * Download.attempts_made d2)%nat).
    { exists (d0 ++ d1). rewrite Hd1, Hd0, <- app_assoc. split; [done|].
      rewrite requests_app, attempts_made_app, length_app, Forall_app.
      split; [done|]. lia. }
    destruct (Download.attempt_once E url tmp dest a w1) as [[[]|e] w2];
      cbn [snd] in Hstep; [done|]. split; [done|].
    destruct Hstep as (d2 & Hd2 & Hall2 & Hlen2).
    exists (d2 ++ [EvPrint (MsgRetrying (Fsys.name dest) e (2 ^ a));
                   EvSleep (2 ^ a)]).
    cbn [w_log print emit]. rewrite Hd2, <- !app_assoc. split; [done|].
    rewrite requests_app, attempts_made_app, length_app, Forall_app.
    change (Download.requests [_; _]) with (@nil event).
    change (Download.attempts_made [_; _]) with 0%nat.
    split; [by split|]. simpl. lia.
  - exists []. rewrite app_nil_r. split; [done|]. split; [constructor|simpl; lia].
  - assert (d1 = d) as ->.
    { cbn [w_log set_fs] in Hd, Hd1. rewrite Hd in Hd1.
      by apply app_inv_head in Hd1. }
    exists d. split; [done|]. split; [done|]. split; [done|]. lia.
Qed.

(** X4: every request of a download is a HEAD or a GET for the URL
    it was given; an attempt sends two requests at most, so a download
    sends no more than [2 * max 1 retries]. *)
Theorem download_requests_go_to_url
    (E : env) (url : string) (dest : path) (retries : Z) (w : world) :
  let out := Download.download_with_resume E url dest retries w in
  exists d, w_log out.2 = w_log w ++ d
    /\ Forall (fun e => e = EvHead url \/ exists r, e = EvGet url r)
         (Download.requests d)
    /\ (length (Download.requests d) <= 2 * Download.attempts_made d)%nat
    /\ (length (Download.requests d) <= 2 * Z.to_nat (Z.max 1 retries))%nat.
Proof.
  cbv zeta.
  destruct (download_requests E url dest retries w)
    as (d & Hd & Hall & Hlen & Hk).
  exists d. split; [done|]. split; [done|]. split; [done|]. lia.
Qed.

(** X8: an attempt that knows no total size, or a total of zero,
    cannot tell a short transfer from a whole one: when the response ends
    without a fault, whatever the staging file holds is renamed to the
    destination and the attempt succeeds. *)
Theorem unknown_total_accepts_any_length
    (E : env) (url : string) (tmp dest : path) (a : Z) (w : world)
    (cl : content_length) (reads : list read_result) (f : fs)
    (data0 data : list Byte.byte) (total' : option Z) :
  let existing := Download.existing_size E (w_fs w) tmp in
  let total := Download.head_total (http_head E url a) in
  Download.already_complete existing total = false ->
  serve_get E url a (if existing =? 0 then None else Some existing)
    = GetOk cl reads ->
  Fsys.open_write tmp (negb (existing =? 0)) (w_fs w) = Ok (f, data0) ->
  Download.response_total total existing cl = Ok total' ->
  Download.truthy total' = false ->
  Download.read_chunks reads data0 = (None, data) ->
  Fsys.node_at (w_fs w) dest ≠ Some Dir ->
  Fsys.with_suffix dest (Fsys.suffix dest +:+ ".part") = Ok tmp ->
  let out := Download.attempt_once E url tmp dest a w in
  out.1 = Ok tt
  /\ Fsys.node_at (w_fs out.2) dest = Some (File data)
  /\ Fsys.node_at (w_fs out.2) tmp = None.
Proof.
  cbv zeta. intros Hc Hget Hopen Htot HT Hread Hdest Hws.
  pose proof (staging_path_differs _ _ Hws) as Hne.
  unfold Download.attempt_once. rewrite Hc, Hget. cbn [w_fs emit].
  rewrite Hopen, Htot, Hread. unfold Download.size_mismatch. rewrite HT.
  cbn [andb]. unfold Fsys.write_file. cbn [w_fs set_fs].
  assert (Htmp : Fsys.normpath tmp ≠ []).
  { intros Hnil. unfold Fsys.open_write, Fsys.node_at in Hopen.
    by rewrite Hnil in Hopen. }
  set (f4 := <[Fsys.normpath tmp := File data]> f).
  assert (H4 : Fsys.node_at f4 tmp = Some (File data))
    by (by apply node_at_insert).
  assert (Hd4 : Fsys.node_at f4 dest ≠ Some Dir).
  { unfold f4. rewrite node_at_insert_ne by done.
    unfold Fsys.open_write in Hopen.
    destruct (Fsys.node_at (w_fs w) tmp) as [[d|]|].
    - injection Hopen as <- _. by rewrite node_at_insert_ne.
    - done.
    - destruct (Fsys.node_at (w_fs w) (Fsys.parent (Fsys.normpath tmp)))
        as [[|]|]; try done.
      injection Hopen as <- _. by rewrite node_at_insert_ne. }
  rewrite (replace_file f4 tmp dest data H4 Hd4).
  cbn [fst snd w_fs print emit set_fs].
  pose proof (node_at_not_dir _ _ Hd4) as Hdn.
  split; [done|]. split; [by apply node_at_insert|].
  rewrite node_at_insert_ne by done. by apply node_at_delete.
Qed.

(** X9: the staging file stands beside the destination and is named
    after it with [.part] added, whatever suffix the destination has; the
    two never name the same file.  A destination without a name (the
    root) has no staging file: the download raises [ValueError] before
    any request is sent. *)
Theorem staging_file_is_sibling (dest : path) :
  match Fsys.with_suffix dest (Fsys.suffix dest +:+ ".part") with
  | Ok tmp =>
      Fsys.name dest ≠ ""
      /\ Fsys.parent tmp = Fsys.parent dest
      /\ Fsys.name tmp = Fsys.name dest +:+ ".part"
      /\ Fsys.normpath tmp ≠ Fsys.normpath dest
  | Raise e =>
      e = ValueError /\ Fsys.name dest = ""
      /\ forall E url retries w,
           (Download.download_with_resume E url dest retries w).1 ≠ Ok tt
           /\ w_log (Download.download_with_resume E url dest retries w).2
              = w_log w
  end.
Proof.
  destruct (Fsys.with_suffix _ _) as [tmp|e] eqn:Hws.
  - pose proof (staging_path_differs _ _ Hws) as Hne.
    apply with_suffix_part in Hws as [Hn ->]. split; [done|].
    unfold Fsys.parent, Fsys.name. rewrite length_app, last_snoc. simpl.
    replace (length (take (length dest - 1) dest) + 1 - 1)%nat
      with (length (take (length dest - 1) dest)) by lia.
    by rewrite take_app_length.
  - assert (e = ValueError /\ Fsys.name dest = "") as [-> Hn].
    { unfold Fsys.with_suffix in Hws.
      destruct (bool_decide (Fsys.name dest = "")) eqn:Hn; [|done].
      apply bool_decide_eq_true in Hn. by injection Hws as <-. }
    split; [done|]. split; [done|]. intros E url retries w.
    unfold Download.download_with_resume.
    destruct (Fsys.mkdir_p _ _); [|done]. by rewrite Hws.
Qed.

End DownloadMoreFacts.

Section DownloadMore2.
Local Open Scope Z_scope.

(** X10: what happens when a server sends the whole body although a
    range was asked for.  With [N > 0] bytes staged and a body of [T > N]
    bytes declared as [T], the first attempt appends the body and raises
    the size mismatch; the second one finds [N + T >= T] bytes staged and
    renames them to the destination without a transfer.  The download
    returns with a file of [N + T] bytes. *)
Theorem range_ignored_is_promoted_on_retry
    (E : env) (url : string) (dest tmp : path) (retries : Z) (w : world)
    (f : fs) (old body : list Byte.byte) (cl : content_length) :
  let N := Z.of_nat (length old) in
  let T := Z.of_nat (length body) in
  Fsys.mkdir_p (Fsys.parent dest) (w_fs w) = Ok f ->
  Fsys.with_suffix dest (Fsys.suffix dest +:+ ".part") = Ok tmp ->
  Fsys.node_at f tmp = Some (File old) ->
  0 < N < T ->
  Fsys.node_at f dest ≠ Some Dir ->
  http_head E url 1 = HeadOk (CLInt T) ->
  http_head E url 2 = HeadOk (CLInt T) ->
  serve_get E url 1 (Some N) = GetOk cl [Data body] ->
  2 <= retries ->
  let out := Download.download_with_resume E url dest retries w in
  out.1 = Ok tt
  /\ Fsys.node_at (w_fs out.2) dest = Some (File (old ++ body))
  /\ Fsys.node_at (w_fs out.2) tmp = None
  /\ w_log out.2
     = w_log w ++ [EvHead url; EvGet url (Some N);
                   EvPrint (MsgRetrying (Fsys.name dest) SizeMismatch 2);
                   EvSleep 2; EvHead url].
Proof.
  cbv zeta. intros Hmk Hws Hold HN Hdest Hh1 Hh2 Hget Hret.
  pose proof (staging_path_differs _ _ Hws) as Hne.
  pose proof (node_at_lookup _ _ _ Hold) as [Htmp _].
  unfold Download.download_with_resume. rewrite Hmk, Hws.
  rewrite Download.retry_loop_equation_1. cbv zeta. change (0 + 1) with 1.
  assert (Hbody : body ≠ []) by (intros ->; simpl in HN; lia).
  assert (Hfirst :
    Download.attempt_once E url tmp dest 1 (set_fs f w)
    = (Raise SizeMismatch,
       World (<[Fsys.normpath tmp := File (old ++ body)]>
                (<[Fsys.normpath tmp := File old]> f))
             (w_log w ++ [EvHead url] ++ [EvGet url (Some (Z.of_nat (length old)))]))).
  { unfold Download.attempt_once, Download.existing_size.
    cbn [w_fs set_fs]. rewrite Hold, Hh1. cbn [Fsys.st_size Download.head_total].
    unfold Download.already_complete. cbn [Download.truthy default from_option id].
    rewrite (proj2 (Z.eqb_neq (Z.of_nat (length old)) 0)) by lia.
    rewrite (proj2 (Z.eqb_neq (Z.of_nat (length body)) 0)) by lia.
    rewrite (proj2 (Z.leb_gt (Z.of_nat (length body))
                      (Z.of_nat (length old)))) by lia.
    cbn [negb andb].
    rewrite Hget. cbn [w_fs emit set_fs].
    rewrite (open_write_file _ _ _ true Hold).
    cbn [Download.response_total Download.read_chunks].
    destruct body as [|b body]; [done|].
    cbn [Download.read_chunks]. unfold Download.size_mismatch.
    cbn [Download.truthy default from_option id].
    rewrite (proj2 (Z.eqb_neq (Z.of_nat (length (b :: body))) 0)) by lia.
    rewrite (proj2 (Z.eqb_neq (Z.of_nat (length (old ++ b :: body))) _))
      by (rewrite length_app; lia).
    cbn [negb andb]. unfold Fsys.write_file.
    unfold set_fs, emit. cbn [w_fs w_log]. by rewrite <- app_assoc. }
  rewrite Hfirst. destruct (decide (retries <= 1)) as [Hle|_]; [lia|].
  rewrite Download.retry_loop_equation_1. cbv zeta. change (1 + 1) with 2.
  set (w2 := emit _ _).
  assert (Hold2 : Fsys.node_at (w_fs w2) tmp = Some (File (old ++ body))).
  { subst w2. cbn [w_fs print emit]. by apply node_at_insert. }
  assert (Hdest2 : Fsys.node_at (w_fs w2) dest ≠ Some Dir).
  { subst w2. cbn [w_fs print emit]. by rewrite !node_at_insert_ne. }
  rewrite (attempt_once_already_complete E url tmp dest 2 w2 (old ++ body)
             (Z.of_nat (length body)) Hold2); try done.
  2:{ by destruct old. }
  2:{ lia. }
  2:{ rewrite length_app. lia. }
  pose proof (node_at_not_dir _ _ Hdest2) as Hdn.
  cbn [fst snd w_fs w_log]. split; [done|].
  split; [by apply node_at_insert|].
  split; [rewrite node_at_insert_ne by done; by apply node_at_delete|].
  subst w2. cbn [w_log print emit set_fs]. change (2 ^ 1) with 2.
  by rewrite <- !app_assoc.
Qed.

End DownloadMore2.

(** ** The extractor *)

(** X11: an entry of an archive is rejected exactly when its name
    begins with a slash or one of its segments between slashes is [..].
    So a name without a slash is rejected only when it is [..] itself:
    names such as [a..b], [...] or a path written with backslashes pass
    the check. *)
Theorem suspicious_only_slash_segments (m : string) :
  (Extract.suspicious m = true <->
     Posix.is_absolute m = true \/ ".." ∈ Str.split "/" m)
  /\ ("/"%char ∉ Str.to_list m ->
      (Extract.suspicious m = true <-> m = "..")).
Proof.
  split; [apply suspicious_spec|].
  intros Hno. rewrite suspicious_spec, (split_no_sep _ _ Hno).
  rewrite list_elem_of_singleton. split.
  - intros [Habs|Heq]; [|done].
    by apply is_absolute_has_slash in Habs.
  - intros ->. by right.
Qed.

Section ExtractMore.
Context `{Library}.

Lemma find_first (P : string -> bool) (l1 l2 : list string) (m : string) :
  Forall (fun x => P x = false) l1 -> P m = true ->
  List.find P (l1 ++ m :: l2) = Some m.
Proof.
  intros Hl1 Hm. induction Hl1 as [|x l1 Hx _ IH]; simpl.
  - by rewrite Hm.
  - by rewrite Hx.
Qed.

(** X12: the error of a rejected archive names the first offending
    entry in the order of the archive, and the file system is as [mkdir]
    left it. *)
Theorem first_suspicious_member_is_reported
    (zip_path extract_dir : path) (w : world) (f : fs)
    (data : list Byte.byte) (l1 l2 : list string) (m : string) :
  Fsys.mkdir_p extract_dir (w_fs w) = Ok f ->
  Fsys.node_at (w_fs w) zip_path = Some (File data) ->
  infolist data = Some (l1 ++ m :: l2) ->
  Forall (fun x => Extract.suspicious x = false) l1 ->
  Extract.suspicious m = true ->
  Extract.safe_extract_zip zip_path extract_dir w
  = (Raise (SuspiciousPath m), set_fs f w).
Proof.
  intros Hmk Hzip Hinfo Hl1 Hm.
  rewrite (safe_extract_zip_readable _ _ _ _ _ _ Hmk Hzip Hinfo).
  by rewrite (find_first _ _ _ _ Hl1 Hm).
Qed.

Lemma safe_extract_zip_fails (zip_path extract_dir : path) (w : world) f :
  Fsys.mkdir_p extract_dir (w_fs w) = Ok f ->
  Run.fails_validation f zip_path ->
  exists e, Extract.safe_extract_zip zip_path extract_dir w
            = (Raise e, set_fs f w).
Proof.
  intros Hmk Hbad. unfold Extract.safe_extract_zip. rewrite Hmk.
  unfold Run.fails_validation in Hbad.
  destruct (Fsys.node_at f zip_path) as [[data|]|]; [|by eexists..].
  destruct (infolist data) as [members|]; [|by eexists].
  destruct (List.find Extract.suspicious members); [by eexists|done].
Qed.

(** X13: the target folder is made before the archive is opened, so
    an extraction that fails on a missing file, on a file that is no
    archive or on a rejected entry leaves the folder behind.  Without
    [--force-reextract] the next extraction step for the same archive finds
    the folder and reports the archive as already extracted. *)
Theorem failed_extraction_is_not_retried
    (a : Main.args) (safe_fname : string) (zip_path : path) (w : world)
    (f : fs) :
  let extract_dir :=
    Fsys.joinpath (Main.dest_root a) (Fsys.stem zip_path) in
  Main.force_reextract a = false ->
  Fsys.exists_ (w_fs w) extract_dir = Ok false ->
  Fsys.mkdir_p extract_dir (w_fs w) = Ok f ->
  Run.fails_validation f zip_path ->
  let w1 := (Main.extract_step a safe_fname zip_path w).2 in
  (exists e,
     Main.extract_step a safe_fname zip_path w
     = (Ok tt,
        print (MsgExtractionFailed safe_fname e)
          (set_fs f
             (print (MsgExtracting safe_fname (Fsys.name extract_dir)) w))))
  /\ Fsys.node_at (w_fs w1) extract_dir = Some Dir
  /\ Main.extract_step a safe_fname zip_path w1
     = (Ok tt, print (MsgAlreadyExtracted (Fsys.name extract_dir)) w1).
Proof.
  cbv zeta. intros Hforce Hex Hmk Hbad.
  set (ed := Fsys.joinpath (Main.dest_root a) (Fsys.stem zip_path)) in *.
  assert (Hw1 : exists e,
            Main.extract_step a safe_fname zip_path w
            = (Ok tt,
               print (MsgExtractionFailed safe_fname e)
                 (set_fs f
                    (print (MsgExtracting safe_fname (Fsys.name ed)) w)))).
  { unfold Main.extract_step. fold ed. rewrite Hex. cbn [andb].
    destruct (safe_extract_zip_fails zip_path ed
                (print (MsgExtracting safe_fname (Fsys.name ed)) w) f Hmk Hbad)
      as [e He].
    rewrite He. by exists e. }
  destruct Hw1 as [e Hw1]. rewrite Hw1. split; [by exists e|].
  destruct (mkdir_p_spec _ _ _ Hmk) as (Hdir & _).
  cbn [snd w_fs print emit set_fs]. split; [done|].
  unfold Main.extract_step. fold ed. cbn [w_fs print emit set_fs].
  unfold Fsys.exists_. by rewrite Hdir, Hforce.
Qed.

End ExtractMore.

(** ** The orchestrator: names, folders and reruns *)

(** *** Cleaning a file name *)

(** What [strip] leaves is the middle of the string: white space goes at
    both ends and nothing else. *)
Lemma strip_middle (s : string) :
  exists ws1 ws2,
    Str.to_list s = ws1 ++ Str.to_list (Str.strip s) ++ ws2.
Proof.
  unfold Str.strip. rewrite to_list_of_list.
  destruct (lstrip_list_suffix (Str.to_list s)) as [ws1 H1].
  destruct (strip_front_suffix Str.is_space (fun b a => Str.is_space2 a b)
              (fun c b a => Str.is_space3 a b c)
              (rev (Str.lstrip_list (Str.to_list s)))) as [ws2 H2].
  exists ws1, (rev ws2). unfold Str.rstrip_rev_list.
  rewrite <- rev_app_distr, <- H2, rev_involutive. done.
Qed.

Lemma strip_idemp (s : string) : Str.strip (Str.strip s) = Str.strip s.
Proof.
  unfold Str.strip at 2 3.
  set (t := Str.lstrip_list (Str.to_list s)).
  set (u := Str.rstrip_rev_list (rev t)).
  assert (Ht : Str.space_front Str.is_space Str.is_space2 Str.is_space3 t
               = false) by apply strip_front_stops.
  assert (Hu : Str.space_front Str.is_space (fun b a => Str.is_space2 a b)
                 (fun c b a => Str.is_space3 a b c) u = false)
    by apply strip_front_stops.
  destruct (strip_front_suffix Str.is_space (fun b a => Str.is_space2 a b)
              (fun c b a => Str.is_space3 a b c) (rev t)) as [ws2 H2].
  fold Str.rstrip_rev_list in H2. fold u in H2.
  apply (f_equal (@rev ascii)) in H2.
  rewrite rev_involutive, rev_app_distr in H2.
  rewrite H2 in Ht. apply space_front_prefix in Ht.
  unfold Str.strip, Str.lstrip_list, Str.rstrip_rev_list.
  rewrite to_list_of_list, (strip_front_id _ _ _ _ Ht), rev_involutive.
  by rewrite (strip_front_id _ _ _ _ Hu).
Qed.

Lemma filter_all (keep : ascii -> bool) (l : list ascii) :
  Forall (fun c => keep c = true) l -> List.filter keep l = l.
Proof.
  induction 1 as [|c l Hc _ IH]; [done|]. simpl. by rewrite Hc, IH.
Qed.

Lemma filter_keeps (keep : ascii -> bool) (l : list ascii) :
  Forall (fun c => keep c = true) (List.filter keep l).
Proof.
  apply Forall_forall. intros c Hc. apply list_elem_of_In in Hc.
  by apply List.filter_In in Hc as [_ Hc].
Qed.

Lemma filter_sublist (keep : ascii -> bool) (l : list ascii) :
  sublist (List.filter keep l) l.
Proof.
  induction l as [|c l IH]; simpl; [done|].
  destruct (keep c); [by apply sublist_skip|by apply sublist_cons].
Qed.

Lemma strip_sublist (s : string) :
  sublist (Str.to_list (Str.strip s)) (Str.to_list s).
Proof.
  destruct (strip_middle s) as (ws1 & ws2 & Hs). rewrite Hs.
  apply sublist_inserts_l, sublist_inserts_r. done.
Qed.

(** Cleaning only deletes characters. *)
Lemma sanitize_sublist (fname : string) :
  sublist (Str.to_list (Main.sanitize fname)) (Str.to_list fname).
Proof.
  unfold Main.sanitize, Str.filter_chars.
  etrans; [apply strip_sublist|]. rewrite to_list_of_list.
  apply filter_sublist.
Qed.

(** X14: the cleaned file name holds none of the eight characters
    [main] deletes, has no white space at either end, and is obtained from
    the name by deleting characters only; cleaning it again changes
    nothing. *)
Theorem sanitize_is_clean_and_idempotent (fname : string) :
  let s := Main.sanitize fname in
  Forall (fun ch => Main.valid_char ch = true) (Str.to_list s)
  /\ sublist (Str.to_list s) (Str.to_list fname)
  /\ Str.strip s = s
  /\ Main.sanitize s = s.
Proof.
  cbv zeta.
  assert (Hvalid : Forall (fun ch => Main.valid_char ch = true)
                     (Str.to_list (Main.sanitize fname))).
  { unfold Main.sanitize, Str.filter_chars.
    apply Forall_forall. intros c Hc.
    pose proof (elem_of_sublist _ _ _ Hc (strip_sublist _)) as Hin.
    rewrite to_list_of_list in Hin.
    exact (proj1 (Forall_forall _ _) (filter_keeps _ _) _ Hin). }
  split; [done|]. split; [apply sanitize_sublist|].
  split; [apply strip_idemp|].
  unfold Main.sanitize at 1, Str.filter_chars.
  rewrite (filter_all _ _ Hvalid), of_list_to_list. apply strip_idemp.
Qed.

(** *** The name taken from a URL *)

(** [rfind_go] returns the index of the last occurrence. *)
Lemma rfind_go_spec (c : ascii) (l : list ascii) : forall i acc,
  match Str.rfind_go c l i acc with
  | Some j =>
      (acc = Some j /\ c ∉ l)
      \/ (i <= j /\ l !! (j - i) = Some c /\ c ∉ drop (S (j - i)) l)
  | None => acc = None /\ c ∉ l
  end.
Proof.
  induction l as [|x l IH]; intros i acc; simpl.
  - destruct acc; [left|]; split; try done; apply not_elem_of_nil.
  - specialize (IH (S i) (if decide (x = c) then Some i else acc)).
    destruct (Str.rfind_go c l (S i) _) as [j|].
    + destruct IH as [[Hacc Hno]|(Hle & Hj & Hno)].
      * destruct (decide (x = c)) as [->|Hx].
        -- injection Hacc as <-. right. rewrite Nat.sub_diag. simpl.
           split; [lia|]. by split.
        -- left. split; [done|]. rewrite not_elem_of_cons. by split.
      * right. split; [lia|].
        replace (j - i) with (S (j - S i)) by lia. simpl. by split.
    + destruct IH as [Hacc Hno]. destruct (decide (x = c)); [done|].
      split; [done|]. rewrite not_elem_of_cons. by split.
Qed.

(** [os.path.basename] returns a name without a slash. *)
Lemma basename_no_slash (p : string) :
  "/"%char ∉ Str.to_list (Posix.basename p).
Proof.
  unfold Posix.basename, Str.rfind.
  pose proof (rfind_go_spec "/" (Str.to_list p) 0 None) as Hr.
  destruct (Str.rfind_go "/" (Str.to_list p) 0 None) as [j|].
  - destruct Hr as [[? _]|(_ & _ & Hno)]; [done|].
    unfold Str.slice_from. rewrite to_list_of_list.
    by rewrite Nat.sub_0_r in Hno.
  - by destruct Hr.
Qed.

(** [unquote] changes nothing in a string without a percent sign. *)
Lemma unquote_no_percent (s : string) :
  "%"%char ∉ Str.to_list s -> Str.unquote s = s.
Proof.
  intros Hno. unfold Str.unquote.
  rewrite <- (of_list_to_list s) at 2. f_equal.
  induction (Str.to_list s) as [|c l IH]; [done|].
  apply not_elem_of_cons in Hno as [Hc Hl]. simpl.
  destruct (decide (c = "%"%char)); [done|]. by rewrite IH.
Qed.

Section MainMore.
Context `{Library}.

(** X15: when the last segment of the URL path has no percent sign,
    the file name is that segment as it stands, and a cleaned name other
    than the empty one, [.] and [..] puts the archive directly into the
    destination root, under that name. *)
Theorem unescaped_name_stays_in_dest (a : Main.args) (url : string) :
  let enc := Posix.basename (urlparse_path url) in
  let safe := Main.sanitize (Main.fname_of url) in
  let zip_path := Main.zip_path_of (Main.dest_root a) (Main.fname_of url) in
  "%"%char ∉ Str.to_list enc ->
  safe ≠ "" -> safe ≠ "." -> safe ≠ ".." ->
  Main.fname_of url = enc
  /\ zip_path = Main.dest_root a ++ [safe]
  /\ Fsys.parent zip_path = Main.dest_root a
  /\ Fsys.name zip_path = safe
  /\ Fsys.normpath zip_path = Fsys.normpath (Main.dest_root a) ++ [safe].
Proof.
  cbv zeta. intros Hpct Hne Hdot Hdd.
  assert (Hf : Main.fname_of url = Posix.basename (urlparse_path url)).
  { unfold Main.fname_of, Main.fname_of_path. by apply unquote_no_percent. }
  assert (Hslash : "/"%char ∉ Str.to_list (Main.sanitize (Main.fname_of url))).
  { intros Hin.
    pose proof (elem_of_sublist _ _ _ Hin (sanitize_sublist _)) as Hin'.
    rewrite Hf in Hin'.
    by apply basename_no_slash in Hin'. }
  destruct (zip_path_direct_child (Main.dest_root a) (Main.fname_of url)
              Hslash Hne Hdot Hdd) as [Hz Hn].
  split; [done|]. split; [done|]. split; [|split; [|done]]; rewrite Hz.
  - unfold Fsys.parent. rewrite length_app. simpl.
    replace (length (Main.dest_root a) + 1 - 1) with (length (Main.dest_root a))
      by lia.
    by rewrite take_app_length.
  - unfold Fsys.name. by rewrite last_snoc.
Qed.

End MainMore.

(** [mkdir] fails on a path that holds a regular file. *)
Lemma mkdir_from_on_file rest : forall pre (f : fs) data,
  rest ≠ [] -> f !! (pre ++ rest) = Some (File data) ->
  exists e, Fsys.mkdir_from pre rest f = Raise e.
Proof.
  induction rest as [|c rest IH]; intros pre f data Hne Hf; [done|].
  simpl. destruct rest as [|c' rest].
  - rewrite Hf. by eexists.
  - assert (Hpc : pre ++ c :: c' :: rest = (pre ++ [c]) ++ c' :: rest)
      by (by rewrite <- app_assoc).
    rewrite Hpc in Hf.
    destruct (f !! (pre ++ [c])) as [[d|]|] eqn:Hc; [by eexists| |].
    + by apply (IH _ _ data).
    + apply (IH _ _ data); [done|]. rewrite lookup_insert_ne; [done|].
      intros Heq. apply (f_equal length) in Heq.
      rewrite !length_app in Heq. simpl in Heq. lia.
Qed.

Lemma mkdir_p_on_file (f : fs) p data :
  Fsys.node_at f p = Some (File data) ->
  exists e, Fsys.mkdir_p p f = Raise e.
Proof.
  intros Hp. apply node_at_lookup in Hp as [Hne Hp].
  by apply (mkdir_from_on_file _ [] f data).
Qed.

Section MainMore2.
Context `{Library}.

(** The extraction step only prints. *)
Lemma extract_step_no_request a safe_fname zip_path w :
  exists d,
    w_log (Main.extract_step a safe_fname zip_path w).2 = w_log w ++ d
    /\ Download.requests d = [].
Proof.
  unfold Main.extract_step.
  set (ed := Fsys.joinpath _ _).
  destruct (Fsys.exists_ (w_fs w) ed) as [present|e0].
  2:{ exists []. by rewrite app_nil_r. }
  destruct (present && negb (Main.force_reextract a)).
  { by exists [EvPrint (MsgAlreadyExtracted (Fsys.name ed))]. }
  match goal with
  | |- context [print (MsgExtracting _ _) ?x] => set (w1 := x)
  end.
  assert (Hw1 : exists d1, w_log w1 = w_log w ++ d1 /\ Download.requests d1 = []).
  { subst w1. destruct (_ && _).
    - by exists [EvPrint (MsgCleaning ed)].
    - exists []. by rewrite app_nil_r. }
  destruct Hw1 as (d1 & Hd1 & Hv1).
  set (w2 := print _ w1).
  pose proof (safe_extract_zip_log zip_path ed w2) as Hlog.
  destruct (Extract.safe_extract_zip zip_path ed w2) as [[[]|e] w3];
    cbn [snd] in *; eexists;
    (split; [cbn [w_log print emit]; rewrite Hlog; subst w2;
             cbn [w_log print emit]; rewrite Hd1, <- !app_assoc; reflexivity|]);
    by rewrite requests_app, Hv1.
Qed.

(** X16: with [--skip-existing], a URL whose archive path exists is
    handled without the network: the round is the same whatever the
    servers would answer, and it sends no request. *)
Theorem skip_existing_ignores_the_network
    (E1 E2 : env) (a : Main.args) (w : world) (url : string) :
  Main.skip_existing a = true ->
  Fsys.exists_ (w_fs w)
    (Main.zip_path_of (Main.dest_root a) (Main.fname_of url)) = Ok true ->
  Main.process_url E1 a w url = Main.process_url E2 a w url
  /\ Download.requests (w_log (Main.process_url E1 a w url).2)
     = Download.requests (w_log w).
Proof.
  intros Hskip Hex. unfold Main.process_url. rewrite Hex, Hskip. cbn [andb].
  split; [done|]. destruct (bool_decide _).
  - cbn [snd w_log print emit]. rewrite requests_app. apply app_nil_r.
  - destruct (extract_step_no_request a (Main.sanitize (Main.fname_of url))
                (Main.zip_path_of (Main.dest_root a) (Main.fname_of url))
                (print (MsgSkipped (Main.sanitize (Main.fname_of url))) w))
      as (d & Hd & Hr).
    rewrite Hd. cbn [w_log print emit].
    rewrite !requests_app, Hr. by rewrite !app_nil_r.
Qed.

Lemma process_url_settled E a w url :
  Main.skip_existing a = true -> Main.force_reextract a = false ->
  Run.settled a (w_fs w) url ->
  (Main.process_url E a w url).1 = Ok tt
  /\ w_fs (Main.process_url E a w url).2 = w_fs w
  /\ Download.requests (w_log (Main.process_url E a w url).2)
     = Download.requests (w_log w).
Proof.
  intros Hskip Hforce Hs. unfold Main.process_url.
  case_bool_decide as Hn.
  { split; [done|]. split; [done|]. cbn [snd w_log print emit].
    rewrite requests_app. apply app_nil_r. }
  destruct Hs as [Hs|[Hz He]]; [done|]. rewrite Hz, Hskip. cbn [andb].
  unfold Main.extract_step. cbn [w_fs print emit]. rewrite He, Hforce.
  cbn [andb negb fst snd w_fs w_log print emit]. split; [done|].
  split; [done|].
  rewrite <- app_assoc, requests_app. apply app_nil_r.
Qed.

Lemma batch_settled E a urls : forall w,
  Main.skip_existing a = true -> Main.force_reextract a = false ->
  Forall (Run.settled a (w_fs w)) urls ->
  (Main.process_all E a urls w).1 = Ok tt
  /\ w_fs (Main.process_all E a urls w).2 = w_fs w
  /\ Download.requests (w_log (Main.process_all E a urls w).2)
     = Download.requests (w_log w).
Proof.
  induction urls as [|url urls IH]; intros w Hskip Hforce Hall; [done|].
  apply Forall_cons in Hall as [Hu Hall]. cbn [Main.process_all].
  destruct (process_url_settled E a w url Hskip Hforce Hu) as (Ho & Hf & Hr).
  destruct (Main.process_url E a w url) as [[[]|e] w1]; cbn [fst snd] in *;
    [|done].
  destruct (IH w1 Hskip Hforce) as (Ho' & Hf' & Hr').
  { by rewrite Hf. }
  split; [done|]. split; congruence.
Qed.

(** X17: a run with [--skip-existing] and without
    [--force-reextract], over a destination root that exists and in which
    every URL of the index has its archive and its folder, leaves the disk
    as it was, ends with status 0, and sends the request for the index
    page and no other. *)
Theorem rerun_changes_nothing
    (E : env) (a : Main.args) (w : world) (urls : list string) :
  Main.skip_existing a = true -> Main.force_reextract a = false ->
  Fsys.mkdir_p (Main.dest_root a) (w_fs w) = Ok (w_fs w) ->
  Links.list_zip_urls E (Main.base_url a) = Ok urls ->
  Forall (Run.settled a (w_fs w)) urls ->
  let out := Main.main E a w in
  w_fs out.2 = w_fs w
  /\ Main.exit_status out.1 = 0%Z
  /\ Download.requests (w_log out.2)
     = Download.requests (w_log w) ++ [EvFetch (Main.base_url a)].
Proof.
  intros Hskip Hforce Hmk Hurls Hall. cbv zeta. unfold Main.main.
  rewrite Hmk, Hurls. destruct urls as [|u urls].
  { cbn [fst snd w_fs w_log print emit set_fs Main.exit_status].
    split; [done|]. split; [done|].
    rewrite <- !app_assoc, requests_app. done. }
  destruct (batch_settled E a (u :: urls)
              (print (MsgFound (length (u :: urls)))
                 (emit (EvFetch (Main.base_url a))
                    (print (MsgScanning (Main.base_url a))
                       (set_fs (w_fs w) w))))
              Hskip Hforce Hall) as (Ho & Hf & Hr).
  destruct (Main.process_all E a (u :: urls) _) as [[[]|e] w2];
    cbn [fst snd Main.exit_status] in *; [|done].
  rewrite Hf, Hr. cbn [w_fs w_log print emit set_fs].
  split; [done|]. split; [done|].
  rewrite <- !app_assoc, requests_app. done.
Qed.

(** X18: an archive whose file name has no suffix (the stem is the
    whole name, as for [download] or [.zip]) has itself as its extraction
    folder.  Its content is never unpacked and the disk is not changed:
    without [--force-reextract] the step reports it as already extracted,
    with it [rmtree] leaves the file alone and [mkdir] fails on it. *)
Theorem archive_without_suffix_is_never_unpacked
    (a : Main.args) (safe_fname nm : string) (zip_path : path) (w : world)
    (data : list Byte.byte) :
  zip_path = Main.dest_root a ++ [nm] ->
  "/"%char ∉ Str.to_list nm -> nm ≠ "" -> nm ≠ "." ->
  Posix.stem_of nm = nm ->
  Fsys.node_at (w_fs w) zip_path = Some (File data) ->
  let out := Main.extract_step a safe_fname zip_path w in
  Fsys.joinpath (Main.dest_root a) (Fsys.stem zip_path) = zip_path
  /\ w_fs out.2 = w_fs w
  /\ (Main.force_reextract a = false ->
      out = (Ok tt, print (MsgAlreadyExtracted nm) w))
  /\ (Main.force_reextract a = true ->
      exists e,
        out = (Ok tt,
               print (MsgExtractionFailed safe_fname e)
                 (print (MsgExtracting safe_fname nm)
                    (print (MsgCleaning zip_path) w)))).
Proof.
  intros Hzp Hslash Hne Hdot Hstem Hfile. cbv zeta.
  assert (Hname : Fsys.name zip_path = nm).
  { rewrite Hzp. unfold Fsys.name. by rewrite last_snoc. }
  assert (Hed : Fsys.joinpath (Main.dest_root a) (Fsys.stem zip_path)
                = zip_path).
  { unfold Fsys.stem. rewrite Hname, Hstem. unfold Fsys.joinpath.
    destruct (Posix.is_absolute nm) eqn:Habs.
    { by apply is_absolute_has_slash in Habs. }
    unfold Posix.components. rewrite split_no_sep by done.
    by rewrite filter_cons_True, filter_nil. }
  split; [done|].
  assert (Hex : Fsys.exists_ (w_fs w) zip_path = Ok true).
  { unfold Fsys.exists_. by rewrite Hfile. }
  unfold Main.extract_step. rewrite Hed, Hex, Hname. cbn [andb].
  destruct (Main.force_reextract a); cbn [negb].
  { cbn [w_fs print emit]. unfold Fsys.rmtree. rewrite Hfile.
    destruct (mkdir_p_on_file _ _ _ Hfile) as [e He].
    unfold Extract.safe_extract_zip. cbn [w_fs print emit set_fs].
    rewrite He. cbn [snd w_fs print emit set_fs].
    split; [done|]. split; [done|]. intros _. exists e.
    unfold print, emit, set_fs. cbn [w_fs w_log]. done. }
  split; [done|]. split; [done|]. done.
Qed.

End MainMore2.

Section MainMore3.
Context `{Library}.

(** One round of the loop sends requests for its URL only, six at most. *)
Lemma process_url_requests E a w url :
  exists d, w_log (Main.process_url E a w url).2 = w_log w ++ d
    /\ Forall (fun e => e = EvHead url \/ exists r, e = EvGet url r)
         (Download.requests d)
    /\ length (Download.requests d) <= 6.
Proof.
  unfold Main.process_url.
  destruct (bool_decide _).
  { exists [EvPrint (MsgInvalidFilename (Main.fname_of url))].
    split; [done|]. split; [apply Forall_nil_2|simpl; lia]. }
  set (sf := Main.sanitize _). set (zp := Main.zip_path_of _ _).
  destruct (Fsys.exists_ (w_fs w) zp) as [present|e0].
  2:{ exists []. rewrite app_nil_r. split; [done|].
      split; [apply Forall_nil_2|simpl; lia]. }
  destruct (present && Main.skip_existing a).
  { destruct (extract_step_no_request a sf zp (print (MsgSkipped sf) w))
      as (d & Hd & Hr).
    exists ([EvPrint (MsgSkipped sf)] ++ d). rewrite Hd.
    cbn [w_log print emit]. rewrite <- app_assoc. split; [done|].
    rewrite requests_app, Hr. split; [apply Forall_nil_2|simpl; lia]. }
  destruct (download_requests E url zp 3 w) as (d1 & Hd1 & Hall & Hlen & Hk).
  change (Z.to_nat (Z.max 1 3)) with 3 in Hk.
  destruct (Download.download_with_resume E url zp 3 w) as [[[]|e] w1];
    cbn [snd] in Hd1.
  - destruct (extract_step_no_request a sf zp w1) as (d & Hd & Hr).
    exists (d1 ++ d). rewrite Hd, Hd1, <- app_assoc. split; [done|].
    rewrite requests_app, Hr, app_nil_r. split; [done|lia].
  - exists (d1 ++ [EvPrint (MsgDownloadFailed sf e)]).
    cbn [snd w_log print emit]. rewrite Hd1, <- app_assoc. split; [done|].
    rewrite requests_app.
    change (Download.requests [EvPrint _]) with (@nil event).
    rewrite app_nil_r. split; [done|lia].
Qed.

Lemma batch_requests E a urls : forall w,
  exists d,
    w_log (Main.process_all E a urls w).2 = w_log w ++ d
    /\ Forall (fun e => exists url, url ∈ urls
                 /\ (e = EvHead url \/ exists r, e = EvGet url r))
         (Download.requests d)
    /\ length (Download.requests d) <= 6 * length urls.
Proof.
  induction urls as [|url urls IH]; intros w; cbn [Main.process_all].
  - exists []. rewrite app_nil_r. split; [done|].
    split; [apply Forall_nil_2|simpl; lia].
  - destruct (process_url_requests E a w url) as (d1 & Hd1 & Hall1 & Hlen1).
    destruct (Main.process_url E a w url) as [[[]|e] w1]; cbn [snd] in *.
    + destruct (IH w1) as (d2 & Hd2 & Hall2 & Hlen2).
      exists (d1 ++ d2). rewrite Hd2, Hd1, <- app_assoc. split; [done|].
      rewrite requests_app, Forall_app, length_app. split; [split|simpl; lia].
      * eapply Forall_impl; [exact Hall1|]. intros e He. exists url.
        split; [apply elem_of_cons; by left|done].
      * eapply Forall_impl; [exact Hall2|]. intros e (u & Hu & He). exists u.
        split; [apply elem_of_cons; by right|done].
    + exists d1. split; [done|]. split; [|simpl; lia].
      eapply Forall_impl; [exact Hall1|]. intros e0 He. exists url.
      split; [apply elem_of_cons; by left|done].
Qed.

(** X19: a run asks for the index page and, besides, sends HEAD and
    GET requests for the URLs link discovery returned and for no other
    address; with [n] URLs it sends [1 + 6 n] requests at most. *)
Theorem main_contacts_only_discovered_urls
    (E : env) (a : Main.args) (w : world) :
  let out := Main.main E a w in
  let urls :=
    match Links.list_zip_urls E (Main.base_url a) with
    | Ok urls => urls
    | Raise _ => []
    end in
  exists d, w_log out.2 = w_log w ++ d
    /\ Forall (fun e => e = EvFetch (Main.base_url a)
                 \/ exists url, url ∈ urls
                      /\ (e = EvHead url \/ exists r, e = EvGet url r))
         (Download.requests d)
    /\ length (Download.requests d) <= 1 + 6 * length urls.
Proof.
  cbv zeta. unfold Main.main.
  destruct (Fsys.mkdir_p _ _) as [f|e0].
  2:{ exists []. rewrite app_nil_r. split; [done|].
      split; [apply Forall_nil_2|simpl; lia]. }
  destruct (Links.list_zip_urls E (Main.base_url a)) as [[|u urls]|e].
  - exists [EvPrint (MsgScanning (Main.base_url a));
            EvFetch (Main.base_url a); EvPrint MsgNoZipFiles].
    cbn [snd w_log print emit set_fs]. rewrite <- !app_assoc.
    split; [done|]. split; [|simpl; lia].
    apply Forall_cons_2; [by left|apply Forall_nil_2].
  - destruct (batch_requests E a (u :: urls)
                (print (MsgFound (length (u :: urls)))
                   (emit (EvFetch (Main.base_url a))
                      (print (MsgScanning (Main.base_url a)) (set_fs f w)))))
      as (d & Hd & Hall & Hlen).
    exists ([EvPrint (MsgScanning (Main.base_url a));
             EvFetch (Main.base_url a);
             EvPrint (MsgFound (length (u :: urls)))] ++ d).
    assert (Hout : forall r : result unit * world,
              (match r with
               | (Ok _, w2) => (Main.Returned, w2)
               | (Raise e, w2) => (Main.Uncaught e, w2)
               end).2 = r.2).
    { by intros [[?|?] ?]. }
    rewrite Hout, Hd. cbn [w_log print emit set_fs]. rewrite <- !app_assoc.
    split; [done|]. rewrite requests_app, Forall_app, length_app.
    change (Download.requests [_; _; _]) with [EvFetch (Main.base_url a)].
    split; [split|cbn [length] in Hlen |- *; lia].
    + apply Forall_cons_2; [by left|apply Forall_nil_2].
    + eapply Forall_impl; [exact Hall|]. intros e He. by right.
  - exists [EvPrint (MsgScanning (Main.base_url a));
            EvFetch (Main.base_url a); EvPrint (MsgDirectoryFailed e)].
    cbn [snd w_log print emit set_fs]. rewrite <- !app_assoc.
    split; [done|]. split; [|simpl; lia].
    apply Forall_cons_2; [by left|apply Forall_nil_2].
Qed.

End MainMore3.

(** What [rmtree] leaves of a directory tree: nothing at or below the
    path, and everything else. *)
Lemma rmtree_lookup (f : fs) (p q : path) :
  Fsys.node_at f p = Some Dir ->
  Fsys.rmtree p f !! q
  = if decide (Fsys.normpath p `prefix_of` q) then None else f !! q.
Proof.
  intros Hp. unfold Fsys.rmtree. rewrite Hp.
  destruct (decide (Fsys.normpath p `prefix_of` q)) as [Hpre|Hpre].
  - apply map_lookup_filter_None. right. intros n _ Hn. by apply Hn.
  - destruct (f !! q) as [n|] eqn:Hq.
    + by apply map_lookup_filter_Some.
    + apply map_lookup_filter_None. by left.
Qed.

Lemma stem_of_dot (nm : string) :
  Posix.stem_of nm = "." -> nm ≠ "." -> nm ≠ "" /\ nm ≠ "..".
Proof. intros Hs Hd. split; intros ->; by vm_compute in Hs. Qed.

Section MainMore4.
Context `{Library}.

(** X20: an archive whose name has the stem [.] (such as [..zip])
    has the destination root as its extraction folder.  Without
    [--force-reextract] the step reports it as already extracted.  With it
    the step empties the destination root, the archive included, and the
    extraction then fails: nothing that was below the root is left. *)
Theorem dot_stem_targets_dest_root
    (a : Main.args) (safe_fname nm : string) (w : world) :
  let zip_path := Main.dest_root a ++ [nm] in
  "/"%char ∉ Str.to_list nm ->
  Posix.stem_of nm = "." -> nm ≠ "." ->
  Fsys.node_at (w_fs w) (Main.dest_root a) = Some Dir ->
  let out := Main.extract_step a safe_fname zip_path w in
  Fsys.joinpath (Main.dest_root a) (Fsys.stem zip_path) = Main.dest_root a
  /\ (Main.force_reextract a = false ->
      out = (Ok tt,
             print (MsgAlreadyExtracted (Fsys.name (Main.dest_root a))) w))
  /\ (Main.force_reextract a = true ->
      out.1 = Ok tt
      /\ (forall q, Fsys.normpath (Main.dest_root a) `prefix_of` q ->
           q ≠ Fsys.normpath (Main.dest_root a) -> w_fs out.2 !! q = None)
      /\ exists e,
           w_log out.2
           = w_log w ++ [EvPrint (MsgCleaning (Main.dest_root a));
                         EvPrint (MsgExtracting safe_fname
                                    (Fsys.name (Main.dest_root a)));
                         EvPrint (MsgExtractionFailed safe_fname e)]).
Proof.
  cbv zeta. intros Hslash Hstem Hdot Hdir.
  destruct (stem_of_dot nm Hstem Hdot) as [Hne Hdd].
  set (dr := Main.dest_root a) in *.
  assert (Hed : Fsys.joinpath dr (Fsys.stem (dr ++ [nm])) = dr).
  { unfold Fsys.stem, Fsys.name. rewrite last_snoc. cbn [default from_option id].
    rewrite Hstem. unfold Fsys.joinpath.
    change (Posix.is_absolute ".") with false.
    change (Posix.components ".") with (@nil string). apply app_nil_r. }
  split; [done|].
  assert (Hex : Fsys.exists_ (w_fs w) dr = Ok true).
  { unfold Fsys.exists_. by rewrite Hdir. }
  unfold Main.extract_step. fold dr. rewrite Hed, Hex. cbn [andb].
  destruct (Main.force_reextract a); cbn [negb]; [|by split].
  split; [done|]. intros _.
  set (f1 := Fsys.rmtree dr (w_fs (print (MsgCleaning dr) w))).
  assert (Hf1 : forall q, Fsys.normpath dr `prefix_of` q -> f1 !! q = None).
  { intros q Hq. unfold f1. cbn [w_fs print emit].
    rewrite rmtree_lookup by done. by rewrite decide_True. }
  assert (Hzp : Fsys.normpath (dr ++ [nm]) = Fsys.normpath dr ++ [nm]).
  { rewrite normpath_snoc. rewrite bool_decide_eq_false_2 by done.
    by rewrite bool_decide_eq_false_2 by (by intros [?|?]). }
  unfold Extract.safe_extract_zip. cbn [w_fs w_log print emit set_fs].
  fold f1.
  destruct (Fsys.mkdir_p dr f1) as [f'|e] eqn:Hmk.
  - destruct (mkdir_p_spec _ _ _ Hmk) as (_ & _ & K3).
    assert (Hbelow : forall q, Fsys.normpath dr `prefix_of` q ->
                       q ≠ Fsys.normpath dr -> f' !! q = None).
    { intros q Hq Hqne. destruct (f' !! q) as [n|] eqn:Hfq; [|done].
      exfalso. destruct (K3 q (Hf1 q Hq)) as [_ Hpre].
      { intros Hx. pose proof (eq_trans (eq_sym Hfq) Hx). done. }
      apply Hqne. by apply (anti_symm prefix). }
    assert (Hzip : Fsys.node_at f' (dr ++ [nm]) = None).
    { rewrite node_at_nonroot by (rewrite Hzp; by destruct (Fsys.normpath dr)).
      rewrite Hzp. apply Hbelow; [by apply prefix_app_r|].
      intros Heq. apply (f_equal length) in Heq.
      rewrite length_app in Heq. simpl in Heq. lia. }
    cbn [w_fs set_fs]. rewrite Hzip. cbn [fst snd w_fs w_log print emit set_fs].
    split; [done|]. split; [done|].
    exists FileNotFoundError. by rewrite <- !app_assoc.
  - cbn [fst snd w_fs w_log print emit set_fs]. split; [done|]. split.
    + intros q Hq _. by apply Hf1.
    + exists e. by rewrite <- !app_assoc.
Qed.

End MainMore4.

(** * Runs on concrete inputs *)

Ltac by_computation :=
  vm_compute; first [reflexivity | congruence | intros ?; congruence].

(** The scenario of the specification: two spellings of one name are two
    links, the text file is none, and a repeated link counts once. *)
Example list_zip_urls_scenario :
  Links.list_zip_urls
    (H := Demo.library [Demo.anchor "game1.zip"; Demo.anchor "GAME1.ZIP";
                        Demo.anchor "readme.txt"; Demo.anchor "game1.zip"])
    Demo.good_server "http://host/dir/"
  = Ok ["http://host/dir/game1.zip"; "http://host/dir/GAME1.ZIP"].
Proof. by_computation. Qed.

(** White space around a reference is no part of it, the no-break space
    included: the two anchors are one link. *)
Example list_zip_urls_strips_nbsp :
  Links.list_zip_urls
    (H := Demo.library [Demo.anchor (Demo.nbsp +:+ "x.zip");
                        Demo.anchor "x.zip"])
    Demo.good_server "http://host/dir/"
  = Ok ["http://host/dir/x.zip"].
Proof. by_computation. Qed.

(** A page the parser gives up on: discovery raises what the parser
    raised, and the run ends with status 1 before any download. *)
Example parser_error_fails_discovery :
  let L := Demo.broken_parser in
  Links.list_zip_urls (H := L) Demo.good_server "http://host/dir/"
  = Raise AssertionError
  /\ Main.main (H := L) Demo.good_server Demo.args0 (World Demo.disk0 [])
     = (Main.SysExit 1,
        World Demo.disk0
          [EvPrint (MsgScanning "http://host/dir/");
           EvFetch "http://host/dir/";
           EvPrint (MsgDirectoryFailed AssertionError)]).
Proof. cbv zeta. split; by_computation. Qed.

(** A link whose reference [urljoin] rejects: the page is fetched and
    parsed, the reference ends in [.zip], and discovery raises instead of
    returning the list with the link before it. *)
Lemma unparsable_href_fails_discovery :
  let L := Demo.library [Demo.anchor "game1.zip"; Demo.anchor "//[x.zip"] in
  fetch_html Demo.good_server "http://host/dir/" = Ok ""
  /\ html_starttags (Library := L) ""
     = Ok [Demo.anchor "game1.zip"; Demo.anchor "//[x.zip"]
  /\ omap Links.zip_href [Demo.anchor "game1.zip"; Demo.anchor "//[x.zip"]
     = ["game1.zip"; "//[x.zip"]
  /\ urljoin (Library := L) "http://host/dir/" "//[x.zip" = Raise ValueError
  /\ Links.list_zip_urls (H := L) Demo.good_server "http://host/dir/"
     = Raise ValueError.
Proof. cbv zeta. repeat split; by_computation. Qed.

(** The archive with [../../etc/passwd] is rejected, and only the target
    directory is new. *)
Lemma safe_extract_zip_validates_first_witness :
  Fsys.node_at (w_fs Demo.bad_world) Demo.bad_zip
    = Some (File Demo.bad_archive)
  /\ infolist (Library := Demo.library []) Demo.bad_archive
     = Some ["ok.txt"; "../../etc/passwd"]
  /\ Fsys.mkdir_p Demo.bad_dir (w_fs Demo.bad_world)
     = Ok (<[Demo.bad_dir := Dir]> (w_fs Demo.bad_world))
  /\ exists m, m ∈ ["ok.txt"; "../../etc/passwd"]
       /\ (Posix.is_absolute m = true \/ ".." ∈ Str.split "/" m)
       /\ Extract.safe_extract_zip (H := Demo.library [])
            Demo.bad_zip Demo.bad_dir Demo.bad_world
          = (Raise (SuspiciousPath m),
             set_fs (<[Demo.bad_dir := Dir]> (w_fs Demo.bad_world))
               Demo.bad_world).
Proof.
  assert (h1 : Fsys.node_at (w_fs Demo.bad_world) Demo.bad_zip
               = Some (File Demo.bad_archive)) by by_computation.
  assert (h2 : infolist (Library := Demo.library []) Demo.bad_archive
               = Some ["ok.txt"; "../../etc/passwd"]) by by_computation.
  assert (h3 : Fsys.mkdir_p Demo.bad_dir (w_fs Demo.bad_world)
               = Ok (<[Demo.bad_dir := Dir]> (w_fs Demo.bad_world)))
    by by_computation.
  split; [exact h1|]. split; [exact h2|]. split; [exact h3|].
  pose proof (safe_extract_zip_validates_first (H := Demo.library [])
                Demo.bad_zip Demo.bad_dir Demo.bad_world _ _ h1 h2) as Hv.
  rewrite h3 in Hv. apply (proj1 Hv).
  exists "../../etc/passwd". split.
  - apply list_elem_of_In. vm_compute. tauto.
  - right. apply list_elem_of_In. vm_compute. tauto.
Defined.

(** The same archive: after the rejection the target directory is there and
    the archive is where it was. *)
Lemma rejected_extraction_leaves_directory_witness :
  Fsys.node_at (w_fs Demo.bad_world) Demo.bad_zip
    = Some (File Demo.bad_archive)
  /\ infolist (Library := Demo.library []) Demo.bad_archive
     = Some ["ok.txt"; "../../etc/passwd"]
  /\ (exists m, m ∈ ["ok.txt"; "../../etc/passwd"]
        /\ (Posix.is_absolute m = true \/ ".." ∈ Str.split "/" m))
  /\ match Fsys.mkdir_p Demo.bad_dir (w_fs Demo.bad_world) with
     | Raise e => False
     | Ok f =>
         (exists m, Extract.safe_extract_zip (H := Demo.library [])
                      Demo.bad_zip Demo.bad_dir Demo.bad_world
                    = (Raise (SuspiciousPath m), set_fs f Demo.bad_world))
         /\ Fsys.node_at f Demo.bad_dir = Some Dir
         /\ f !! Demo.bad_zip = Some (File Demo.bad_archive)
     end.
Proof.
  assert (h1 : Fsys.node_at (w_fs Demo.bad_world) Demo.bad_zip
               = Some (File Demo.bad_archive)) by by_computation.
  assert (h2 : infolist (Library := Demo.library []) Demo.bad_archive
               = Some ["ok.txt"; "../../etc/passwd"]) by by_computation.
  assert (h3 : exists m, m ∈ ["ok.txt"; "../../etc/passwd"]
                 /\ (Posix.is_absolute m = true \/ ".." ∈ Str.split "/" m)).
  { exists "../../etc/passwd". split.
    - apply list_elem_of_In. vm_compute. tauto.
    - right. apply list_elem_of_In. vm_compute. tauto. }
  split; [exact h1|]. split; [exact h2|]. split; [exact h3|].
  pose proof (rejected_extraction_leaves_directory (H := Demo.library [])
                Demo.bad_zip Demo.bad_dir Demo.bad_world _ _ h1 h2 h3) as Hr.
  destruct (Fsys.mkdir_p Demo.bad_dir (w_fs Demo.bad_world)) as [f|e] eqn:Hmk.
  - destruct Hr as (Hx & Hd & Hkeep & _).
    split; [exact Hx|]. split; [exact Hd|]. apply Hkeep. by_computation.
  - vm_compute in Hmk. discriminate Hmk.
Defined.






(** With [retries = 0] one attempt is made all the same. *)
Lemma one_attempt_with_zero_retries :
  (Download.retry_loop (Demo.failing_server 5) Demo.url_a Demo.part_a
     Demo.zip_a 0 0 (World Demo.disk0 [])).1 = Raise URLError
  /\ Download.attempts_made
       (w_log (Download.retry_loop (Demo.failing_server 5) Demo.url_a
                 Demo.part_a Demo.zip_a 0 0 (World Demo.disk0 [])).2)
     = 1%nat
  /\ ¬ (Z.of_nat 1 <= 0)%Z.
Proof. repeat split; by_computation. Qed.

(** C7, at the link [..%2Fevil.zip] found on [http://host/dir/] with
    [--dest /srv/dest]: the last segment of the URL path decodes to
    [../evil.zip], cleaning leaves the slash and the dots, and the archive
    goes to [/srv/dest/../evil.zip], that is [/srv/evil.zip], which is not
    below the destination root.  In the same way [%2Fetc%2Fx.zip] gives the
    absolute path [/etc/x.zip] and [a%2Fb.zip] a path in a subdirectory.
    The run of the whole program writes the downloaded bytes to
    [/srv/evil.zip]. *)
Theorem decoded_slash_leaves_dest :
  let url := "http://host/dir/..%2Fevil.zip" in
  let L := Demo.library [Demo.anchor "..%2Fevil.zip"] in
  let out := Main.main (H := L) Demo.good_server Demo.args0
               (World Demo.disk0 []) in
  Links.list_zip_urls (H := L) Demo.good_server "http://host/dir/" = Ok [url]
  /\ Main.fname_of_path "/dir/..%2Fevil.zip" = "../evil.zip"
  /\ Main.sanitize "../evil.zip" = "../evil.zip"
  /\ Main.zip_path_of Demo.dest0 "../evil.zip"
     = ["srv"; "dest"; ".."; "evil.zip"]
  /\ Fsys.normpath ["srv"; "dest"; ".."; "evil.zip"] = ["srv"; "evil.zip"]
  /\ ¬ (Demo.dest0 `prefix_of` ["srv"; "evil.zip"])
  /\ Main.zip_path_of Demo.dest0 (Main.fname_of_path "/dir/%2Fetc%2Fx.zip")
     = ["etc"; "x.zip"]
  /\ Main.zip_path_of Demo.dest0 (Main.fname_of_path "/dir/a%2Fb.zip")
     = ["srv"; "dest"; "a"; "b.zip"]
  /\ out.1 = Main.Returned
  /\ w_fs out.2 !! ["srv"; "evil.zip"] = Some (File Demo.five)
  /\ w_fs out.2 !! ["srv"; "dest"; "evil.zip"] = None.
Proof.
  cbv zeta. repeat split; try by_computation.
  intros Hp. apply prefix_length in Hp as Hlen.
  destruct Hp as [k Hk]. vm_compute in Hk. congruence.
Qed.




(** An index page without links: exit status 0, and nothing is sent but
    the request for the page. *)
Example no_links_exit_zero :
  Main.main (H := Demo.library []) Demo.good_server Demo.args0
    (World Demo.disk0 [])
  = (Main.SysExit 0,
     World Demo.disk0
       [EvPrint (MsgScanning "http://host/dir/");
        EvFetch "http://host/dir/"; EvPrint MsgNoZipFiles]).
Proof. by_computation. Qed.

(** A whole run: one link, an archive with one entry; the archive lands in
    the destination root and its entry in the folder named after it. *)
Example main_downloads_and_extracts :
  let archive := Demo.bytes "PK" ++ Demo.bytes "x.txt" in
  let E :=
    Demo.server (Ok "")
      (fun _ => HeadOk (CLInt (Z.of_nat (length archive))))
      (fun _ _ => GetOk CLAbsent [Data archive]) in
  let out :=
    Main.main (H := Demo.library [Demo.anchor "a.zip"]) E Demo.args0
      (World Demo.disk0 []) in
  out.1 = Main.Returned
  /\ w_log out.2 =
     [EvPrint (MsgScanning "http://host/dir/"); EvFetch "http://host/dir/";
      EvPrint (MsgFound 1); EvHead Demo.url_a; EvGet Demo.url_a None;
      EvPrint (MsgDownloaded "a.zip"); EvPrint (MsgExtracting "a.zip" "a");
      EvPrint (MsgExtracted ["srv"; "dest"; "a"])]
  /\ w_fs out.2 !! Demo.zip_a = Some (File archive)
  /\ w_fs out.2 !! Demo.part_a = None
  /\ w_fs out.2 !! ["srv"; "dest"; "a"; "x.txt"] = Some (File []).
Proof. cbv zeta. repeat split; by_computation. Qed.

(** With [--skip-existing] and the archive already in place the downloader
    is not called, and the archive is unpacked all the same. *)
Example skip_existing_still_extracts :
  let archive := Demo.bytes "PK" ++ Demo.bytes "x.txt" in
  let w := World (<[Demo.zip_a := File archive]> Demo.disk0) [] in
  let a := Main.Args "http://host/dir/" Demo.dest0 true false in
  let out :=
    Main.main (H := Demo.library [Demo.anchor "a.zip"])
      (Demo.failing_server 5) a w in
  out.1 = Main.Returned
  /\ w_log out.2 =
     [EvPrint (MsgScanning "http://host/dir/"); EvFetch "http://host/dir/";
      EvPrint (MsgFound 1); EvPrint (MsgSkipped "a.zip");
      EvPrint (MsgExtracting "a.zip" "a");
      EvPrint (MsgExtracted ["srv"; "dest"; "a"])]
  /\ w_fs out.2 !! ["srv"; "dest"; "a"; "x.txt"] = Some (File []).
Proof. cbv zeta. repeat split; by_computation. Qed.

(** ** Runs for the further properties *)

(** A reference with a no-break space before it and capitals in its
    suffix: the link collected is the reference without the space. *)
Lemma collected_links_end_in_zip_witness :
  let L := Demo.library [Demo.anchor (Demo.nbsp +:+ "a.ZIP");
                         Demo.anchor "b.txt"] in
  Links.feed (H := L) "" = Ok ["a.ZIP"]
  /\ Forall (fun link =>
               Str.endswith (Str.lower link) ".zip" = true
               /\ Str.strip link = link
               /\ link ≠ "")
       ["a.ZIP"].
Proof.
  cbv zeta.
  assert (h : Links.feed
                (H := Demo.library [Demo.anchor (Demo.nbsp +:+ "a.ZIP");
                                    Demo.anchor "b.txt"]) ""
              = Ok ["a.ZIP"]) by by_computation.
  split; [exact h|].
  exact (collected_links_end_in_zip
           (H := Demo.library [Demo.anchor (Demo.nbsp +:+ "a.ZIP");
                               Demo.anchor "b.txt"]) "" ["a.ZIP"] h).
Defined.

(** An anchor with two [href] attributes and a class: the second [href],
    which is no archive, is the one that counts. *)
Lemma handle_starttag_last_href_witness :
  Links.handle_starttag []
    ("a", [("href", Some "a.zip")] ++ ("href", Some "b.txt")
            :: [("class", Some "x")])
  = Links.handle_starttag [] ("a", [("href", Some "b.txt")])
  /\ Links.handle_starttag [] ("a", [("href", Some "b.txt")]) = []
  /\ Links.handle_starttag [] ("a", [("href", Some "a.zip")]) = ["a.zip"].
Proof.
  split; [|split; by_computation].
  apply (handle_starttag_last_href [] "a" [("href", Some "a.zip")]
           [("class", Some "x")] (Some "b.txt")).
  repeat constructor. by_computation.
Defined.

(** A download that fails three times leaves the archive that was there. *)
Lemma failed_download_keeps_destination_witness :
  let w := World (<[Demo.zip_a := File (Demo.bytes "old")]> Demo.disk0) [] in
  let out :=
    Download.download_with_resume (Demo.failing_server 5) Demo.url_a
      Demo.zip_a 3 w in
  out.1 = Raise URLError
  /\ Fsys.node_at (w_fs out.2) Demo.zip_a = Some (File (Demo.bytes "old")).
Proof.
  cbv zeta.
  set (w := World (<[Demo.zip_a := File (Demo.bytes "old")]> Demo.disk0) []).
  assert (h1 : Download.download_with_resume (Demo.failing_server 5)
                 Demo.url_a Demo.zip_a 3 w
               = (Raise URLError,
                  (Download.download_with_resume (Demo.failing_server 5)
                     Demo.url_a Demo.zip_a 3 w).2)) by by_computation.
  split; [by_computation|].
  apply (proj1 (failed_download_keeps_destination _ _ _ _ _ _ _ h1)).
  by_computation.
Defined.

(** A download next to another file: the other file is as it was. *)
Lemma download_touches_only_its_files_witness :
  let w := World (<[["srv"; "other"] := File (Demo.bytes "x")]> Demo.disk0) [] in
  let out :=
    Download.download_with_resume Demo.good_server Demo.url_a Demo.zip_a 3 w in
  (".." ∉ Demo.zip_a)
  /\ Fsys.with_suffix Demo.zip_a (Fsys.suffix Demo.zip_a +:+ ".part")
     = Ok Demo.part_a
  /\ Fsys.node_at (w_fs w) Demo.part_a = None
  /\ w_fs out.2 !! ["srv"; "other"] = Some (File (Demo.bytes "x")).
Proof.
  cbv zeta.
  set (w := World (<[["srv"; "other"] := File (Demo.bytes "x")]> Demo.disk0) []).
  assert (h1 : Fsys.with_suffix Demo.zip_a (Fsys.suffix Demo.zip_a +:+ ".part")
               = Ok Demo.part_a) by by_computation.
  assert (h2 : Fsys.node_at (w_fs w) Demo.part_a = None) by by_computation.
  assert (h0 : ".." ∉ Demo.zip_a)
    by (apply (bool_decide_unpack _); vm_compute; reflexivity).
  split; [exact h0|]. split; [exact h1|]. split; [exact h2|].
  apply (proj1 (download_touches_only_its_files Demo.good_server Demo.url_a
                  Demo.zip_a Demo.part_a 3 w h0 h1
                  ltac:(rewrite h2; discriminate)));
    by_computation.
Defined.

(** A download that succeeds: the archive is a regular file and the
    staging file is gone. *)
Lemma successful_download_leaves_regular_file_witness :
  let w := World Demo.disk0 [] in
  let out :=
    Download.download_with_resume Demo.good_server Demo.url_a Demo.zip_a 3 w in
  (".." ∉ Demo.zip_a)
  /\ out.1 = Ok tt
  /\ (exists data, Fsys.node_at (w_fs out.2) Demo.zip_a = Some (File data))
  /\ Fsys.node_at (w_fs out.2) Demo.part_a = None.
Proof.
  cbv zeta.
  assert (h0 : (Download.download_with_resume Demo.good_server Demo.url_a
                  Demo.zip_a 3 (World Demo.disk0 [])).1 = Ok tt)
    by by_computation.
  assert (h1 : ".." ∉ Demo.zip_a)
    by (apply (bool_decide_unpack _); vm_compute; reflexivity).
  split; [exact h1|]. split; [exact h0|].
  apply (successful_download_leaves_regular_file Demo.good_server Demo.url_a
           Demo.zip_a Demo.part_a 3 (World Demo.disk0 []));
    [exact h1|by_computation|by_computation|exact h0].
Defined.

(** A server that sends no [Content-Length] at all: the three bytes that
    arrive are the archive. *)
Lemma unknown_total_accepts_any_length_witness :
  let E :=
    Demo.server (Ok "") (fun _ => HeadFail)
      (fun _ _ => GetOk CLAbsent [Data (Demo.bytes "abc")]) in
  let out :=
    Download.attempt_once E Demo.url_a Demo.part_a Demo.zip_a 1
      (World Demo.disk0 []) in
  out.1 = Ok tt
  /\ Fsys.node_at (w_fs out.2) Demo.zip_a = Some (File (Demo.bytes "abc"))
  /\ Fsys.node_at (w_fs out.2) Demo.part_a = None.
Proof.
  cbv zeta.
  apply (unknown_total_accepts_any_length
           (Demo.server (Ok "") (fun _ => HeadFail)
              (fun _ _ => GetOk CLAbsent [Data (Demo.bytes "abc")]))
           Demo.url_a Demo.part_a Demo.zip_a 1 (World Demo.disk0 [])
           CLAbsent [Data (Demo.bytes "abc")]
           (<[Demo.part_a := File []]> Demo.disk0) [] (Demo.bytes "abc") None);
    by_computation.
Defined.

(** Two bytes staged, a server that declares five bytes and sends all
    five whatever the range: the first attempt fails on the size, the
    second one promotes the seven bytes. *)
Lemma range_ignored_is_promoted_on_retry_witness :
  let E :=
    Demo.server (Ok "") (fun _ => HeadOk (CLInt 5))
      (fun _ _ => GetOk CLAbsent [Data Demo.five]) in
  let out :=
    Download.download_with_resume E Demo.url_a Demo.zip_a 3
      (Demo.staged (Demo.bytes "ab")) in
  out.1 = Ok tt
  /\ Fsys.node_at (w_fs out.2) Demo.zip_a
     = Some (File (Demo.bytes "ab" ++ Demo.five))
  /\ Download.sleeps (w_log out.2) = [2%Z].
Proof.
  cbv zeta.
  destruct (range_ignored_is_promoted_on_retry
              (Demo.server (Ok "") (fun _ => HeadOk (CLInt 5))
                 (fun _ _ => GetOk CLAbsent [Data Demo.five]))
              Demo.url_a Demo.zip_a Demo.part_a 3
              (Demo.staged (Demo.bytes "ab"))
              (w_fs (Demo.staged (Demo.bytes "ab")))
              (Demo.bytes "ab") Demo.five CLAbsent)
    as (H1 & H2 & _ & H4); try by_computation.
  { vm_compute. split; reflexivity. }
  split; [exact H1|]. split; [exact H2|]. rewrite H4. by_computation.
Defined.

(** The archive with [ok.txt] and [../../etc/passwd]: the error names the
    second entry, the first being harmless. *)
Lemma first_suspicious_member_is_reported_witness :
  Extract.suspicious "ok.txt" = false
  /\ Extract.suspicious "../../etc/passwd" = true
  /\ Extract.safe_extract_zip (H := Demo.library [])
       Demo.bad_zip Demo.bad_dir Demo.bad_world
     = (Raise (SuspiciousPath "../../etc/passwd"),
        set_fs (<[Demo.bad_dir := Dir]> (w_fs Demo.bad_world)) Demo.bad_world).
Proof.
  assert (h1 : Extract.suspicious "ok.txt" = false) by by_computation.
  assert (h2 : Extract.suspicious "../../etc/passwd" = true) by by_computation.
  split; [exact h1|]. split; [exact h2|].
  apply (first_suspicious_member_is_reported (H := Demo.library [])
           Demo.bad_zip Demo.bad_dir Demo.bad_world _ Demo.bad_archive
           ["ok.txt"] [] "../../etc/passwd");
    [by_computation|by_computation|by_computation| |exact h2].
  constructor; [exact h1|constructor].
Defined.

(** The same archive in a batch: the first run reports the failure, the
    second one finds the folder and says the archive is extracted. *)
Lemma failed_extraction_is_not_retried_witness :
  let L := Demo.library [] in
  let f := <[Demo.bad_dir := Dir]> (w_fs Demo.bad_world) in
  let w1 :=
    (Main.extract_step (H := L) Demo.args0 "bad.zip" Demo.bad_zip
       Demo.bad_world).2 in
  Fsys.joinpath (Main.dest_root Demo.args0) (Fsys.stem Demo.bad_zip)
    = Demo.bad_dir
  /\ Fsys.exists_ (w_fs Demo.bad_world) Demo.bad_dir = Ok false
  /\ Fsys.mkdir_p Demo.bad_dir (w_fs Demo.bad_world) = Ok f
  /\ Fsys.node_at (w_fs w1) Demo.bad_dir = Some Dir
  /\ Main.extract_step (H := L) Demo.args0 "bad.zip" Demo.bad_zip w1
     = (Ok tt, print (MsgAlreadyExtracted (Fsys.name Demo.bad_dir)) w1).
Proof.
  cbv zeta.
  assert (h0 : Fsys.joinpath (Main.dest_root Demo.args0)
                 (Fsys.stem Demo.bad_zip) = Demo.bad_dir) by by_computation.
  assert (h2 : Fsys.mkdir_p Demo.bad_dir (w_fs Demo.bad_world)
               = Ok (<[Demo.bad_dir := Dir]> (w_fs Demo.bad_world)))
    by by_computation.
  assert (h1 : Fsys.exists_ (w_fs Demo.bad_world) Demo.bad_dir = Ok false)
    by by_computation.
  split; [exact h0|]. split; [exact h1|]. split; [exact h2|].
  pose proof (failed_extraction_is_not_retried (H := Demo.library [])
                Demo.args0 "bad.zip" Demo.bad_zip Demo.bad_world
                (<[Demo.bad_dir := Dir]> (w_fs Demo.bad_world))) as Hthm.
  cbv zeta in Hthm. rewrite h0 in Hthm.
  destruct Hthm as (_ & Hd & Hagain);
    [by_computation|exact h1|exact h2|by_computation|].
  split; [exact Hd|exact Hagain].
Defined.

(** The URL [http://host/dir/a.zip]: the archive goes to [a.zip] in the
    destination root. *)
Lemma unescaped_name_stays_in_dest_witness :
  let L := Demo.library [] in
  Main.fname_of (H := L) Demo.url_a = "a.zip"
  /\ Main.zip_path_of Demo.dest0 (Main.fname_of (H := L) Demo.url_a)
     = Demo.dest0 ++ ["a.zip"].
Proof.
  cbv zeta.
  destruct (unescaped_name_stays_in_dest (H := Demo.library []) Demo.args0
              Demo.url_a) as (H1 & H2 & _); try by_computation.
  { apply (proj1 (bool_decide_eq_true _)). by_computation. }
  split; [exact H1|exact H2].
Defined.

(** With [--skip-existing] and the archive in place, a server that fails
    and one that works give the same run, and nothing is sent. *)
Lemma skip_existing_ignores_the_network_witness :
  let L := Demo.library [] in
  let a := Main.Args "http://host/dir/" Demo.dest0 true false in
  let w := World (<[Demo.zip_a := File (Demo.bytes "PKx.txt")]> Demo.disk0) [] in
  Main.process_url (H := L) (Demo.failing_server 5) a w Demo.url_a
  = Main.process_url (H := L) Demo.good_server a w Demo.url_a
  /\ Download.requests
       (w_log (Main.process_url (H := L) (Demo.failing_server 5) a w
                 Demo.url_a).2) = [].
Proof.
  cbv zeta.
  apply (skip_existing_ignores_the_network (H := Demo.library [])
           (Demo.failing_server 5) Demo.good_server
           (Main.Args "http://host/dir/" Demo.dest0 true false)
           (World (<[Demo.zip_a := File (Demo.bytes "PKx.txt")]> Demo.disk0) [])
           Demo.url_a); by_computation.
Defined.

(** A second run over a destination that holds the archive and its
    folder: the disk is as it was and only the index page is asked for. *)
Lemma rerun_changes_nothing_witness :
  let L := Demo.library [Demo.anchor "a.zip"] in
  let a := Main.Args "http://host/dir/" Demo.dest0 true false in
  let w :=
    World (<[["srv"; "dest"; "a"] := Dir]>
             (<[Demo.zip_a := File (Demo.bytes "PKx.txt")]> Demo.disk0)) [] in
  let out := Main.main (H := L) (Demo.failing_server 5) a w in
  Links.list_zip_urls (H := L) (Demo.failing_server 5) "http://host/dir/"
    = Ok [Demo.url_a]
  /\ w_fs out.2 = w_fs w
  /\ Main.exit_status out.1 = 0%Z
  /\ Download.requests (w_log out.2)
     = Download.requests (w_log w) ++ [EvFetch (Main.base_url a)].
Proof.
  cbv zeta.
  set (L := Demo.library [Demo.anchor "a.zip"]).
  set (a := Main.Args "http://host/dir/" Demo.dest0 true false).
  set (w := World (<[["srv"; "dest"; "a"] := Dir]>
                     (<[Demo.zip_a := File (Demo.bytes "PKx.txt")]> Demo.disk0))
              []).
  assert (h1 : Fsys.mkdir_p (Main.dest_root a) (w_fs w) = Ok (w_fs w))
    by by_computation.
  assert (h2 : Links.list_zip_urls (H := L) (Demo.failing_server 5)
                 (Main.base_url a) = Ok [Demo.url_a]) by by_computation.
  assert (h3 : Forall (Run.settled (H := L) a (w_fs w)) [Demo.url_a]).
  { constructor; [|constructor]. right. split; by_computation. }
  split; [exact h2|].
  exact (rerun_changes_nothing (H := L) (Demo.failing_server 5) a w
           [Demo.url_a] eq_refl eq_refl h1 h2 h3).
Defined.

(** An archive stored under the name [download]: without
    [--force-reextract] it counts as extracted. *)
Lemma archive_without_suffix_is_never_unpacked_witness :
  let L := Demo.library [] in
  let zip_path := Demo.dest0 ++ ["download"] in
  let w := World (<[zip_path := File (Demo.bytes "PKx.txt")]> Demo.disk0) [] in
  Fsys.joinpath Demo.dest0 (Fsys.stem zip_path) = zip_path
  /\ Main.extract_step (H := L) Demo.args0 "download" zip_path w
     = (Ok tt, print (MsgAlreadyExtracted "download") w).
Proof.
  cbv zeta.
  destruct (archive_without_suffix_is_never_unpacked (H := Demo.library [])
              Demo.args0 "download" "download" (Demo.dest0 ++ ["download"])
              (World (<[Demo.dest0 ++ ["download"]
                        := File (Demo.bytes "PKx.txt")]> Demo.disk0) [])
              (Demo.bytes "PKx.txt")) as (H1 & _ & H3 & _);
    try by_computation.
  { apply (proj1 (bool_decide_eq_true _)). by_computation. }
  split; [exact H1|]. apply H3. reflexivity.
Defined.

(** An archive stored under the name [..zip], with [--force-reextract]:
    the folder to clean is the destination root, and the file that was
    kept there is gone. *)
Lemma dot_stem_targets_dest_root_witness :
  let L := Demo.library [] in
  let a := Main.Args "http://host/dir/" Demo.dest0 false true in
  let w :=
    World (<[["srv"; "dest"; "keep.txt"] := File (Demo.bytes "k")]>
             (<[Demo.dest0 ++ ["..zip"] := File (Demo.bytes "PKx.txt")]>
                Demo.disk0)) [] in
  let out := Main.extract_step (H := L) a "..zip" (Demo.dest0 ++ ["..zip"]) w in
  Fsys.joinpath Demo.dest0 (Fsys.stem (Demo.dest0 ++ ["..zip"])) = Demo.dest0
  /\ w_fs w !! ["srv"; "dest"; "keep.txt"] = Some (File (Demo.bytes "k"))
  /\ out.1 = Ok tt
  /\ w_fs out.2 !! ["srv"; "dest"; "keep.txt"] = None.
Proof.
  cbv zeta.
  destruct (dot_stem_targets_dest_root (H := Demo.library [])
              (Main.Args "http://host/dir/" Demo.dest0 false true)
              "..zip" "..zip"
              (World (<[["srv"; "dest"; "keep.txt"] := File (Demo.bytes "k")]>
                        (<[Demo.dest0 ++ ["..zip"]
                           := File (Demo.bytes "PKx.txt")]> Demo.disk0)) []))
    as (H1 & _ & H3); try by_computation.
  { apply (proj1 (bool_decide_eq_true _)). by_computation. }
  split; [exact H1|]. split; [by_computation|].
  destruct (H3 eq_refl) as (Hok & Hgone & _). split; [exact Hok|].
  apply Hgone.
  - by exists ["keep.txt"].
  - by_computation.
Defined.
